(** * Jenkins to GitHub Actions converter: a shallow embedding

    The development follows [jenkins-to-gha-converter.py].  Python values are
    embedded as follows.

    - [str] is [string]; a character is an [ascii] read as a code point in
      0..255, so the text handled here is Latin-1 text.  Whitespace, letter
      case and printability are the Unicode ones restricted to that range.
    - the content of a file is a [string] too, read as bytes; reading a file
      as text decodes it (UTF-8) and translates its line ends, writing text
      encodes it.
    - the nested dict/list/scalar documents handed to [dict_to_yaml] are the
      inductive [value]; a [dict] is an association list in insertion order.
    - an exception is a constructor of [exn], carried by [result].
    - [re] is a small backtracking matcher over the regular expressions the
      converter uses, with CPython's priorities (greedy before lazy, leftmost
      start first). *)

From Stdlib Require Import Bool Arith NArith ZArith Lia List Ascii String.
From Stdlib Require Import DecimalString.
Import ListNotations.

Local Open Scope list_scope.
Local Open Scope string_scope.

Set Warnings "-register-all".

(** ** Python strings *)

Module Py.

Definition code (c : ascii) : N := N_of_ascii c.

Definition between (lo hi n : N) : bool := ((lo <=? n) && (n <=? hi))%N.

(** [str.isspace] on one character (what [\s] and [strip] use). *)
Definition isspace (c : ascii) : bool :=
  let n := code c in
  (between 9 13 n || between 28 32 n || (n =? 133) || (n =? 160))%N.

(** [str.lower] on one character. *)
Definition lower_char (c : ascii) : ascii :=
  let n := code c in
  if (between 65 90 n || (between 192 222 n && negb (n =? 215)))%N
  then ascii_of_N (n + 32) else c.

Fixpoint lower (s : string) : string :=
  match s with
  | EmptyString => EmptyString
  | String c s' => String (lower_char c) (lower s')
  end.

(** [s.startswith(p)]. *)
Definition startswith (s p : string) : bool := prefix p s.

(** [k in s] for strings. *)
Fixpoint contains (s k : string) : bool :=
  prefix k s ||
  match s with
  | EmptyString => false
  | String _ s' => contains s' k
  end.

Fixpoint lstrip (s : string) : string :=
  match s with
  | EmptyString => EmptyString
  | String c s' => if isspace c then lstrip s' else s
  end.

Fixpoint rstrip (s : string) : string :=
  match s with
  | EmptyString => EmptyString
  | String c s' =>
      match rstrip s' with
      | EmptyString => if isspace c then EmptyString else String c EmptyString
      | t => String c t
      end
  end.

(** [s.strip()]. *)
Definition strip (s : string) : string := rstrip (lstrip s).

Definition newline : ascii := ascii_of_N 10.

(** [s.split('\n')]: never empty, one more piece than there are newlines. *)
Fixpoint split_lines (s : string) : list string :=
  match s with
  | EmptyString => [EmptyString]
  | String c s' =>
      if Ascii.eqb c newline then EmptyString :: split_lines s'
      else match split_lines s' with
           | [] => [String c EmptyString]
           | l :: ls => String c l :: ls
           end
  end.

Fixpoint has_char (c : ascii) (s : string) : bool :=
  match s with
  | EmptyString => false
  | String d s' => Ascii.eqb c d || has_char c s'
  end.

(** [s.replace(c, '')] for a one-character [c]. *)
Fixpoint remove_char (c : ascii) (s : string) : string :=
  match s with
  | EmptyString => EmptyString
  | String d s' => if Ascii.eqb c d then remove_char c s' else String d (remove_char c s')
  end.

(** [fnmatch.fnmatch(name, pat)] on a case-sensitive file system, for
    patterns made of literal characters and the star. *)
Fixpoint fnmatch (pat name : string) : bool :=
  match pat with
  | EmptyString => match name with EmptyString => true | _ => false end
  | String c pat' =>
      if Ascii.eqb c "*" then
        (fix star (name : string) : bool :=
           fnmatch pat' name ||
           match name with
           | EmptyString => false
           | String _ name' => star name'
           end) name
      else
        match name with
        | EmptyString => false
        | String d name' => Ascii.eqb c d && fnmatch pat' name'
        end
  end.

(** ["  " * n]. *)
Fixpoint spaces (n : nat) : string :=
  match n with
  | O => EmptyString
  | S n' => "  " ++ spaces n'
  end.

Fixpoint join (sep : string) (l : list string) : string :=
  match l with
  | [] => EmptyString
  | [x] => x
  | x :: l' => x ++ sep ++ join sep l'
  end.

(** [str(n)] for an integer. *)
Definition str_of_int (z : Z) : string := NilZero.string_of_int (Z.to_int z).

Definition hex_digit (n : N) : ascii :=
  if (n <? 10)%N then ascii_of_N (48 + n) else ascii_of_N (87 + n).

Definition squote : ascii := ascii_of_N 39.
Definition dquote : ascii := ascii_of_N 34.
Definition backslash : ascii := ascii_of_N 92.

(** One character of [repr(s)] between the chosen quotes. *)
Definition repr_char (q c : ascii) : string :=
  let n := code c in
  if Ascii.eqb c q || Ascii.eqb c backslash then String backslash (String c EmptyString)
  else if (n =? 9)%N then String backslash "t"
  else if (n =? 10)%N then String backslash "n"
  else if (n =? 13)%N then String backslash "r"
  else if ((n <? 32) || between 127 160 n || (n =? 173))%N
       then String backslash (String "x" (String (hex_digit (n / 16)) (String (hex_digit (n mod 16)) EmptyString)))
  else String c EmptyString.

Fixpoint repr_chars (q : ascii) (s : string) : string :=
  match s with
  | EmptyString => EmptyString
  | String c s' => repr_char q c ++ repr_chars q s'
  end.

(** [repr(s)] for a string. *)
Definition repr_str (s : string) : string :=
  let q := if has_char squote s && negb (has_char dquote s) then dquote else squote in
  String q (repr_chars q s ++ String q EmptyString).

End Py.

(** ** Documents *)

(** The nested value a workflow is built from. *)
Inductive value : Type :=
| VStr (s : string)
| VBool (b : bool)
| VInt (z : Z)
| VList (l : list value)
| VDict (d : list (string * value)).

Definition dict := list (string * value).

(** [d.get(k)] / [d[k]]. *)
Fixpoint dict_get (k : string) (d : dict) : option value :=
  match d with
  | [] => None
  | (k', v) :: d' => if String.eqb k k' then Some v else dict_get k d'
  end.

(** [d[k] = v]: the key keeps its place when present, else goes last. *)
Fixpoint dict_set (k : string) (v : value) (d : dict) : dict :=
  match d with
  | [] => [(k, v)]
  | (k', v') :: d' =>
      if String.eqb k k' then (k, v) :: d' else (k', v') :: dict_set k v d'
  end.

(** [d.update(other)]. *)
Definition dict_update (d other : dict) : dict :=
  fold_left (fun acc kv => dict_set (fst kv) (snd kv) acc) other d.

Definition dict_keys (d : dict) : list string := map fst d.

(** [repr(v)], and [str(v)] as an f-string field formats it. *)
Fixpoint py_repr (v : value) : string :=
  match v with
  | VStr s => Py.repr_str s
  | VBool b => if b then "True" else "False"
  | VInt z => Py.str_of_int z
  | VList l => "[" ++ Py.join ", " (map py_repr l) ++ "]"
  | VDict d =>
      "{" ++ Py.join ", "
               (map (fun kv => Py.repr_str (fst kv) ++ ": " ++ py_repr (snd kv)) d)
          ++ "}"
  end.

Definition py_str (v : value) : string :=
  match v with
  | VStr s => s
  | _ => py_repr v
  end.

(** ** The YAML emitter *)

Fixpoint dict_to_yaml (data : value) (indent : nat) : list string :=
  let indent_str := Py.spaces indent in
  match data with
  | VDict d =>
      (fix items (d : list (string * value)) : list string :=
         match d with
         | [] => []
         | (key, v) :: d' =>
             List.app (match v with
             | VDict _ =>
                 (indent_str ++ key ++ ":") :: dict_to_yaml v (S indent)
             | VList l =>
                 (indent_str ++ key ++ ":") ::
                 (fix each (l : list value) : list string :=
                    match l with
                    | [] => []
                    | item :: l' =>
                        List.app (match item with
                        | VDict _ =>
                            match dict_to_yaml item (S indent) with
                            | [] => [indent_str ++ "- "]
                            | first :: rest =>
                                ((indent_str ++ "- ") ++ Py.strip first) :: rest
                            end
                        | _ => [indent_str ++ "- " ++ py_str item]
                        end) (each l')
                    end) l
             | VBool b =>
                 [indent_str ++ key ++ ": " ++ Py.lower (py_str (VBool b))]
             | VStr s =>
                 if Py.has_char Py.newline s
                 then (indent_str ++ key ++ ": |") ::
                      map (fun line => indent_str ++ "  " ++ line) (Py.split_lines s)
                 else [indent_str ++ key ++ ": " ++ s]
             | VInt z => [indent_str ++ key ++ ": " ++ py_str (VInt z)]
             end) (items d')
         end) d
  | _ => []
  end.

(** ** The stage classifier *)

Inductive stage_type : Type := Build | Test | Deliver | Security.

Definition stage_type_eqb (a b : stage_type) : bool :=
  match a, b with
  | Build, Build | Test, Test | Deliver, Deliver | Security, Security => true
  | _, _ => false
  end.

Definition build_keywords : list string := ["build"; "compile"; "package"].
Definition test_keywords : list string := ["test"; "unit"; "integration"].
Definition deploy_keywords : list string := ["deploy"; "deliver"; "publish"; "release"].
Definition security_keywords : list string := ["security"; "scan"; "vulnerability"; "audit"].

(** [any(keyword in stage_name for keyword in keywords)]. *)
Definition any_keyword (keywords : list string) (stage_name : string) : bool :=
  existsb (fun keyword => Py.contains stage_name keyword) keywords.

Definition _classify_stage (stage_name : string) : stage_type :=
  if any_keyword build_keywords stage_name then Build
  else if any_keyword test_keywords stage_name then Test
  else if any_keyword deploy_keywords stage_name then Deliver
  else if any_keyword security_keywords stage_name then Security
  else Build.

(** ** Exceptions *)

Inductive exn : Type := IndexError | ValueError.

Inductive result (A : Type) : Type :=
| Ok (a : A)
| Raise (e : exn).

Arguments Ok {A} a.
Arguments Raise {A} e.

Definition bind {A B : Type} (m : result A) (f : A -> result B) : result B :=
  match m with
  | Ok a => f a
  | Raise e => Raise e
  end.

Notation "x <- m ;; k" := (bind m (fun x => k))
  (at level 61, m at next level, right associativity).

(** [l[-1]]. *)
Fixpoint index_last {A : Type} (l : list A) : result A :=
  match l with
  | [] => Raise IndexError
  | [x] => Ok x
  | _ :: l' => index_last l'
  end.

(** ** Regular expressions *)

Module Re.

Inductive atom : Type :=
| Lit (c : ascii)                 (* one literal character *)
| Cls (p : ascii -> bool)         (* one character of a class *)
| Star (p : ascii -> bool)        (* class*, greedy *)
| Plus (p : ascii -> bool)        (* class+, greedy *)
| LazyStar (p : ascii -> bool)    (* class*?, lazy *)
| GroupOpen                       (* opening of group 1 *)
| GroupClose.                     (* closing of group 1 *)

Definition regex := list atom.

(** The text still to read when group 1 opened and when it closed. *)
Record marks : Type := { g_start : string; g_end : string }.

Definition no_marks : marks := {| g_start := EmptyString; g_end := EmptyString |}.

(** A literal under [re.IGNORECASE] ([ic]) or not.  On the code points
    0..255 of the text handled here two characters match without regard to
    case exactly when their lower cases are equal; beyond that range the
    two notions part, and the statements that compare them are made for
    ASCII text. *)
Definition lit_eqb (ic : bool) (c d : ascii) : bool :=
  if ic then Ascii.eqb (Py.lower_char c) (Py.lower_char d) else Ascii.eqb c d.

Section Loops.

Context {R : Type}.

(** Longest run first, then shorter ones, each followed by [k]. *)
Fixpoint greedy (p : ascii -> bool) (k : string -> option R) (s : string) : option R :=
  match s with
  | EmptyString => k s
  | String c s' =>
      if p c then
        match greedy p k s' with
        | Some r => Some r
        | None => k s
        end
      else k s
  end.

(** Shortest run first. *)
Fixpoint lazy (p : ascii -> bool) (k : string -> option R) (s : string) : option R :=
  match k s with
  | Some r => Some r
  | None =>
      match s with
      | EmptyString => None
      | String c s' => if p c then lazy p k s' else None
      end
  end.

End Loops.

(** Match [r] at the head of [s]; the result is the marks and the text left. *)
Fixpoint exec (ic : bool) (r : regex) (m : marks) (s : string) : option (marks * string) :=
  match r with
  | [] => Some (m, s)
  | Lit c :: r' =>
      match s with
      | String d s' => if lit_eqb ic c d then exec ic r' m s' else None
      | EmptyString => None
      end
  | Cls p :: r' =>
      match s with
      | String d s' => if p d then exec ic r' m s' else None
      | EmptyString => None
      end
  | Star p :: r' => greedy p (exec ic r' m) s
  | Plus p :: r' =>
      match s with
      | String d s' => if p d then greedy p (exec ic r' m) s' else None
      | EmptyString => None
      end
  | LazyStar p :: r' => lazy p (exec ic r' m) s
  | GroupOpen :: r' => exec ic r' {| g_start := s; g_end := g_end m |} s
  | GroupClose :: r' => exec ic r' {| g_start := g_start m; g_end := s |} s
  end.

(** The first [n] characters of [s]. *)
Definition take (n : nat) (s : string) : string := substring 0 n s.

(** The part of [s] read before [rest] was left. *)
Definition consumed (s rest : string) : string :=
  take (String.length s - String.length rest) s.

Record match_ : Type := { group0 : string; group1 : string; after : string }.

Definition match_at (ic : bool) (r : regex) (s : string) : option match_ :=
  match exec ic r no_marks s with
  | Some (m, rest) =>
      Some {| group0 := consumed s rest;
              group1 := consumed (g_start m) (g_end m);
              after := rest |}
  | None => None
  end.

(** [re.search]: the match at the leftmost start that has one. *)
Fixpoint search (ic : bool) (r : regex) (s : string) : option match_ :=
  match match_at ic r s with
  | Some m => Some m
  | None =>
      match s with
      | EmptyString => None
      | String _ s' => search ic r s'
      end
  end.

(** [re.findall] for a pattern with one group: group 1 of the successive
    matches, each search resuming where the previous match ended ([skip]
    counts the characters of that match still to pass).  The patterns of the
    converter never match the empty string. *)
Fixpoint findall_from (ic : bool) (r : regex) (skip : nat) (s : string) : list string :=
  match skip with
  | S n =>
      match s with
      | EmptyString => []
      | String _ s' => findall_from ic r n s'
      end
  | O =>
      match match_at ic r s with
      | Some m =>
          group1 m ::
          match s with
          | EmptyString => []
          | String _ s' => findall_from ic r (pred (String.length (group0 m))) s'
          end
      | None =>
          match s with
          | EmptyString => []
          | String _ s' => findall_from ic r 0 s'
          end
      end
  end.

Definition findall (ic : bool) (r : regex) (s : string) : list string :=
  findall_from ic r 0 s.

(** A string read as a sequence of literals (what [re.escape] yields). *)
Fixpoint lits (s : string) : regex :=
  match s with
  | EmptyString => []
  | String c s' => Lit c :: lits s'
  end.

Definition is_quote (c : ascii) : bool :=
  Ascii.eqb c Py.squote || Ascii.eqb c Py.dquote.

Definition not_quote (c : ascii) : bool := negb (is_quote c).

Definition any_char (c : ascii) : bool := true.

End Re.

Import Re.

(** The head of a stage declaration: the word stage, blanks, an opening
    parenthesis, blanks, and a quote of either kind. *)
Definition stage_open : regex :=
  (lits "stage" ++ [Star Py.isspace; Lit "("; Star Py.isspace; Cls is_quote])%list.

(** The tail of a stage declaration: a quote of either kind, blanks, and the
    closing parenthesis. *)
Definition stage_close : regex :=
  [Cls is_quote; Star Py.isspace; Lit ")"].

(** [stage_pattern] of [_parse_jenkinsfile]: group 1 is a non-empty run of
    characters other than quotes. *)
Definition stage_pattern : regex :=
  (stage_open ++ [GroupOpen; Plus not_quote; GroupClose] ++ stage_close)%list.

(** The declaration of one stage: group 1 is the escaped stage name. *)
Definition stage_decl_pattern (stage_name : string) : regex :=
  (stage_open ++ [GroupOpen] ++ lits stage_name ++ [GroupClose] ++ stage_close)%list.

(** Two closing braces with blanks between them. *)
Definition block_end : regex := [Lit "}"; Star Py.isspace; Lit "}"].

(** [stage_pattern] of [_extract_stage_commands]: the declaration of the
    stage, a lazy run of any characters, and two closing braces. *)
Definition stage_span_pattern (stage_name : string) : regex :=
  (stage_decl_pattern stage_name ++ [LazyStar any_char] ++ block_end)%list.

(** [sh_pattern]: the letters sh, at least one blank, and a quoted run of
    characters other than quotes, which is group 1. *)
Definition sh_pattern : regex :=
  (lits "sh" ++ [Plus Py.isspace; Cls is_quote; GroupOpen; Plus not_quote; GroupClose;
                 Cls is_quote])%list.

(** ** Paths *)

(** A path is its sequence of components. *)
Definition path := list string.

Definition parent (p : path) : path := removelast p.

(** [p.relative_to(base)]. *)
Fixpoint relative_to (p base : path) {struct base} : result path :=
  match base with
  | [] => Ok p
  | b :: base' =>
      match p with
      | [] => Raise ValueError
      | c :: p' => if String.eqb b c then relative_to p' base' else Raise ValueError
      end
  end.

(** [str(p)] for a relative path. *)
Definition path_str (p : path) : string :=
  match p with
  | [] => "."
  | _ => Py.join "/" p
  end.

(** ** The pipeline model *)

Inductive project_type : Type := Generic | Maven | Gradle | Node.

Record stage_info : Type := {
  name : string;
  type : stage_type;
  commands : list string
}.

Record pipeline_info : Type := {
  stages : list stage_info;
  tools : list string;
  triggers : list string;
  project_type_ : project_type;
  working_directory : option string
}.

(** The converter instance. *)
Record converter : Type := {
  input_path : path;
  output_path : path;
  java_versions : list string;
  default_runner : string
}.

(** ** The parser *)

Definition _extract_stage_commands (content stage_name : string) : list string :=
  match search true (stage_span_pattern stage_name) content with
  | Some stage_match => findall false sh_pattern (group0 stage_match)
  | None => []
  end.

(** [exists_] answers [Path.exists] for the run. *)
Definition _parse_jenkinsfile (self : converter) (exists_ : path -> bool)
    (content : string) (jenkinsfile : path) : result pipeline_info :=
  let project_dir := parent jenkinsfile in
  detected <-
    (if exists_ (project_dir ++ ["pom.xml"])%list then
       rel <- relative_to project_dir (input_path self) ;;
       Ok (Maven, Some (path_str rel))
     else if exists_ (project_dir ++ ["build.gradle"])%list
             || exists_ (project_dir ++ ["build.gradle.kts"])%list then
       rel <- relative_to project_dir (input_path self) ;;
       Ok (Gradle, Some (path_str rel))
     else if exists_ (project_dir ++ ["package.json"])%list then
       rel <- relative_to project_dir (input_path self) ;;
       Ok (Node, Some (path_str rel))
     else Ok (Generic, None)) ;;
  let stage_names := findall true stage_pattern content in
  let stage_infos :=
    map (fun stage =>
           {| name := stage;
              type := _classify_stage (Py.lower stage);
              commands := _extract_stage_commands content stage |})
        stage_names in
  let tools_ :=
    if Py.contains (Py.lower content) "jdk" || Py.contains (Py.lower content) "java"
    then ["java"] else [] in
  Ok {| stages := stage_infos;
        tools := tools_;
        triggers := [];
        project_type_ := fst detected;
        working_directory := snd detected |}.


(** ** The workflow generator *)

(** Truth value of an optional string. *)
Definition truthy (o : option string) : bool :=
  match o with
  | Some EmptyString => false
  | Some _ => true
  | None => false
  end.

(** [working_directory + "/" if working_directory else ""]. *)
Definition wd_prefix (working_directory : option string) : string :=
  match working_directory with
  | Some w => if truthy working_directory then w ++ "/" else ""
  | None => ""
  end.

(** [if 'run' in step and cond(step['run']): step['working-directory'] = wd].
    Every [run] of a generated step is a string. *)
Definition set_working_directory (cond : string -> bool) (wd : string) (step : value) : value :=
  match step with
  | VDict d =>
      match dict_get "run" d with
      | Some (VStr run) =>
          if cond run then VDict (dict_set "working-directory" (VStr wd) d) else step
      | _ => step
      end
  | _ => step
  end.

(** The loop over the steps, run only when [working_directory] is truthy. *)
Definition with_working_directory (cond : string -> bool)
    (working_directory : option string) (steps : list value) : list value :=
  match working_directory with
  | Some wd =>
      if truthy working_directory then map (set_working_directory cond wd) steps
      else steps
  | None => steps
  end.

(** [s] between double quotes. *)
Definition quoted (s : string) : string :=
  String Py.dquote (s ++ String Py.dquote EmptyString).

Definition checkout_step : value :=
  VDict [("name", VStr "Checkout code"); ("uses", VStr "actions/checkout@v4")].

Definition _create_maven_deliver_job (self : converter) (pipeline : pipeline_info)
    (working_directory : option string) : result value :=
  v1 <- index_last (java_versions self) ;;
  v2 <- index_last (java_versions self) ;;
  let steps :=
    [ checkout_step;
      VDict [("name", VStr ("Set up JDK " ++ v1));
             ("uses", VStr "actions/setup-java@v4");
             ("with", VDict [("java-version", VStr v2);
                             ("distribution", VStr "temurin");
                             ("cache", VStr "maven")])];
      VDict [("name", VStr "Download build artifacts");
             ("uses", VStr "actions/download-artifact@v4");
             ("with", VDict [("name", VStr "jar-artifact");
                             ("path", VStr (wd_prefix working_directory ++ "target/"))])];
      VDict [("name", VStr "Install to local repository");
             ("run", VStr ("echo " ++ quoted "Installing Maven-built Java application to local Maven repository" ++ "
mvn jar:jar install:install help:evaluate -Dexpression=project.name"))];
      VDict [("name", VStr "Extract project information");
             ("id", VStr "project-info");
             ("run", VStr ("echo " ++ quoted "Extracting project name and version" ++ "
NAME=$(mvn -q -DforceStdout help:evaluate -Dexpression=project.name)
VERSION=$(mvn -q -DforceStdout help:evaluate -Dexpression=project.version)
echo " ++ quoted "PROJECT_NAME=$NAME" ++ " >> $GITHUB_OUTPUT
echo " ++ quoted "PROJECT_VERSION=$VERSION" ++ " >> $GITHUB_OUTPUT
echo " ++ quoted "Project: $NAME" ++ "
echo " ++ quoted "Version: $VERSION"))];
      VDict [("name", VStr "Run application");
             ("run", VStr ("echo " ++ quoted "Running the Java application" ++ "
java -jar target/${{ steps.project-info.outputs.PROJECT_NAME }}-${{ steps.project-info.outputs.PROJECT_VERSION }}.jar"))]
    ] in
  Ok (VDict
        [("needs", VStr "build-and-test");
         ("runs-on", VStr (default_runner self));
         ("if", VStr "github.ref == 'refs/heads/main'");
         ("steps",
          VList (with_working_directory
                   (fun run => Py.contains run "mvn" || Py.contains run "java -jar")
                   working_directory steps))]).

Definition _create_security_job (self : converter) (pipeline : pipeline_info)
    (working_directory : option string) : result value :=
  v1 <- index_last (java_versions self) ;;
  v2 <- index_last (java_versions self) ;;
  let steps :=
    [ checkout_step;
      VDict [("name", VStr ("Set up JDK " ++ v1));
             ("uses", VStr "actions/setup-java@v4");
             ("with", VDict [("java-version", VStr v2);
                             ("distribution", VStr "temurin");
                             ("cache", VStr "maven")])];
      VDict [("name", VStr "Run OWASP Dependency Check");
             ("run", VStr "mvn org.owasp:dependency-check-maven:check");
             ("continue-on-error", VBool true)];
      VDict [("name", VStr "Upload OWASP Dependency Check results");
             ("uses", VStr "actions/upload-artifact@v4");
             ("if", VStr "always()");
             ("with", VDict [("name", VStr "owasp-dependency-check-report");
                             ("path", VStr (wd_prefix working_directory
                                            ++ "target/dependency-check-report.html"));
                             ("retention-days", VInt 30)])]
    ] in
  Ok (VDict
        [("runs-on", VStr (default_runner self));
         ("needs", VStr "build-and-test");
         ("steps",
          VList (with_working_directory (fun run => Py.contains run "mvn")
                   working_directory steps))]).

(** The three steps [jobs['build-and-test']] starts with. *)
Definition maven_setup_steps : list value :=
  [ checkout_step;
    VDict [("name", VStr "Set up JDK ${{ matrix.java-version }}");
           ("uses", VStr "actions/setup-java@v4");
           ("with", VDict [("java-version", VStr "${{ matrix.java-version }}");
                           ("distribution", VStr "temurin");
                           ("cache", VStr "maven")])];
    VDict [("name", VStr "Cache Maven dependencies");
           ("uses", VStr "actions/cache@v4");
           ("with", VDict [("path", VStr "~/.m2");
                           ("key", VStr "${{ runner.os }}-m2-${{ hashFiles('**/pom.xml') }}");
                           ("restore-keys", VStr "${{ runner.os }}-m2")])] ].

(** [maven_steps], given the last Java version. *)
Definition maven_steps (working_directory : option string) (last_version : string) : list value :=
  [ VDict [("name", VStr "Validate Maven project"); ("run", VStr "mvn validate")];
    VDict [("name", VStr "Compile project"); ("run", VStr "mvn compile")];
    VDict [("name", VStr "Run tests"); ("run", VStr "mvn test")];
    VDict [("name", VStr "Generate test report");
           ("uses", VStr "dorny/test-reporter@v1");
           ("if", VStr "success() || failure()");
           ("with", VDict [("name", VStr "Maven Tests (JDK ${{ matrix.java-version }})");
                           ("path", VStr (wd_prefix working_directory
                                          ++ "target/surefire-reports/*.xml"));
                           ("reporter", VStr "java-junit");
                           ("fail-on-error", VBool true)])];
    VDict [("name", VStr "Build package"); ("run", VStr "mvn -B -DskipTests clean package")];
    VDict [("name", VStr "Upload build artifacts");
           ("uses", VStr "actions/upload-artifact@v4");
           ("if", VStr ("matrix.java-version == '" ++ last_version ++ "'"));
           ("with", VDict [("name", VStr "jar-artifact");
                           ("path", VStr (wd_prefix working_directory ++ "target/*.jar"));
                           ("retention-days", VInt 30)])] ].

Definition has_deliver_stage (pipeline : pipeline_info) : bool :=
  existsb (fun stage => stage_type_eqb (type stage) Deliver) (stages pipeline).

Definition _generate_maven_jobs (self : converter) (pipeline : pipeline_info) : result dict :=
  let working_directory :=
    match working_directory pipeline with
    | Some working_dir =>
        if truthy (Some working_dir) && negb (String.eqb working_dir ".")
        then Some ("./" ++ working_dir) else None
    | None => None
    end in
  last_version <- index_last (java_versions self) ;;
  let steps :=
    (maven_setup_steps
       ++ with_working_directory (fun run => Py.startswith run "mvn") working_directory
            (maven_steps working_directory last_version))%list in
  let jobs :=
    dict_set "build-and-test"
      (VDict [("runs-on", VStr (default_runner self));
              ("strategy",
               VDict [("matrix",
                       VDict [("java-version", VList (map VStr (java_versions self)))])]);
              ("steps", VList steps)])
      [] in
  jobs <-
    (if has_deliver_stage pipeline then
       job <- _create_maven_deliver_job self pipeline working_directory ;;
       Ok (dict_set "deliver" job jobs)
     else Ok jobs) ;;
  job <- _create_security_job self pipeline working_directory ;;
  Ok (dict_set "security-scan" job jobs).

(** The steps the generic job gets after the checkout: one per command. *)
Definition generic_steps (pipeline : pipeline_info) : list value :=
  flat_map
    (fun stage =>
       map (fun command =>
              VDict [("name", VStr ("Run " ++ name stage)); ("run", VStr command)])
           (commands stage))
    (stages pipeline).

Definition _generate_generic_jobs (self : converter) (pipeline : pipeline_info) : dict :=
  dict_set "build-and-test"
    (VDict [("runs-on", VStr (default_runner self));
            ("steps", VList (checkout_step :: generic_steps pipeline))])
    [].

Definition project_type_eqb (a b : project_type) : bool :=
  match a, b with
  | Generic, Generic | Maven, Maven | Gradle, Gradle | Node, Node => true
  | _, _ => false
  end.

Definition _generate_gha_workflow (self : converter) (pipeline : pipeline_info) : result value :=
  jobs <-
    (if project_type_eqb (project_type_ pipeline) Maven then
       new_jobs <- _generate_maven_jobs self pipeline ;;
       Ok (dict_update [] new_jobs)
     else Ok (dict_update [] (_generate_generic_jobs self pipeline))) ;;
  Ok (VDict
        [("name", VStr "CI/CD Pipeline");
         ("on", VDict [("push", VDict [("branches", VList [VStr "main"; VStr "develop"])]);
                       ("pull_request", VDict [("branches", VList [VStr "main"])])]);
         ("jobs", VDict jobs)]).

(** ** The tree migrator *)

(** A file with its content (its bytes), or a directory with its listing.
    The input root and the output root are two such listings: the output
    directory is taken to lie outside the input directory and the input
    directory outside the output directory, and there are no links. *)
Inductive node : Type :=
| File (data : string)
| Dir (entries : list (string * node)).

Definition tree := list (string * node).

(** [(root / entry_name).exists()]. *)
Fixpoint tree_get (entry_name : string) (t : tree) : option node :=
  match t with
  | [] => None
  | (n, x) :: t' => if String.eqb entry_name n then Some x else tree_get entry_name t'
  end.

Definition tree_mem (entry_name : string) (t : tree) : bool :=
  match tree_get entry_name t with Some _ => true | None => false end.

Definition exclude_patterns : list string :=
  ["Jenkinsfile*"; "jenkins/"; ".git/"; "__pycache__/"; "*.pyc"; ".DS_Store"; "Thumbs.db"].

(** The filter [shutil.ignore_patterns] builds from [exclude_patterns], on
    one name. *)
Definition ignored (entry_name : string) : bool :=
  existsb (fun pattern => Py.fnmatch pattern entry_name) exclude_patterns.

(** [shutil.copytree(src, dst, ignore=...)] into a destination that does not
    exist yet: the copy of the listing of [src]. *)
Fixpoint copy_node (x : node) : node :=
  match x with
  | File data => File data
  | Dir entries =>
      Dir ((fix copytree (entries : list (string * node)) : list (string * node) :=
              match entries with
              | [] => []
              | (n, child) :: entries' =>
                  if ignored n then copytree entries'
                  else (n, copy_node child) :: copytree entries'
              end) entries)
  end.

Definition with_star (pattern : string) : bool := Py.has_char "*" pattern.
Definition with_slash (pattern : string) : bool := Py.has_char "/" pattern.

(** The two tests that skip a file. *)
Definition skip_file (entry_name : string) : bool :=
  existsb (fun pattern => Py.contains entry_name (Py.remove_char "*" pattern))
          (filter (fun pattern => negb (with_star pattern)) exclude_patterns)
  || existsb (fun pattern => Py.startswith entry_name (Py.remove_char "*" pattern))
             (filter with_star exclude_patterns).

(** The test that skips a directory. *)
Definition skip_dir (entry_name : string) : bool :=
  existsb (fun pattern => String.eqb (Py.remove_char "/" pattern) entry_name)
          (filter with_slash exclude_patterns).

(** One turn of the loop over [input_path.iterdir()]; [output] is the
    listing of the output root. *)
Definition copy_item (output : tree) (item : string * node) : tree :=
  let (item_name, x) := item in
  if Py.startswith item_name ".git" then output
  else
    match x with
    | File data =>
        if skip_file item_name then output
        else if negb (tree_mem item_name output)
             then (output ++ [(item_name, File data)])%list
             else output
    | Dir _ =>
        if skip_dir item_name then output
        else if negb (tree_mem item_name output)
             then (output ++ [(item_name, copy_node x)])%list
             else output
    end.

Definition _copy_source_code (input output : tree) : tree :=
  fold_left copy_item input output.

(** ** Where a stage is declared *)

(** The text from the first declaration of [stage_name] on: the leftmost
    place where the declaration pattern matches, the name being compared
    exactly when [exact] is set and without regard to letter case
    otherwise. *)
Fixpoint first_declaration (exact : bool) (stage_name content : string) : option string :=
  let here :=
    match match_at true (stage_decl_pattern stage_name) content with
    | Some m => if exact then String.eqb (group1 m) stage_name else true
    | None => false
    end in
  if here then Some content
  else
    match content with
    | EmptyString => None
    | String _ content' => first_declaration exact stage_name content'
    end.

(** The span that begins at the first declaration and runs to the nearest
    pair of closing braces after it, when there is one. *)
Definition first_declaration_span (exact : bool) (stage_name content : string) : option string :=
  match first_declaration exact stage_name content with
  | Some from_declaration =>
      match match_at true (stage_span_pattern stage_name) from_declaration with
      | Some m => Some (group0 m)
      | None => None
      end
  | None => None
  end.

(** The shell commands of a span. *)
Definition span_commands (span : option string) : list string :=
  match span with
  | Some text => findall false sh_pattern text
  | None => []
  end.

(** ** Notions used in the statements *)

(** [k] occurs in [s]. *)
Definition occurs (k s : string) : Prop := exists pre post, s = pre ++ k ++ post.

(** Some keyword of the set occurs in [s]. *)
Definition matches_any (keywords : list string) (s : string) : Prop :=
  exists k, In k keywords /\ occurs k s.

(** The classification by priority: build, test, deliver, security, and
    build when no set matches. *)
Inductive classified (s : string) : stage_type -> Prop :=
| classified_build :
    matches_any build_keywords s -> classified s Build
| classified_test :
    ~ matches_any build_keywords s -> matches_any test_keywords s -> classified s Test
| classified_deliver :
    ~ matches_any build_keywords s -> ~ matches_any test_keywords s ->
    matches_any deploy_keywords s -> classified s Deliver
| classified_security :
    ~ matches_any build_keywords s -> ~ matches_any test_keywords s ->
    ~ matches_any deploy_keywords s -> matches_any security_keywords s ->
    classified s Security
| classified_default :
    ~ matches_any build_keywords s -> ~ matches_any test_keywords s ->
    ~ matches_any deploy_keywords s -> ~ matches_any security_keywords s ->
    classified s Build.

(** The keys of the jobs of a workflow document. *)
Definition job_keys (workflow : value) : list string :=
  match workflow with
  | VDict w =>
      match dict_get "jobs" w with
      | Some (VDict jobs) => dict_keys jobs
      | _ => []
      end
  | _ => []
  end.

(** The steps of one job of a workflow document. *)
Definition job_steps (job_name : string) (workflow : value) : list value :=
  match workflow with
  | VDict w =>
      match dict_get "jobs" w with
      | Some (VDict jobs) =>
          match dict_get job_name jobs with
          | Some (VDict job) =>
              match dict_get "steps" job with
              | Some (VList steps) => steps
              | _ => []
              end
          | _ => []
          end
      | _ => []
      end
  | _ => []
  end.

(** A field of a step. *)
Definition step_field (field : string) (step : value) : option value :=
  match step with
  | VDict d => dict_get field d
  | _ => None
  end.

(** The steps that upload an artifact. *)
Definition is_upload_step (step : value) : bool :=
  match step_field "uses" step with
  | Some (VStr action) => String.eqb action "actions/upload-artifact@v4"
  | _ => false
  end.

(** The commands of all stages in order, each with the name of its stage. *)
Definition owned_commands (pipeline : pipeline_info) : list (string * string) :=
  flat_map (fun stage => map (fun command => (name stage, command)) (commands stage))
           (stages pipeline).

(** A converter with the default settings, and two pipelines to try the
    generator on. *)
Definition sample_converter : converter :=
  {| input_path := ["jenkins-repo"];
     output_path := ["gha-repo"];
     java_versions := ["17"; "21"];
     default_runner := "ubuntu-latest" |}.

Definition sample_maven_pipeline : pipeline_info :=
  {| stages := [ {| name := "Build"; type := Build; commands := ["mvn -B clean package"] |};
                 {| name := "Deliver"; type := Deliver; commands := ["./deliver.sh"] |} ];
     tools := ["java"];
     triggers := [];
     project_type_ := Maven;
     working_directory := Some "app" |}.

Definition sample_generic_pipeline : pipeline_info :=
  {| stages := [ {| name := "Build"; type := Build; commands := ["make"; "make"] |};
                 {| name := "Lint"; type := Build; commands := [] |};
                 {| name := "Deploy"; type := Deliver; commands := ["make install"] |} ];
     tools := [];
     triggers := [];
     project_type_ := Generic;
     working_directory := None |}.

(** The number of spaces a line starts with. *)
Fixpoint leading_spaces (line : string) : nat :=
  match line with
  | String c line' => if Ascii.eqb c " " then S (leading_spaces line') else 0
  | EmptyString => 0
  end.

(** The lines of one element of a sequence whose key stands at depth
    [indent]: a mapping is rendered one level deeper, its first line is
    stripped and joined to the marker, and its other lines follow as they
    are; anything else goes after the marker on one line. *)
Definition sequence_item_lines (indent : nat) (item : value) : list string :=
  match item with
  | VDict _ =>
      match dict_to_yaml item (S indent) with
      | [] => [Py.spaces indent ++ "- "]
      | first :: rest => ((Py.spaces indent ++ "- ") ++ Py.strip first) :: rest
      end
  | _ => [Py.spaces indent ++ "- " ++ py_str item]
  end.

(** The lines of one entry of a mapping rendered at depth [indent]. *)
Definition entry_lines (indent : nat) (key : string) (v : value) : list string :=
  match v with
  | VDict _ => (Py.spaces indent ++ key ++ ":") :: dict_to_yaml v (S indent)
  | VList l => (Py.spaces indent ++ key ++ ":") :: flat_map (sequence_item_lines indent) l
  | VBool b => [Py.spaces indent ++ key ++ ": " ++ (if b then "true" else "false")]
  | VStr s =>
      if Py.has_char Py.newline s
      then (Py.spaces indent ++ key ++ ": |") ::
           map (fun line => Py.spaces indent ++ "  " ++ line) (Py.split_lines s)
      else [Py.spaces indent ++ key ++ ": " ++ s]
  | VInt z => [Py.spaces indent ++ key ++ ": " ++ Py.str_of_int z]
  end.

(** The entries a run of the copy wants at the destination. *)
Definition wanted (item : string * node) : bool :=
  negb (Py.startswith (fst item) ".git") &&
  match snd item with
  | File _ => negb (skip_file (fst item))
  | Dir _ => negb (skip_dir (fst item))
  end.

(** A line that starts with the indent of depth [n]. *)
Definition indented (n : nat) (line : string) : Prop := exists t, line = Py.spaces n ++ t.

Definition lines_indented (v : value) : Prop :=
  forall n line, In line (dict_to_yaml v n) -> indented n line.

(** ** Patterns that need no backtracking *)

(** What is left of [s] after its longest run of characters of [p]. *)
Fixpoint skip (p : ascii -> bool) (s : string) : string :=
  match s with
  | EmptyString => EmptyString
  | String c s' => if p c then skip p s' else s
  end.

(** All characters of [s] are in [p]. *)
Fixpoint all_in (p : ascii -> bool) (s : string) : bool :=
  match s with
  | EmptyString => true
  | String c s' => p c && all_in p s'
  end.

(** The number of quote characters of [s]. *)
Fixpoint quotes (s : string) : nat :=
  match s with
  | EmptyString => 0
  | String c s' => (if is_quote c then 1 else 0) + quotes s'
  end.

(** The letter s in either case. *)
Definition s_like (c : ascii) : bool := Ascii.eqb (Py.lower_char "s") (Py.lower_char c).

(** The next atom that reads a character refuses every character of [p]. *)
Fixpoint refuses (ic : bool) (p : ascii -> bool) (r : regex) : Prop :=
  match r with
  | GroupOpen :: r' | GroupClose :: r' => refuses ic p r'
  | Lit c :: _ => forall d, p d = true -> lit_eqb ic c d = false
  | Cls q :: _ => forall d, p d = true -> q d = false
  | _ => False
  end.

(** Every greedy loop is followed by an atom that refuses what it reads, and
    there is no lazy loop: the first way to match is the only one. *)
Fixpoint straight (ic : bool) (r : regex) : Prop :=
  match r with
  | [] => True
  | Lit _ :: r' | Cls _ :: r' | GroupOpen :: r' | GroupClose :: r' => straight ic r'
  | Star p :: r' | Plus p :: r' => refuses ic p r' /\ straight ic r'
  | LazyStar _ :: _ => False
  end.

(** [t] is [s] or comes later in [s]. *)
Definition suffix_of (t s : string) : Prop := exists pre, s = pre ++ t.

(** Neither the letter s nor a quote. *)
Definition plain (c : ascii) : bool := negb (s_like c) && negb (is_quote c).

(** A text in which a lowercase and a capitalised stage are both declared,
    the second one twice. *)
Definition two_cases_pipeline : string :=
  "pipeline {
  stages {
    stage('build') { steps { sh 'make lower' } }
    stage('Build') { steps { sh 'make first' } }
    stage('Build') { steps { sh 'make second' } }
  }
}".

(** A text in which one stage is declared twice. *)
Definition twice_declared_pipeline : string :=
  "pipeline {
  stages {
    stage('Test') { steps { sh 'make check' } }
    stage('Test') { steps { sh 'make recheck' } }
  }
}".

(** The models the parser builds from these two texts, for a Jenkinsfile at
    the input root with no project file next to it. *)
Definition two_cases_model : pipeline_info :=
  {| stages := [ {| name := "build"; type := Build; commands := ["make lower"] |};
                 {| name := "Build"; type := Build; commands := ["make lower"] |};
                 {| name := "Build"; type := Build; commands := ["make lower"] |} ];
     tools := [];
     triggers := [];
     project_type_ := Generic;
     working_directory := None |}.

Definition twice_declared_model : pipeline_info :=
  {| stages := [ {| name := "Test"; type := Test; commands := ["make check"] |};
                 {| name := "Test"; type := Test; commands := ["make check"] |} ];
     tools := [];
     triggers := [];
     project_type_ := Generic;
     working_directory := None |}.

(** A converter with no Java version configured. *)
Definition versionless_converter : converter :=
  {| input_path := ["jenkins-repo"];
     output_path := ["gha-repo"];
     java_versions := [];
     default_runner := "ubuntu-latest" |}.

(** An input root and an output root that has been written to before. *)
Definition sample_input : tree :=
  [ ("Jenkinsfile", File "pipeline { }");
    ("README.md", File "new text");
    ("src", Dir [("Main.java", File "class Main { }"); ("Jenkinsfile.bak", File "")]);
    ("docs", Dir [("guide.md", File "new guide")]) ].

Definition sample_output : tree :=
  [ (".github", Dir [("workflows", Dir [("ci.yml", File "name: CI/CD Pipeline")])]);
    ("README.md", File "old text");
    ("docs", Dir [("notes.md", File "kept")]) ].

(** ** The rest of the converter *)

(** The converter runs in a file system that holds two directories: the
    input root, with the listing [input], at [input_path], and the output
    root, with the listing [output], at [output_path].  The output root lies
    outside the input root and nothing else is looked at. *)

(** [s.replace(a, b)] for one-character [a] and [b]. *)
Fixpoint replace_char (a b : ascii) (s : string) : string :=
  match s with
  | EmptyString => EmptyString
  | String c s' => String (if Ascii.eqb c a then b else c) (replace_char a b s')
  end.

(** [p.name]: the last component, empty for the path with no component. *)
Definition path_name (p : path) : string := last p "".

Definition _generate_workflow_name (relative_path : path) : string :=
  let parent_name := path_name (parent relative_path) in
  if negb (String.eqb parent_name "") && negb (String.eqb parent_name ".")
  then "ci-" ++ replace_char " " "-" (Py.lower parent_name)
  else "ci".

Definition jenkinsfile_names : list string :=
  ["Jenkinsfile"; "jenkinsfile"; "Jenkinsfile.groovy"].

(** [file in jenkinsfile_names]. *)
Definition is_jenkinsfile_name (file : string) : bool :=
  existsb (String.eqb file) jenkinsfile_names.

(** [os.walk] from the directory [x] at [root], top down: the Jenkinsfiles
    among the files of the directory, then those of its sub-directories in
    turn, the ones whose name starts with .git being pruned. *)
Fixpoint walk_jenkinsfiles (x : node) (root : path) : list path :=
  match x with
  | File _ => []
  | Dir entries =>
      ((fix files (entries : list (string * node)) : list path :=
          match entries with
          | [] => []
          | (n, File _) :: entries' =>
              if is_jenkinsfile_name n then (root ++ [n]) :: files entries'
              else files entries'
          | (_, Dir _) :: entries' => files entries'
          end) entries
       ++
       (fix dirs (entries : list (string * node)) : list path :=
          match entries with
          | [] => []
          | (n, child) :: entries' =>
              match child with
              | Dir _ =>
                  if Py.startswith n ".git" then dirs entries'
                  else walk_jenkinsfiles child (root ++ [n]) ++ dirs entries'
              | File _ => dirs entries'
              end
          end) entries)%list
  end.

Definition _find_jenkinsfiles (self : converter) (input : tree) : list path :=
  walk_jenkinsfiles (Dir input) (input_path self).

(** The node at a path below a root with the listing [t]. *)
Fixpoint tree_at (t : tree) (p : path) : option node :=
  match p with
  | [] => Some (Dir t)
  | n :: p' =>
      match tree_get n t with
      | Some (Dir entries) => tree_at entries p'
      | Some (File data) =>
          match p' with
          | [] => Some (File data)
          | _ :: _ => None
          end
      | None => None
      end
  end.

(** [p.exists()] during a run. *)
Definition fs_exists (self : converter) (input : tree) (p : path) : bool :=
  match relative_to p (input_path self) with
  | Ok rel =>
      match tree_at input rel with
      | Some _ => true
      | None => false
      end
  | Raise _ => false
  end.

(** The errors of the operating system the converter can meet. *)
Inductive oserror : Type :=
| FileExistsError | FileNotFoundError | NotADirectoryError | IsADirectoryError.

(** [BeyondLatin1] is no exception of the program: it marks a text with a
    character above U+00FF, which the strings used here do not hold. *)
Inductive failure : Type :=
| Exn (e : exn)
| OSError (e : oserror)
| BeyondLatin1.

Inductive outcome (A : Type) : Type :=
| Done (a : A)
| Failed (e : failure).

Arguments Done {A} a.
Arguments Failed {A} e.

Definition and_then {A B : Type} (m : outcome A) (f : A -> outcome B) : outcome B :=
  match m with
  | Done a => f a
  | Failed e => Failed e
  end.

Definition lift {A : Type} (m : result A) : outcome A :=
  match m with
  | Ok a => Done a
  | Raise e => Failed (Exn e)
  end.

(** The entry [n] is replaced where it stands, or added at the end. *)
Fixpoint tree_put (n : string) (x : node) (t : tree) : tree :=
  match t with
  | [] => [(n, x)]
  | (m, y) :: t' =>
      if String.eqb n m then (n, x) :: t' else (m, y) :: tree_put n x t'
  end.

(** [workflows_dir.mkdir(parents=True, exist_ok=True)] on the output root. *)
Definition _setup_output_directory (output : tree) : outcome tree :=
  match tree_get ".github" output with
  | None => Done (output ++ [(".github", Dir [("workflows", Dir [])])])%list
  | Some (File _) => Failed (OSError NotADirectoryError)
  | Some (Dir entries) =>
      match tree_get "workflows" entries with
      | None =>
          Done (tree_put ".github" (Dir (entries ++ [("workflows", Dir [])])%list) output)
      | Some (Dir _) => Done output
      | Some (File _) => Failed (OSError FileExistsError)
      end
  end.

(** *** Text files *)

Definition carriage_return : ascii := ascii_of_N 13.

(** Universal newlines, the default of a file opened for reading as text:
    a carriage return followed by a line feed, and a carriage return alone,
    are read as one line feed. *)
Fixpoint translate_newlines (after_cr : bool) (s : string) : string :=
  match s with
  | EmptyString => EmptyString
  | String c s' =>
      if Ascii.eqb c carriage_return then String Py.newline (translate_newlines true s')
      else if Ascii.eqb c Py.newline && after_cr then translate_newlines false s'
      else String c (translate_newlines false s')
  end.

Definition universal_newlines (s : string) : string := translate_newlines false s.

(** What decoding bytes gives: a text, an error ([UnicodeDecodeError]), or
    a text with a character above U+00FF. *)
Inductive decoded : Type :=
| Text (s : string)
| Undecodable
| Beyond.

Definition decoded_cons (c : ascii) (d : decoded) : decoded :=
  match d with
  | Text s => Text (String c s)
  | _ => d
  end.

Definition decoded_beyond (d : decoded) : decoded :=
  match d with
  | Undecodable => Undecodable
  | _ => Beyond
  end.

Definition continuation (b : ascii) : bool := Py.between 128 191 (Py.code b).

(** The second byte of a sequence of three: no overlong form, no surrogate. *)
Definition second_of_three (lead : N) (b : ascii) : bool :=
  (if lead =? 224 then Py.between 160 191 (Py.code b)
   else if lead =? 237 then Py.between 128 159 (Py.code b)
   else continuation b)%N.

(** The second byte of a sequence of four: no overlong form, at most U+10FFFF. *)
Definition second_of_four (lead : N) (b : ascii) : bool :=
  (if lead =? 240 then Py.between 144 191 (Py.code b)
   else if lead =? 244 then Py.between 128 143 (Py.code b)
   else continuation b)%N.

(** [bytes.decode('utf-8')], strict. *)
Fixpoint utf8_decode (data : string) : decoded :=
  match data with
  | EmptyString => Text EmptyString
  | String b rest =>
      let n := Py.code b in
      if (n <? 128)%N then decoded_cons b (utf8_decode rest)
      else if Py.between 194 223 n then
        match rest with
        | String c rest' =>
            if continuation c then
              if (n <=? 195)%N
              then decoded_cons (ascii_of_N ((n - 192) * 64 + (Py.code c - 128)))
                                (utf8_decode rest')
              else decoded_beyond (utf8_decode rest')
            else Undecodable
        | EmptyString => Undecodable
        end
      else if Py.between 224 239 n then
        match rest with
        | String c (String d rest') =>
            if second_of_three n c && continuation d
            then decoded_beyond (utf8_decode rest') else Undecodable
        | _ => Undecodable
        end
      else if Py.between 240 244 n then
        match rest with
        | String c (String d (String e rest')) =>
            if second_of_four n c && continuation d && continuation e
            then decoded_beyond (utf8_decode rest') else Undecodable
        | _ => Undecodable
        end
      else Undecodable
  end.

(** [str.encode('utf-8')] on the text handled here: one byte below U+0080,
    two bytes from there to U+00FF. *)
Fixpoint utf8_encode (text : string) : string :=
  match text with
  | EmptyString => EmptyString
  | String c text' =>
      let n := Py.code c in
      if (n <? 128)%N then String c (utf8_encode text')
      else String (ascii_of_N (192 + n / 64))
             (String (ascii_of_N (128 + n mod 64)) (utf8_encode text'))
  end.

(** [open(jenkinsfile, 'r', encoding='utf-8').read()]: the bytes are decoded
    and the line ends translated.  [UnicodeDecodeError] is a [ValueError]. *)
Definition read_text (self : converter) (input : tree) (file : path) : outcome string :=
  match relative_to file (input_path self) with
  | Ok rel =>
      match tree_at input rel with
      | Some (File data) =>
          match utf8_decode data with
          | Text text => Done (universal_newlines text)
          | Undecodable => Failed (Exn ValueError)
          | Beyond => Failed BeyondLatin1
          end
      | Some (Dir _) => Failed (OSError IsADirectoryError)
      | None => Failed (OSError FileNotFoundError)
      end
  | Raise _ => Failed (OSError FileNotFoundError)
  end.

(** [open(workflows_dir / file, 'w', encoding='utf-8').write(text)].  The
    text is encoded; a line feed is written as it is, the line end of Linux
    and macOS. *)
Definition write_workflow (file text : string) (output : tree) : outcome tree :=
  match tree_get ".github" output with
  | Some (Dir entries) =>
      match tree_get "workflows" entries with
      | Some (Dir workflows) =>
          match tree_get file workflows with
          | Some (Dir _) => Failed (OSError IsADirectoryError)
          | _ =>
              Done (tree_put ".github"
                      (Dir (tree_put "workflows"
                              (Dir (tree_put file (File (utf8_encode text)) workflows))
                              entries))
                      output)
          end
      | Some (File _) => Failed (OSError NotADirectoryError)
      | None => Failed (OSError FileNotFoundError)
      end
  | Some (File _) => Failed (OSError NotADirectoryError)
  | None => Failed (OSError FileNotFoundError)
  end.

(** The text written for a workflow. *)
Definition workflow_text (workflow : value) : string :=
  Py.join (String Py.newline "") (dict_to_yaml workflow 0) ++ String Py.newline "".

(** The body of the [try] of [_convert_jenkinsfile]. *)
Definition try_convert_jenkinsfile (self : converter) (input output : tree)
    (jenkinsfile : path) : outcome tree :=
  and_then (read_text self input jenkinsfile) (fun content =>
  and_then (lift (_parse_jenkinsfile self (fs_exists self input) content jenkinsfile))
    (fun pipeline =>
  and_then (lift (_generate_gha_workflow self pipeline)) (fun workflow =>
  and_then (lift (relative_to jenkinsfile (input_path self))) (fun relative_path =>
  let workflow_name := _generate_workflow_name relative_path in
  write_workflow (workflow_name ++ ".yml") (workflow_text workflow) output)))).

(** Any exception is logged and the run goes on. *)
Definition _convert_jenkinsfile (self : converter) (input output : tree)
    (jenkinsfile : path) : tree :=
  match try_convert_jenkinsfile self input output jenkinsfile with
  | Done output' => output'
  | Failed _ => output
  end.

(** [convert] on an input root and an output root that are two separate
    directories: on these the copy meets no error.  When one root lies below
    the other the two listings do not describe the run. *)
Definition convert (self : converter) (input output : tree) : outcome tree :=
  and_then (_setup_output_directory output) (fun output =>
  let jenkinsfiles := _find_jenkinsfiles self input in
  match jenkinsfiles with
  | [] => Done output
  | _ :: _ =>
      Done (_copy_source_code input
              (fold_left (_convert_jenkinsfile self input) jenkinsfiles output))
  end).


(** ** Notions used in the further statements *)

Definition newline_str : string := String Py.newline "".

(** No line break in [s]. *)
Definition one_line (s : string) : bool := negb (Py.has_char Py.newline s).

(** No key of the document and no string that is an element of one of its
    sequences holds a line break. *)
Fixpoint one_line_entries (v : value) : bool :=
  match v with
  | VDict d => forallb (fun kv => one_line (fst kv) && one_line_entries (snd kv)) d
  | VList l =>
      forallb (fun item =>
                 match item with
                 | VStr s => one_line s
                 | _ => one_line_entries item
                 end) l
  | _ => true
  end.

(** The lines of [v] hold no line break when its entries hold none. *)
Definition renders_one_line (v : value) : Prop :=
  one_line_entries v = true ->
  forall n line, In line (dict_to_yaml v n) -> one_line line = true.

(** A document with a block of text under a key, next to a sequence. *)
Definition sample_document : value :=
  VDict [("name", VStr "Install");
         ("run", VStr "echo one
echo two");
         ("with", VDict [("retention-days", VInt 30); ("fail-on-error", VBool true)]);
         ("branches", VList [VStr "main"; VStr "develop"])].

(** From the listing [t], going down through the directories [dirs], none of
    which has a name that starts with .git, one reaches the listing [t']. *)
Inductive walked : tree -> path -> tree -> Prop :=
| walked_here (t : tree) : walked t [] t
| walked_down (t : tree) (n : string) (entries : tree) (dirs : path) (t' : tree) :
    In (n, Dir entries) t -> Py.startswith n ".git" = false ->
    walked entries dirs t' -> walked t (n :: dirs) t'.

(** [p] is a file with the name of a Jenkinsfile, below [root], in a
    directory the walk reaches. *)
Definition found_below (t : tree) (root p : path) : Prop :=
  exists dirs file data t',
    p = (root ++ dirs ++ [file])%list /\ walked t dirs t' /\
    In (file, File data) t' /\ is_jenkinsfile_name file = true.

(** The Jenkinsfiles among the files of one listing. *)
Fixpoint jenkinsfiles_here (root : path) (entries : tree) : list path :=
  match entries with
  | [] => []
  | (n, File _) :: entries' =>
      if is_jenkinsfile_name n then (root ++ [n])%list :: jenkinsfiles_here root entries'
      else jenkinsfiles_here root entries'
  | (_, Dir _) :: entries' => jenkinsfiles_here root entries'
  end.

(** The Jenkinsfiles below one entry of a listing. *)
Definition jenkinsfiles_below (root : path) (entry : string * node) : list path :=
  match snd entry with
  | Dir _ =>
      if Py.startswith (fst entry) ".git" then []
      else walk_jenkinsfiles (snd entry) (root ++ [fst entry])%list
  | File _ => []
  end.

(** An input tree with Jenkinsfiles at several depths. *)
Definition sample_project : tree :=
  [ ("Jenkinsfile", File "pipeline { stages { stage('Build') { steps { sh 'make' } } } }");
    (".git", Dir [("Jenkinsfile", File "not a pipeline")]);
    ("My App", Dir [("pom.xml", File "<project/>");
                    ("jenkinsfile", File "pipeline { stages { stage('Deploy') { steps { sh 'mvn deploy' } } } }");
                    ("src", Dir [("Main.java", File "class Main { }")])]) ].

(** The lines every workflow file starts with. *)
Definition header_lines : list string :=
  ["name: CI/CD Pipeline"; "on:"; "  push:"; "    branches:"; "    - main";
   "    - develop"; "  pull_request:"; "    branches:"; "    - main"; "jobs:"].

(** The steps of all the jobs of a workflow, job after job. *)
Definition all_steps (workflow : value) : list value :=
  match workflow with
  | VDict w =>
      match dict_get "jobs" w with
      | Some (VDict jobs) =>
          flat_map (fun kv =>
                      match snd kv with
                      | VDict job =>
                          match dict_get "steps" job with
                          | Some (VList steps) => steps
                          | _ => []
                          end
                      | _ => []
                      end) jobs
      | _ => []
      end
  | _ => []
  end.

(** The directory the Maven steps are sent to: none for a project at the
    input root. *)
Definition override_of (working_directory : option string) : option string :=
  match working_directory with
  | Some w => if String.eqb w "" || String.eqb w "." then None else Some ("./" ++ w)
  | None => None
  end.

(** The Maven pipeline of the sample with other stages: only the place of
    the project and the presence of a delivery stage are the same. *)
Definition other_maven_pipeline : pipeline_info :=
  {| stages := [ {| name := "Publish"; type := Deliver; commands := [] |};
                 {| name := "Unit tests"; type := Test; commands := ["mvn -q test"; "echo done"] |} ];
     tools := [];
     triggers := [];
     project_type_ := Maven;
     working_directory := Some "app" |}.

(** No entry of the tree, at any depth, has a name the copy of a directory
    leaves out. *)
Fixpoint clean (x : node) : bool :=
  match x with
  | File _ => true
  | Dir entries => forallb (fun e => negb (ignored (fst e)) && clean (snd e)) entries
  end.

(** The listing of the copy of a directory. *)
Definition copied_entries (entries : tree) : tree :=
  match copy_node (Dir entries) with
  | Dir entries' => entries'
  | File _ => []
  end.

(** What one run of the copy adds for an item of the input root. *)
Definition to_copy (output : tree) (item : string * node) : bool :=
  wanted item && negb (tree_mem (fst item) output).

(** The output root is ready for workflows: .github/workflows is a
    directory with the listing [workflows]. *)
Definition workflows_ready (output workflows : tree) : Prop :=
  exists entries,
    tree_get ".github" output = Some (Dir entries) /\
    tree_get "workflows" entries = Some (Dir workflows).

(** An input root with no Jenkinsfile outside its .git directory. *)
Definition plain_project : tree :=
  [ ("README.md", File "read me");
    (".git", Dir [("Jenkinsfile", File "not a pipeline")]);
    ("src", Dir [("Main.java", File "class Main { }")]) ].

(** An output root that has been set up. *)
Definition ready_output : tree := [(".github", Dir [("workflows", Dir [])])].

(** The jobs of a workflow document, key and job. *)
Definition workflow_jobs (workflow : value) : dict :=
  match workflow with
  | VDict w =>
      match dict_get "jobs" w with
      | Some (VDict jobs) => jobs
      | _ => []
      end
  | _ => []
  end.

(** A field of a job. *)
Definition job_field (field : string) (job : value) : option value :=
  match job with
  | VDict d => dict_get field d
  | _ => None
  end.



(** A text of ASCII characters. *)
Definition ascii_only (s : string) : bool :=
  forallb (fun c => (Py.code c <? 128)%N) (list_ascii_of_string s).


(** A Jenkinsfile with the line ends of Windows and of the old Mac OS. *)
Definition crlf_project : tree :=
  [("Jenkinsfile",
    File ("pipeline {" ++ String carriage_return (String Py.newline
          ("stage('Build') { steps { sh 'make' } } }" ++ String carriage_return ""))))].

(** * Properties *)

(** ** Strings *)

Lemma append_assoc (a b c : string) : (a ++ b) ++ c = a ++ (b ++ c).
Proof. induction a as [|x a IH]; simpl; [reflexivity | now rewrite IH]. Qed.

Lemma length_append (a b : string) :
  String.length (a ++ b) = String.length a + String.length b.
Proof. induction a as [|x a IH]; simpl; [reflexivity | now rewrite IH]. Qed.

Lemma prefix_iff (p s : string) : prefix p s = true <-> exists post, s = p ++ post.
Proof.
  revert s; induction p as [|c p IH]; intros s.
  - destruct s; simpl; split; intros; eauto.
  - destruct s as [|d s]; simpl.
    + split; [discriminate | intros [post H]; discriminate].
    + destruct (ascii_dec c d) as [Hcd|Hcd].
      * subst d. rewrite IH. split; intros [post H]; exists post; congruence.
      * split; [discriminate | intros [post H]; congruence].
Qed.

Lemma contains_iff (s k : string) : Py.contains s k = true <-> occurs k s.
Proof.
  induction s as [|c s IH]; cbn [Py.contains].
  - rewrite orb_false_r, prefix_iff. split.
    + intros [post H]. exists "", post. exact H.
    + intros [pre [post H]]. destruct pre; simpl in H.
      * now exists post.
      * discriminate.
  - rewrite orb_true_iff, IH, prefix_iff. split.
    + intros [[post H] | [pre [post H]]].
      * exists "", post. exact H.
      * exists (String c pre), post. simpl. now rewrite H.
    + intros [pre [post H]]. destruct pre as [|d pre]; simpl in H.
      * left. now exists post.
      * right. exists pre, post. congruence.
Qed.

Lemma any_keyword_iff (keywords : list string) (s : string) :
  any_keyword keywords s = true <-> matches_any keywords s.
Proof.
  unfold any_keyword, matches_any. rewrite existsb_exists.
  split; intros [k [Hin Hk]]; exists k; split; auto; now apply contains_iff.
Qed.

Lemma any_keyword_false (keywords : list string) (s : string) :
  any_keyword keywords s = false <-> ~ matches_any keywords s.
Proof.
  rewrite <- any_keyword_iff. destruct (any_keyword keywords s); split; congruence.
Qed.

(** ** The stage classifier *)

Lemma classify_stage_classified (s : string) : classified s (_classify_stage s).
Proof.
  unfold _classify_stage.
  destruct (any_keyword build_keywords s) eqn:Hb.
  { apply classified_build. now apply any_keyword_iff. }
  apply any_keyword_false in Hb.
  destruct (any_keyword test_keywords s) eqn:Ht.
  { apply classified_test; auto. now apply any_keyword_iff. }
  apply any_keyword_false in Ht.
  destruct (any_keyword deploy_keywords s) eqn:Hd.
  { apply classified_deliver; auto. now apply any_keyword_iff. }
  apply any_keyword_false in Hd.
  destruct (any_keyword security_keywords s) eqn:Hs.
  { apply classified_security; auto. now apply any_keyword_iff. }
  apply any_keyword_false in Hs.
  now apply classified_default.
Qed.

Lemma classified_functional (s : string) (t u : stage_type) :
  classified s t -> classified s u -> t = u.
Proof. intros Ht Hu; destruct Ht; destruct Hu; try reflexivity; contradiction. Qed.

(** C1. The classifier is total and decides by priority: the first of the
    build, test, deliver and security keyword sets one of whose words occurs
    in the lowercased name gives the category, and build is the default.  So
    a name with a build word and a test word is build, and the five names of
    the specification classify as it says. *)
Theorem classify_stage_by_priority :
  (forall s, classified s (_classify_stage s)) /\
  (forall s t, classified s t -> _classify_stage s = t) /\
  (forall s, matches_any build_keywords s -> _classify_stage s = Build) /\
  _classify_stage "build and test" = Build /\
  _classify_stage "security audit" = Security /\
  _classify_stage "deploy to prod" = Deliver /\
  _classify_stage "run tests" = Test /\
  _classify_stage "lint" = Build /\
  map (fun s => _classify_stage (Py.lower s))
      ["Build and Test"; "Security Audit"; "Deploy to Prod"; "Run Tests"; "Lint"]
  = [Build; Security; Deliver; Test; Build].
Proof.
  split; [exact classify_stage_classified|].
  split.
  { intros s t H. exact (classified_functional s _ _ (classify_stage_classified s) H). }
  split.
  { intros s H. unfold _classify_stage.
    apply any_keyword_iff in H. now rewrite H. }
  repeat split; reflexivity.
Qed.

(** ** The emitter at the root *)

(** C10. A document whose root is a sequence or a scalar renders to no line
    at all, whatever it holds; a rendering with a line in it comes from a
    mapping. *)
Theorem dict_to_yaml_non_mapping_root :
  (forall l indent, dict_to_yaml (VList l) indent = []) /\
  (forall s indent, dict_to_yaml (VStr s) indent = []) /\
  (forall b indent, dict_to_yaml (VBool b) indent = []) /\
  (forall z indent, dict_to_yaml (VInt z) indent = []) /\
  (forall doc indent, dict_to_yaml doc indent <> [] -> exists d, doc = VDict d) /\
  dict_to_yaml (VList [VDict [("name", VStr "Checkout code")]; VStr "main"]) 0 = [].
Proof.
  repeat split; try reflexivity.
  intros doc indent H. destruct doc; try (now elim H). now exists d.
Qed.

(** ** The workflow generator *)

Lemma index_last_app {A : Type} (l : list A) (x : A) : index_last (l ++ [x])%list = Ok x.
Proof.
  induction l as [|y l IH]; [reflexivity|].
  simpl. destruct (l ++ [x])%list eqn:E; [now destruct l | exact IH].
Qed.

Lemma index_last_cases {A : Type} (l : list A) :
  (l = [] /\ index_last l = Raise IndexError) \/
  (exists l' x, l = (l' ++ [x])%list /\ index_last l = Ok x).
Proof.
  destruct l as [|y l]; [left; now split|].
  right. destruct (@exists_last A (y :: l)) as [l' [x E]]; [discriminate|].
  exists l', x. split; [exact E|]. rewrite E. apply index_last_app.
Qed.

(** The jobs of a Maven project once the last Java version is known. *)
Lemma generate_maven_jobs_ok (self : converter) (pipeline : pipeline_info)
    (vs : list string) (v : string) :
  java_versions self = (vs ++ [v])%list ->
  exists wd build deliver security,
    _generate_maven_jobs self pipeline =
      Ok (("build-and-test", build)
            :: (if has_deliver_stage pipeline then [("deliver", deliver)] else [])
            ++ [("security-scan", security)])%list /\
    build =
      VDict [("runs-on", VStr (default_runner self));
             ("strategy",
              VDict [("matrix",
                      VDict [("java-version", VList (map VStr (java_versions self)))])]);
             ("steps",
              VList (maven_setup_steps
                       ++ with_working_directory (fun run => Py.startswith run "mvn") wd
                            (maven_steps wd v))%list)].
Proof.
  intros E. unfold _generate_maven_jobs, _create_maven_deliver_job, _create_security_job.
  rewrite E, !index_last_app. cbn [bind].
  destruct (has_deliver_stage pipeline); cbn [bind dict_set String.eqb Ascii.eqb Bool.eqb].
  - do 4 eexists. split; reflexivity.
  - do 2 eexists. exists (VStr ""). eexists. split; reflexivity.
Qed.

Lemma generate_maven_jobs_raises (self : converter) (pipeline : pipeline_info) :
  java_versions self = [] -> _generate_maven_jobs self pipeline = Raise IndexError.
Proof. intros E. unfold _generate_maven_jobs. now rewrite E. Qed.

Lemma has_deliver_stage_iff (pipeline : pipeline_info) :
  has_deliver_stage pipeline = true <->
  exists stage, In stage (stages pipeline) /\ type stage = Deliver.
Proof.
  unfold has_deliver_stage. rewrite existsb_exists.
  split; intros [stage [Hin H]]; exists stage; split; auto.
  - now destruct (type stage).
  - now rewrite H.
Qed.

Lemma generate_gha_workflow_maven (self : converter) (pipeline : pipeline_info) :
  project_type_ pipeline = Maven ->
  _generate_gha_workflow self pipeline =
  bind (_generate_maven_jobs self pipeline)
       (fun jobs =>
          Ok (VDict
                [("name", VStr "CI/CD Pipeline");
                 ("on", VDict [("push", VDict [("branches", VList [VStr "main"; VStr "develop"])]);
                               ("pull_request", VDict [("branches", VList [VStr "main"])])]);
                 ("jobs", VDict (dict_update [] jobs))])).
Proof.
  intros M. unfold _generate_gha_workflow. rewrite M. simpl.
  now destruct (_generate_maven_jobs self pipeline).
Qed.

(** C8. With no Java version configured the Maven generator reads the last
    element of an empty list and raises: it returns jobs exactly when the
    list of versions is not empty, and so does the delivery job. *)
Theorem maven_jobs_need_a_java_version (self : converter) (pipeline : pipeline_info) :
  (_generate_maven_jobs self pipeline = Raise IndexError <-> java_versions self = []) /\
  ((exists jobs, _generate_maven_jobs self pipeline = Ok jobs) <-> java_versions self <> []) /\
  (forall wd, _create_maven_deliver_job self pipeline wd = Raise IndexError
              <-> java_versions self = []) /\
  (_generate_gha_workflow self pipeline = Raise IndexError
   <-> project_type_ pipeline = Maven /\ java_versions self = []).
Proof.
  assert (G : project_type_ pipeline <> Maven ->
              _generate_gha_workflow self pipeline <> Raise IndexError).
  { intros M. unfold _generate_gha_workflow.
    destruct (project_type_ pipeline); simpl; congruence. }
  pose proof (generate_gha_workflow_maven self pipeline) as GM.
  destruct (index_last_cases (java_versions self)) as [[E _] | [vs [v [E _]]]].
  - pose proof (generate_maven_jobs_raises self pipeline E) as R.
    split; [split; [intros _; exact E | intros _; exact R]|].
    split; [split; [intros [jobs H]; congruence | intros N; now elim N]|].
    split.
    { intros wd. split; [intros _; exact E|].
      intros _. unfold _create_maven_deliver_job. now rewrite E. }
    split.
    + intros H. split; [|exact E].
      destruct (project_type_ pipeline) eqn:M; try reflexivity;
        exfalso; apply G; congruence.
    + intros [M _]. rewrite (GM M), R. reflexivity.
  - destruct (generate_maven_jobs_ok self pipeline vs v E) as [wd [b [d [sc [R _]]]]].
    assert (N : java_versions self <> []) by (rewrite E; now destruct vs).
    split; [split; [intros H; congruence | intros H; contradiction]|].
    split; [split; [intros _; exact N | intros _; eexists; exact R]|].
    split.
    { intros wd'. split; [|intros H; contradiction].
      unfold _create_maven_deliver_job. rewrite E, !index_last_app. discriminate. }
    split.
    + intros H. exfalso.
      destruct (project_type_ pipeline) eqn:M;
        try (apply G; [congruence | exact H]).
      rewrite (GM eq_refl), R in H. discriminate.
    + intros [_ H]. contradiction.
Qed.

Lemma maven_jobs_need_a_java_version_witness :
  _generate_maven_jobs versionless_converter sample_maven_pipeline = Raise IndexError /\
  exists jobs, _generate_maven_jobs sample_converter sample_maven_pipeline = Ok jobs.
Proof.
  split.
  - apply (proj1 (maven_jobs_need_a_java_version versionless_converter sample_maven_pipeline)).
    reflexivity.
  - apply (proj1 (proj2 (maven_jobs_need_a_java_version sample_converter
                           sample_maven_pipeline))).
    discriminate.
Defined.

(** C2. For a Maven project the jobs of the workflow are build-and-test and
    security-scan, and deliver between them exactly when some stage of the
    model has type deliver; no workflow comes out only when no Java version
    is configured. *)
Theorem maven_workflow_jobs (self : converter) (pipeline : pipeline_info) :
  project_type_ pipeline = Maven ->
  match _generate_gha_workflow self pipeline with
  | Ok workflow =>
      In "build-and-test" (job_keys workflow) /\
      In "security-scan" (job_keys workflow) /\
      (In "deliver" (job_keys workflow) <->
       exists stage, In stage (stages pipeline) /\ type stage = Deliver) /\
      job_keys workflow =
        if has_deliver_stage pipeline
        then ["build-and-test"; "deliver"; "security-scan"]
        else ["build-and-test"; "security-scan"]
  | Raise _ => java_versions self = []
  end.
Proof.
  intros M. rewrite (generate_gha_workflow_maven self pipeline M).
  destruct (index_last_cases (java_versions self)) as [[E _] | [vs [v [E _]]]].
  - now rewrite (generate_maven_jobs_raises self pipeline E).
  - destruct (generate_maven_jobs_ok self pipeline vs v E) as [wd [b [d [sc [R _]]]]].
    rewrite R. cbn [bind]. rewrite <- has_deliver_stage_iff.
    destruct (has_deliver_stage pipeline); simpl.
    + repeat split; auto.
    + repeat split; auto; try discriminate.
      intros [H | [H | []]]; discriminate.
Qed.

Lemma maven_workflow_jobs_witness :
  project_type_ sample_maven_pipeline = Maven /\
  match _generate_gha_workflow sample_converter sample_maven_pipeline with
  | Ok workflow =>
      In "build-and-test" (job_keys workflow) /\
      In "security-scan" (job_keys workflow) /\
      (In "deliver" (job_keys workflow) <->
       exists stage, In stage (stages sample_maven_pipeline) /\ type stage = Deliver) /\
      job_keys workflow =
        if has_deliver_stage sample_maven_pipeline
        then ["build-and-test"; "deliver"; "security-scan"]
        else ["build-and-test"; "security-scan"]
  | Raise _ => java_versions sample_converter = []
  end.
Proof.
  split; [reflexivity|].
  apply (maven_workflow_jobs sample_converter sample_maven_pipeline). reflexivity.
Defined.

(** C4. When the configured Java versions end with [v], the build-and-test
    job of a Maven project has exactly one artifact upload step, and its
    condition compares the matrix variable with [v], the last version; for
    the versions 11 and 17 the condition mentions 17 and not 11. *)
Theorem upload_gated_on_last_version (self : converter) (pipeline : pipeline_info)
    (vs : list string) (v : string) :
  project_type_ pipeline = Maven ->
  java_versions self = (vs ++ [v])%list ->
  exists workflow upload condition,
    _generate_gha_workflow self pipeline = Ok workflow /\
    filter is_upload_step (job_steps "build-and-test" workflow) = [upload] /\
    step_field "name" upload = Some (VStr "Upload build artifacts") /\
    step_field "if" upload = Some (VStr condition) /\
    condition = "matrix.java-version == '" ++ v ++ "'" /\
    ((vs ++ [v])%list = ["11"; "17"] ->
     Py.contains condition "17" = true /\ Py.contains condition "11" = false).
Proof.
  intros M E. rewrite (generate_gha_workflow_maven self pipeline M).
  destruct (generate_maven_jobs_ok self pipeline vs v E) as [wd [b [d [sc [R B]]]]].
  rewrite R. subst b. cbn [bind].
  eexists. eexists. exists ("matrix.java-version == '" ++ v ++ "'").
  split; [reflexivity|].
  split.
  { destruct (has_deliver_stage pipeline);
      destruct wd as [[|c w]|]; reflexivity. }
  split; [reflexivity|].
  split; [reflexivity|].
  split; [reflexivity|].
  intros L.
  assert (V : v = "17").
  { destruct vs as [|a [|b [|c vs]]]; simpl in L; try discriminate; congruence. }
  subst v. split; reflexivity.
Qed.

Lemma upload_gated_on_last_version_witness :
  exists workflow upload condition,
    _generate_gha_workflow
      {| input_path := ["jenkins-repo"]; output_path := ["gha-repo"];
         java_versions := ["11"; "17"]; default_runner := "ubuntu-latest" |}
      sample_maven_pipeline = Ok workflow /\
    filter is_upload_step (job_steps "build-and-test" workflow) = [upload] /\
    step_field "name" upload = Some (VStr "Upload build artifacts") /\
    step_field "if" upload = Some (VStr condition) /\
    condition = "matrix.java-version == '17'" /\
    (["11"; "17"] = ["11"; "17"] ->
     Py.contains condition "17" = true /\ Py.contains condition "11" = false).
Proof.
  apply (upload_gated_on_last_version
           {| input_path := ["jenkins-repo"]; output_path := ["gha-repo"];
              java_versions := ["11"; "17"]; default_runner := "ubuntu-latest" |}
           sample_maven_pipeline ["11"] "17"); reflexivity.
Defined.

Lemma generic_steps_owned (pipeline : pipeline_info) :
  generic_steps pipeline =
  map (fun oc => VDict [("name", VStr ("Run " ++ fst oc)); ("run", VStr (snd oc))])
      (owned_commands pipeline).
Proof.
  unfold generic_steps, owned_commands.
  induction (stages pipeline) as [|stage l IH]; [reflexivity|].
  cbn [flat_map]. rewrite map_app, IH, map_map. reflexivity.
Qed.

Lemma length_owned_commands (pipeline : pipeline_info) :
  List.length (owned_commands pipeline) =
  list_sum (map (fun stage => List.length (commands stage)) (stages pipeline)).
Proof.
  unfold owned_commands.
  induction (stages pipeline) as [|stage l IH]; [reflexivity|].
  cbn [flat_map map list_sum]. now rewrite length_app, length_map, IH.
Qed.

(** C6. For a project that is not a Maven project the workflow has the one
    job build-and-test, whose steps are the checkout (the step named
    Checkout code that uses actions/checkout@v4) and then one step for
    every command of every stage, in order, named after the stage of the
    command; nothing is merged or left out, and with no stage the checkout
    is the only step. *)
Theorem generic_workflow_steps (self : converter) (pipeline : pipeline_info) :
  project_type_ pipeline <> Maven ->
  exists workflow,
    _generate_gha_workflow self pipeline = Ok workflow /\
    job_keys workflow = ["build-and-test"] /\
    job_steps "build-and-test" workflow =
      VDict [("name", VStr "Checkout code"); ("uses", VStr "actions/checkout@v4")] ::
      map (fun oc => VDict [("name", VStr ("Run " ++ fst oc)); ("run", VStr (snd oc))])
          (owned_commands pipeline) /\
    List.length (job_steps "build-and-test" workflow) =
      1 + list_sum (map (fun stage => List.length (commands stage)) (stages pipeline)) /\
    (stages pipeline = [] ->
     job_steps "build-and-test" workflow =
       [VDict [("name", VStr "Checkout code"); ("uses", VStr "actions/checkout@v4")]]).
Proof.
  intros M. unfold _generate_gha_workflow.
  assert (N : project_type_eqb (project_type_ pipeline) Maven = false)
    by (destruct (project_type_ pipeline); auto; now elim M).
  rewrite N. eexists. split; [reflexivity|].
  split; [reflexivity|].
  assert (S : job_steps "build-and-test"
                (VDict
                   [("name", VStr "CI/CD Pipeline");
                    ("on", VDict [("push", VDict [("branches", VList [VStr "main"; VStr "develop"])]);
                                  ("pull_request", VDict [("branches", VList [VStr "main"])])]);
                    ("jobs", VDict (dict_update [] (_generate_generic_jobs self pipeline)))])
              = checkout_step :: generic_steps pipeline) by reflexivity.
  cbn [bind]. rewrite S, generic_steps_owned.
  split; [reflexivity|].
  split.
  - simpl. now rewrite length_map, length_owned_commands.
  - intros E. unfold owned_commands. now rewrite E.
Qed.

Lemma generic_workflow_steps_witness :
  project_type_ sample_generic_pipeline <> Maven /\
  exists workflow,
    _generate_gha_workflow sample_converter sample_generic_pipeline = Ok workflow /\
    job_keys workflow = ["build-and-test"] /\
    job_steps "build-and-test" workflow =
      VDict [("name", VStr "Checkout code"); ("uses", VStr "actions/checkout@v4")] ::
      map (fun oc => VDict [("name", VStr ("Run " ++ fst oc)); ("run", VStr (snd oc))])
          (owned_commands sample_generic_pipeline) /\
    List.length (job_steps "build-and-test" workflow) =
      1 + list_sum (map (fun stage => List.length (commands stage))
                        (stages sample_generic_pipeline)) /\
    (stages sample_generic_pipeline = [] ->
     job_steps "build-and-test" workflow =
       [VDict [("name", VStr "Checkout code"); ("uses", VStr "actions/checkout@v4")]]).
Proof.
  split; [discriminate|].
  apply (generic_workflow_steps sample_converter sample_generic_pipeline). discriminate.
Defined.

(** ** The emitter on sequences *)

Lemma value_nested_ind (P : value -> Prop) :
  (forall s, P (VStr s)) -> (forall b, P (VBool b)) -> (forall z, P (VInt z)) ->
  (forall l, Forall P l -> P (VList l)) ->
  (forall d, Forall (fun kv => P (snd kv)) d -> P (VDict d)) ->
  forall v, P v.
Proof.
  intros Hs Hb Hz Hl Hd. fix IH 1. intros [s|b|z|l|d].
  - apply Hs.
  - apply Hb.
  - apply Hz.
  - apply Hl. induction l as [|x l IHl]; constructor; [apply IH | exact IHl].
  - apply Hd. induction d as [|[k x] d IHd]; constructor; [apply IH | exact IHd].
Qed.

Lemma dict_to_yaml_cons (key : string) (v : value) (d : dict) (indent : nat) :
  dict_to_yaml (VDict ((key, v) :: d)) indent =
  (entry_lines indent key v ++ dict_to_yaml (VDict d) indent)%list.
Proof.
  change (dict_to_yaml (VDict ((key, v) :: d)) indent)
    with (List.app
            (match v with
             | VDict _ => (Py.spaces indent ++ key ++ ":") :: dict_to_yaml v (S indent)
             | VList l =>
                 (Py.spaces indent ++ key ++ ":") ::
                 (fix each (l : list value) : list string :=
                    match l with
                    | [] => []
                    | item :: l' =>
                        List.app
                          (match item with
                           | VDict _ =>
                               match dict_to_yaml item (S indent) with
                               | [] => [Py.spaces indent ++ "- "]
                               | first :: rest =>
                                   ((Py.spaces indent ++ "- ") ++ Py.strip first) :: rest
                               end
                           | _ => [Py.spaces indent ++ "- " ++ py_str item]
                           end) (each l')
                    end) l
             | VBool b =>
                 [Py.spaces indent ++ key ++ ": " ++ Py.lower (py_str (VBool b))]
             | VStr s =>
                 if Py.has_char Py.newline s
                 then (Py.spaces indent ++ key ++ ": |") ::
                      map (fun line => Py.spaces indent ++ "  " ++ line) (Py.split_lines s)
                 else [Py.spaces indent ++ key ++ ": " ++ s]
             | VInt z => [Py.spaces indent ++ key ++ ": " ++ py_str (VInt z)]
             end)
            (dict_to_yaml (VDict d) indent)).
  f_equal. destruct v as [s|b|z|l|d']; try reflexivity.
  now destruct b.
Qed.

Lemma spaces_succ_r (n : nat) : Py.spaces (S n) = Py.spaces n ++ "  ".
Proof.
  induction n as [|n IH]; [reflexivity|].
  change (Py.spaces (S (S n))) with ("  " ++ Py.spaces (S n)).
  rewrite IH at 1. reflexivity.
Qed.

Lemma indented_deeper (n : nat) (line : string) : indented (S n) line -> indented n line.
Proof.
  intros [t H]. exists ("  " ++ t). now rewrite H, spaces_succ_r, append_assoc.
Qed.

Lemma sequence_item_lines_indented (item : value) (n : nat) (line : string) :
  lines_indented item -> In line (sequence_item_lines n item) -> indented n line.
Proof.
  intros Hitem Hin. unfold sequence_item_lines in Hin.
  destruct item as [s|b|z|l|d];
    try (destruct Hin as [<- | []]; now eexists).
  destruct (dict_to_yaml (VDict d) (S n)) as [|first rest] eqn:E.
  - destruct Hin as [<- | []]. now eexists.
  - destruct Hin as [<- | Hin].
    + exists ("- " ++ Py.strip first). now rewrite append_assoc.
    + apply indented_deeper, (Hitem (S n)). rewrite E. now right.
Qed.

(** Every line of a rendering at depth [n] starts with the indent of [n]. *)
Lemma dict_to_yaml_indented (v : value) : lines_indented v.
Proof.
  enough (H : lines_indented v /\
              match v with VList l => Forall lines_indented l | _ => True end)
    by apply H.
  induction v as [s|b|z|l IHl|d IHd] using value_nested_ind;
    try (split; [intros n line Hin; now elim Hin | exact I]).
  - split; [intros n line Hin; now elim Hin|].
    eapply Forall_impl; [|exact IHl]. intros item H. apply H.
  - split; [|exact I]. intros n line Hin.
    induction d as [|[key v] d IH]; [now elim Hin|].
    inversion IHd as [|kv d0 Hv Hd]; subst.
    rewrite dict_to_yaml_cons in Hin. apply in_app_or in Hin.
    destruct Hin as [Hin | Hin]; [|now apply IH].
    clear IH Hd. cbn [snd] in Hv. destruct Hv as [Hv Hitems].
    destruct v as [s|b|z|l|d']; cbn [entry_lines] in Hin.
    + destruct (Py.has_char Py.newline s).
      * destruct Hin as [<- | Hin]; [now eexists|].
        apply in_map_iff in Hin. destruct Hin as [x [<- _]]. now eexists.
      * destruct Hin as [<- | []]. now eexists.
    + destruct Hin as [<- | []]. now eexists.
    + destruct Hin as [<- | []]. now eexists.
    + destruct Hin as [<- | Hin]; [now eexists|].
      apply in_flat_map in Hin. destruct Hin as [item [Hitem Hin]].
      apply (sequence_item_lines_indented item); [|exact Hin].
      rewrite Forall_forall in Hitems. now apply Hitems.
    + destruct Hin as [<- | Hin]; [now eexists|].
      apply indented_deeper. now apply Hv.
Qed.

(** The first line of a mapping that is not empty starts with its first key. *)
Lemma dict_to_yaml_first_line (key : string) (v : value) (d : dict) (n : nat) :
  exists tail more,
    dict_to_yaml (VDict ((key, v) :: d)) n = (Py.spaces n ++ key ++ ":" ++ tail) :: more.
Proof.
  rewrite dict_to_yaml_cons.
  destruct v as [s|b|z|l|d']; cbn [entry_lines].
  - destruct (Py.has_char Py.newline s).
    + exists " |". eexists. reflexivity.
    + exists (" " ++ s). eexists. reflexivity.
  - exists (" " ++ (if b then "true" else "false")). eexists. reflexivity.
  - exists (" " ++ Py.str_of_int z). eexists. reflexivity.
  - exists "". eexists. reflexivity.
  - exists "". eexists. reflexivity.
Qed.

(** C3, as amended.  Under a key at depth [indent] every element of a
    sequence starts a line with the marker at that depth.  A mapping is
    rendered one level deeper: its first line, which starts with its first
    key, is stripped and joined to the marker line, and its remaining lines
    follow unchanged, so they stand one level deeper than the marker, under
    the first key.  An empty mapping leaves the marker alone, and any other
    element follows the marker on the same line. *)
Theorem sequence_items_rendering (key : string) (items : list value) (d : dict) (indent : nat) :
  dict_to_yaml (VDict ((key, VList items) :: d)) indent =
    (Py.spaces indent ++ key ++ ":")
      :: (flat_map (sequence_item_lines indent) items
            ++ dict_to_yaml (VDict d) indent)%list /\
  (forall k v m,
      exists tail more,
        dict_to_yaml (VDict ((k, v) :: m)) (S indent) =
          (Py.spaces (S indent) ++ k ++ ":" ++ tail) :: more /\
        sequence_item_lines indent (VDict ((k, v) :: m)) =
          ((Py.spaces indent ++ "- ") ++ Py.strip (Py.spaces (S indent) ++ k ++ ":" ++ tail))
            :: more /\
        forall line, In line more -> indented (S indent) line) /\
  sequence_item_lines indent (VDict []) = [Py.spaces indent ++ "- "] /\
  (forall s, sequence_item_lines indent (VStr s) = [Py.spaces indent ++ "- " ++ s]) /\
  (forall z, sequence_item_lines indent (VInt z)
             = [Py.spaces indent ++ "- " ++ Py.str_of_int z]) /\
  (forall b, sequence_item_lines indent (VBool b)
             = [Py.spaces indent ++ "- " ++ (if b then "True" else "False")]).
Proof.
  split; [now rewrite dict_to_yaml_cons|].
  split; [|repeat split; reflexivity].
  intros k v m.
  destruct (dict_to_yaml_first_line k v m (S indent)) as [tail [more E]].
  exists tail, more. split; [exact E|]. split.
  - unfold sequence_item_lines. now rewrite E.
  - intros line Hin. apply (dict_to_yaml_indented (VDict ((k, v) :: m))).
    rewrite E. now right.
Qed.

Lemma sequence_items_rendering_witness :
  dict_to_yaml (VDict [("steps", VList [checkout_step; VStr "done"; VDict []])]) 1
  = ["  steps:"; "  - name: Checkout code"; "    uses: actions/checkout@v4";
     "  - done"; "  - "].
Proof.
  rewrite (proj1 (sequence_items_rendering "steps" [checkout_step; VStr "done"; VDict []] [] 1)).
  reflexivity.
Defined.

(** C3, as stated, fails: the second line of a mapping in a sequence does
    not start where the marker line starts, but two spaces further in. *)
Lemma sequence_rest_deeper_than_marker :
  dict_to_yaml
    (VDict [("steps", VList [VDict [("name", VStr "Checkout code");
                                    ("uses", VStr "actions/checkout@v4")]])]) 0
  = ["steps:"; "- name: Checkout code"; "  uses: actions/checkout@v4"] /\
  leading_spaces "- name: Checkout code" = 0 /\
  leading_spaces "  uses: actions/checkout@v4" = 2 /\
  leading_spaces "  uses: actions/checkout@v4" <> leading_spaces "- name: Checkout code".
Proof. repeat split; try reflexivity. discriminate. Qed.

(** ** The tree migrator *)

Lemma tree_get_app (n : string) (a b : tree) :
  tree_get n (a ++ b)%list =
  match tree_get n a with
  | Some x => Some x
  | None => tree_get n b
  end.
Proof.
  induction a as [|[m x] a IH]; [reflexivity|].
  simpl. now destruct (String.eqb n m).
Qed.

Lemma tree_mem_app (n : string) (a b : tree) :
  tree_mem n (a ++ b)%list = tree_mem n a || tree_mem n b.
Proof. unfold tree_mem. rewrite tree_get_app. now destruct (tree_get n a). Qed.

Lemma tree_mem_false (n : string) (t : tree) : tree_mem n t = false -> tree_get n t = None.
Proof. unfold tree_mem. now destruct (tree_get n t). Qed.

(** One turn of the loop leaves the listing alone or adds one entry at a
    name that was free. *)
Lemma copy_item_cases (output : tree) (item : string * node) :
  (copy_item output item = output /\
   (wanted item = false \/ tree_mem (fst item) output = true)) \/
  (copy_item output item = (output ++ [(fst item, copy_node (snd item))])%list /\
   wanted item = true /\ tree_get (fst item) output = None).
Proof.
  destruct item as [n x]. unfold copy_item, wanted. cbn [fst snd].
  destruct (Py.startswith n ".git"); [left; split; auto|].
  destruct x as [data | entries].
  - destruct (skip_file n); [left; split; auto|].
    destruct (tree_mem n output) eqn:M; [left; split; auto|].
    right. repeat split. now apply tree_mem_false.
  - destruct (skip_dir n); [left; split; auto|].
    destruct (tree_mem n output) eqn:M; [left; split; auto|].
    right. repeat split. now apply tree_mem_false.
Qed.

Lemma copy_source_code_extends (input output : tree) :
  exists added,
    _copy_source_code input output = (output ++ added)%list /\
    forall n x, In (n, x) added -> tree_get n output = None.
Proof.
  unfold _copy_source_code. revert output.
  induction input as [|item input IH]; intros output.
  - exists []. split; [now rewrite app_nil_r | intros n x []].
  - cbn [fold_left].
    destruct (copy_item_cases output item) as [[E _] | [E [_ F]]]; rewrite E.
    + apply IH.
    + destruct (IH (output ++ [(fst item, copy_node (snd item))])%list)
        as [added [Eq Hfree]].
      exists ((fst item, copy_node (snd item)) :: added). split.
      * now rewrite Eq, <- app_assoc.
      * intros n x [H | H].
        -- inversion H; subst. exact F.
        -- specialize (Hfree n x H). rewrite tree_get_app in Hfree.
           now destruct (tree_get n output).
Qed.

Lemma copy_item_keeps_members (output : tree) (item : string * node) (n : string) :
  tree_mem n output = true -> tree_mem n (copy_item output item) = true.
Proof.
  intros M. destruct (copy_item_cases output item) as [[E _] | [E _]]; rewrite E; auto.
  rewrite tree_mem_app, M. reflexivity.
Qed.

Lemma copy_source_code_keeps_members (input output : tree) (n : string) :
  tree_mem n output = true -> tree_mem n (_copy_source_code input output) = true.
Proof.
  unfold _copy_source_code. revert output.
  induction input as [|item input IH]; intros output M; [exact M|].
  cbn [fold_left]. apply IH. now apply copy_item_keeps_members.
Qed.

Lemma copy_item_makes_member (output : tree) (item : string * node) :
  wanted item = true -> tree_mem (fst item) (copy_item output item) = true.
Proof.
  intros W. destruct (copy_item_cases output item) as [[E [H | H]] | [E _]]; rewrite E.
  - congruence.
  - exact H.
  - rewrite tree_mem_app. unfold tree_mem at 2. cbn [tree_get].
    rewrite String.eqb_refl. apply orb_true_r.
Qed.

Lemma copy_source_code_makes_members (input output : tree) (item : string * node) :
  In item input -> wanted item = true ->
  tree_mem (fst item) (_copy_source_code input output) = true.
Proof.
  unfold _copy_source_code. revert output.
  induction input as [|first input IH]; intros output Hin W; [now elim Hin|].
  cbn [fold_left]. destruct Hin as [-> | Hin].
  - apply (copy_source_code_keeps_members input).
    now apply copy_item_makes_member.
  - now apply IH.
Qed.

Lemma copy_source_code_nothing_to_do (input output : tree) :
  (forall item, In item input -> wanted item = true -> tree_mem (fst item) output = true) ->
  _copy_source_code input output = output.
Proof.
  unfold _copy_source_code. revert output.
  induction input as [|first input IH]; intros output H; [reflexivity|].
  cbn [fold_left].
  destruct (copy_item_cases output first) as [[E _] | [E [W F]]].
  - rewrite E. apply IH. intros item Hin. apply H. now right.
  - specialize (H first (or_introl eq_refl) W).
    unfold tree_mem in H. rewrite F in H. discriminate.
Qed.

(** C7. The copy only adds entries to the output root, at names that were
    free: every entry found there before the copy, file or directory, is
    found there unchanged after it; and a second run over the result, like
    any run that finds all it wants in place, changes nothing. *)
Theorem copy_never_overwrites (input output : tree) :
  (exists added,
      _copy_source_code input output = (output ++ added)%list /\
      forall n x, In (n, x) added -> tree_get n output = None) /\
  (forall n x, tree_get n output = Some x ->
               tree_get n (_copy_source_code input output) = Some x) /\
  _copy_source_code input (_copy_source_code input output)
  = _copy_source_code input output.
Proof.
  split; [apply copy_source_code_extends|].
  split.
  - intros n x H.
    destruct (copy_source_code_extends input output) as [added [E _]].
    now rewrite E, tree_get_app, H.
  - apply copy_source_code_nothing_to_do.
    intros item Hin W. now apply copy_source_code_makes_members.
Qed.

Lemma copy_never_overwrites_witness :
  _copy_source_code sample_input sample_output
  = (sample_output ++ [("src", Dir [("Main.java", File "class Main { }")])])%list /\
  tree_get "README.md" (_copy_source_code sample_input sample_output)
  = Some (File "old text") /\
  tree_get "docs" (_copy_source_code sample_input sample_output)
  = Some (Dir [("notes.md", File "kept")]).
Proof.
  split; [reflexivity|].
  split; apply (proj1 (proj2 (copy_never_overwrites sample_input sample_output)));
    reflexivity.
Defined.

(** ** The parser *)

Lemma relative_to_app (base rest : path) : relative_to (base ++ rest)%list base = Ok rest.
Proof.
  induction base as [|b base IH]; [reflexivity|].
  simpl. now rewrite String.eqb_refl.
Qed.

Lemma parent_of_file (dir : path) (file : string) : parent (dir ++ [file])%list = dir.
Proof. unfold parent. apply removelast_last. Qed.

Lemma findall_from_no_match (ic : bool) (r : regex) (s : string) :
  search ic r s = None -> findall_from ic r 0 s = [].
Proof.
  induction s as [|c s IH]; cbn [search findall_from].
  - now destruct (match_at ic r "").
  - destruct (match_at ic r (String c s)); [discriminate | exact IH].
Qed.

Lemma findall_nil_no_match (ic : bool) (r : regex) (s : string) :
  findall ic r s = [] -> search ic r s = None.
Proof.
  unfold findall. induction s as [|c s IH]; cbn [search findall_from].
  - now destruct (match_at ic r "").
  - destruct (match_at ic r (String c s)); [discriminate | exact IH].
Qed.

(** C5. On the Jenkinsfiles the converter finds (files below its input
    root), parsing returns a model whatever the text is, with one stage for
    each match of the stage pattern; a text in which the pattern matches
    nowhere gives a model with no stage, and only such a text does. *)
Theorem parse_jenkinsfile_total (self : converter) (exists_ : path -> bool)
    (content : string) (dirs : path) (file : string) :
  exists pipeline,
    _parse_jenkinsfile self exists_ content (input_path self ++ dirs ++ [file])%list
      = Ok pipeline /\
    map name (stages pipeline) = findall true stage_pattern content /\
    (search true stage_pattern content = None <-> stages pipeline = []).
Proof.
  unfold _parse_jenkinsfile.
  rewrite app_assoc, parent_of_file, relative_to_app. cbn [bind].
  set (found := findall true stage_pattern content).
  assert (N : search true stage_pattern content = None <-> found = []).
  { split; [apply findall_from_no_match | apply findall_nil_no_match]. }
  destruct (exists_ ((input_path self ++ dirs) ++ ["pom.xml"])%list);
    [|destruct (exists_ ((input_path self ++ dirs) ++ ["build.gradle"])%list
               || exists_ ((input_path self ++ dirs) ++ ["build.gradle.kts"])%list);
      [|destruct (exists_ ((input_path self ++ dirs) ++ ["package.json"])%list)]];
    cbn [bind fst snd]; eexists; (split; [reflexivity|]); cbn [stages];
    (split; [rewrite map_map; apply map_id|]);
    (rewrite N; split; [intros ->; reflexivity | intros H; now apply map_eq_nil in H]).
Qed.

Lemma parse_jenkinsfile_total_witness :
  exists pipeline,
    _parse_jenkinsfile sample_converter (fun _ => true) "node { echo 'no stage here' }"
      ["jenkins-repo"; "app"; "Jenkinsfile"] = Ok pipeline /\
    stages pipeline = [].
Proof.
  destruct (parse_jenkinsfile_total sample_converter (fun _ => true)
              "node { echo 'no stage here' }" ["app"] "Jenkinsfile")
    as [pipeline [E [_ H]]].
  exists pipeline. split; [exact E|]. apply H. vm_compute. reflexivity.
Defined.

(** ** Matching without backtracking *)

Lemma greedy_skip {R : Type} (p : ascii -> bool) (k : string -> option R) (s : string) :
  (forall d t, p d = true -> k (String d t) = None) ->
  greedy p k s = k (skip p s).
Proof.
  intros Hk. induction s as [|c s IH]; [reflexivity|].
  cbn [greedy skip]. destruct (p c) eqn:Pc; [|reflexivity].
  rewrite IH, (Hk c s Pc). now destruct (k (skip p s)).
Qed.

Lemma exec_refused (ic : bool) (p : ascii -> bool) (r r2 : regex) (m : marks)
    (d : ascii) (t : string) :
  refuses ic p r -> p d = true -> exec ic (r ++ r2)%list m (String d t) = None.
Proof.
  revert m. induction r as [|a r IH]; intros m Hr Pd; [now elim Hr|].
  destruct a; cbn [refuses] in Hr; try (now elim Hr); cbn [app exec].
  - now rewrite (Hr d Pd).
  - now rewrite (Hr d Pd).
  - now apply IH.
  - now apply IH.
Qed.

Lemma exec_star_skip (ic : bool) (p : ascii -> bool) (r : regex) (m : marks) (s : string) :
  refuses ic p r -> exec ic (Star p :: r) m s = exec ic r m (skip p s).
Proof.
  intros Hr. cbn [exec]. apply greedy_skip. intros d t Pd.
  rewrite <- (app_nil_r r). now apply (exec_refused ic p).
Qed.

Lemma exec_plus_skip (ic : bool) (p : ascii -> bool) (r : regex) (m : marks)
    (d : ascii) (t : string) :
  refuses ic p r ->
  exec ic (Plus p :: r) m (String d t) = if p d then exec ic r m (skip p t) else None.
Proof.
  intros Hr. cbn [exec]. destruct (p d); [|reflexivity].
  apply greedy_skip. intros d' t' Pd.
  rewrite <- (app_nil_r r). now apply (exec_refused ic p).
Qed.

(** A straight pattern followed by another: the second starts where the
    first stopped. *)
Lemma exec_app_straight (ic : bool) (r1 r2 : regex) :
  straight ic r1 ->
  forall m s,
    exec ic (r1 ++ r2)%list m s =
    match exec ic r1 m s with
    | Some (m', s') => exec ic r2 m' s'
    | None => None
    end.
Proof.
  induction r1 as [|a r1 IH]; intros Hd m s; [reflexivity|].
  destruct a; cbn [straight] in Hd; cbn [app].
  - cbn [exec]. destruct s as [|d t]; [reflexivity|].
    destruct (lit_eqb ic c d); [now apply IH | reflexivity].
  - cbn [exec]. destruct s as [|d t]; [reflexivity|].
    destruct (p d); [now apply IH | reflexivity].
  - destruct Hd as [Hr Hd]. rewrite (exec_star_skip ic p r1 m s Hr).
    rewrite <- (IH Hd). cbn [exec]. apply greedy_skip.
    intros d t Pd. now apply (exec_refused ic p).
  - destruct Hd as [Hr Hd]. destruct s as [|d t]; [reflexivity|].
    rewrite (exec_plus_skip ic p r1 m d t Hr).
    cbn [exec]. destruct (p d); [|reflexivity].
    rewrite <- (IH Hd). apply greedy_skip.
    intros d' t' Pd. now apply (exec_refused ic p).
  - now elim Hd.
  - cbn [exec]. now apply IH.
  - cbn [exec]. now apply IH.
Qed.

Lemma straight_app (ic : bool) (r1 r2 : regex) :
  straight ic r1 -> straight ic r2 -> straight ic (r1 ++ r2)%list.
Proof.
  intros H1 H2. induction r1 as [|a r1 IH]; [exact H2|].
  destruct a; cbn [straight app] in *; auto.
  - destruct H1 as [Hr H1]. split; [|now apply IH].
    clear IH H1. induction r1 as [|b r1 IH]; [now elim Hr|].
    destruct b; cbn [refuses app] in *; auto.
  - destruct H1 as [Hr H1]. split; [|now apply IH].
    clear IH H1. induction r1 as [|b r1 IH]; [now elim Hr|].
    destruct b; cbn [refuses app] in *; auto.
Qed.

Lemma straight_lits (ic : bool) (s : string) : straight ic (lits s).
Proof. induction s as [|c s IH]; [exact I | exact IH]. Qed.

(** Blanks are neither parentheses, braces nor quotes. *)
Lemma isspace_not_lit (c d : ascii) :
  Py.isspace c = false -> Py.lower_char c = c ->
  Py.isspace d = true -> lit_eqb true c d = false.
Proof.
  intros Hc Lc Hd. unfold lit_eqb. rewrite Lc.
  destruct (Ascii.eqb_spec c (Py.lower_char d)) as [E|]; [exfalso | reflexivity].
  revert Hc Hd. rewrite E. clear.
  destruct d as [[|] [|] [|] [|] [|] [|] [|] [|]]; vm_compute; congruence.
Qed.

Lemma isspace_not_quote (d : ascii) : Py.isspace d = true -> is_quote d = false.
Proof.
  destruct d as [[|] [|] [|] [|] [|] [|] [|] [|]]; vm_compute; congruence.
Qed.

Lemma not_quote_not_quote (d : ascii) : not_quote d = true -> is_quote d = false.
Proof. unfold not_quote. now destruct (is_quote d). Qed.

Lemma straight_stage_close : straight true stage_close.
Proof.
  unfold stage_close. cbn [straight refuses].
  split; [|exact I]. intros d. now apply isspace_not_lit.
Qed.

Lemma straight_stage_open_then (r : regex) :
  straight true r -> straight true (stage_open ++ r)%list.
Proof.
  intros Hr. unfold stage_open. cbn [lits app straight refuses].
  split; [intros d; now apply isspace_not_lit|].
  split; [exact isspace_not_quote | exact Hr].
Qed.

Lemma straight_stage_decl (stage_name : string) :
  straight true (stage_decl_pattern stage_name).
Proof.
  unfold stage_decl_pattern. apply straight_stage_open_then.
  cbn [app straight]. apply straight_app; [apply straight_lits|].
  exact straight_stage_close.
Qed.

Lemma straight_stage_pattern : straight true stage_pattern.
Proof.
  unfold stage_pattern. apply straight_stage_open_then.
  cbn [app straight refuses]. split; [exact not_quote_not_quote|].
  exact straight_stage_close.
Qed.

(** The span pattern is the declaration, then the lazy run to the braces. *)
Lemma exec_stage_span (stage_name : string) (m : marks) (s : string) :
  exec true (stage_span_pattern stage_name) m s =
  match exec true (stage_decl_pattern stage_name) m s with
  | Some (m', s') => lazy any_char (exec true block_end m') s'
  | None => None
  end.
Proof.
  unfold stage_span_pattern.
  rewrite (exec_app_straight true _ _ (straight_stage_decl stage_name)).
  reflexivity.
Qed.

(** ** The shape of a stage declaration *)

Lemma skip_split (p : ascii -> bool) (s : string) :
  exists w, s = w ++ skip p s /\ all_in p w = true.
Proof.
  induction s as [|c s [w [E W]]]; [now exists ""|].
  cbn [skip]. destruct (p c) eqn:Pc.
  - exists (String c w). cbn [append all_in]. now rewrite <- E, Pc, W.
  - now exists "".
Qed.

Lemma all_in_app (p : ascii -> bool) (a b : string) :
  all_in p (a ++ b) = all_in p a && all_in p b.
Proof.
  induction a as [|c a IH]; [reflexivity|].
  cbn [append all_in]. now rewrite IH, andb_assoc.
Qed.

Lemma all_in_impl (p q : ascii -> bool) (s : string) :
  (forall c, p c = true -> q c = true) -> all_in p s = true -> all_in q s = true.
Proof.
  intros Hpq. induction s as [|c s IH]; [reflexivity|].
  cbn [all_in]. rewrite !andb_true_iff. intros [Pc Ps]. auto.
Qed.

Lemma quotes_app (a b : string) : quotes (a ++ b) = quotes a + quotes b.
Proof.
  induction a as [|c a IH]; [reflexivity|].
  cbn [append quotes]. rewrite IH. apply Nat.add_assoc.
Qed.

Lemma quotes_none (s : string) :
  all_in (fun c => negb (is_quote c)) s = true -> quotes s = 0.
Proof.
  induction s as [|c s IH]; [reflexivity|].
  cbn [all_in quotes]. rewrite andb_true_iff. intros [Pc Ps].
  destruct (is_quote c); [discriminate | now apply IH].
Qed.

Lemma is_quote_lower (c : ascii) : is_quote (Py.lower_char c) = is_quote c.
Proof. destruct c as [[|] [|] [|] [|] [|] [|] [|] [|]]; reflexivity. Qed.

Lemma lit_eqb_quote (c d : ascii) : lit_eqb true c d = true -> is_quote d = is_quote c.
Proof.
  unfold lit_eqb. intros H. apply Ascii.eqb_eq in H.
  now rewrite <- (is_quote_lower d), <- H, is_quote_lower.
Qed.

Lemma lit_eqb_s_like (c d : ascii) : lit_eqb true c d = true -> s_like d = s_like c.
Proof.
  unfold lit_eqb, s_like. intros H. apply Ascii.eqb_eq in H. now rewrite H.
Qed.

Lemma lit_eqb_plain (c d : ascii) : lit_eqb true c d = true -> plain d = plain c.
Proof.
  intros H. unfold plain. now rewrite (lit_eqb_quote c d H), (lit_eqb_s_like c d H).
Qed.

Lemma isspace_plain (d : ascii) : Py.isspace d = true -> plain d = true.
Proof.
  destruct d as [[|] [|] [|] [|] [|] [|] [|] [|]]; vm_compute; congruence.
Qed.

Lemma plain_not_quote (s : string) : all_in plain s = true -> quotes s = 0.
Proof.
  intros H. apply quotes_none. revert H. apply all_in_impl.
  intros c. unfold plain. rewrite andb_true_iff. tauto.
Qed.

Lemma straight_stage_open : straight true stage_open.
Proof.
  rewrite <- (app_nil_r stage_open). now apply straight_stage_open_then.
Qed.

Lemma exec_lit_inv (ic : bool) (c : ascii) (r : regex) (m : marks) (s : string)
    (x : marks * string) :
  exec ic (Lit c :: r) m s = Some x ->
  exists d t, s = String d t /\ lit_eqb ic c d = true /\ exec ic r m t = Some x.
Proof.
  cbn [exec]. destruct s as [|d t]; [discriminate|].
  destruct (lit_eqb ic c d) eqn:E; [|discriminate]. intros H. now exists d, t.
Qed.

Lemma exec_cls_inv (ic : bool) (p : ascii -> bool) (r : regex) (m : marks) (s : string)
    (x : marks * string) :
  exec ic (Cls p :: r) m s = Some x ->
  exists d t, s = String d t /\ p d = true /\ exec ic r m t = Some x.
Proof.
  cbn [exec]. destruct s as [|d t]; [discriminate|].
  destruct (p d) eqn:E; [|discriminate]. intros H. now exists d, t.
Qed.

(** The head of a declaration: a letter s, a run with neither s nor quote,
    and a quote. *)
Lemma stage_open_shape (m m' : marks) (s t : string) :
  exec true stage_open m s = Some (m', t) ->
  m' = m /\
  exists c0 A q,
    s = String c0 (A ++ String q t) /\
    s_like c0 = true /\ is_quote c0 = false /\ all_in plain A = true /\ is_quote q = true.
Proof.
  unfold stage_open. cbn [lits app]. intros H.
  apply exec_lit_inv in H. destruct H as [c0 [s0 [-> [E0 H]]]].
  apply exec_lit_inv in H. destruct H as [c1 [s1 [-> [E1 H]]]].
  apply exec_lit_inv in H. destruct H as [c2 [s2 [-> [E2 H]]]].
  apply exec_lit_inv in H. destruct H as [c3 [s3 [-> [E3 H]]]].
  apply exec_lit_inv in H. destruct H as [c4 [s4 [-> [E4 H]]]].
  rewrite exec_star_skip in H
    by (cbn [refuses]; intros d; now apply isspace_not_lit).
  destruct (skip_split Py.isspace s4) as [w1 [S1 W1]].
  apply exec_lit_inv in H. destruct H as [c5 [s5 [S5 [E5 H]]]].
  rewrite exec_star_skip in H by (cbn [refuses]; exact isspace_not_quote).
  destruct (skip_split Py.isspace s5) as [w2 [S2 W2]].
  apply exec_cls_inv in H. destruct H as [q [s6 [S6 [Q H]]]].
  cbn [exec] in H. inversion H; subst m' t. split; [reflexivity|].
  exists c0, (String c1 (String c2 (String c3 (String c4 (w1 ++ String c5 w2))))), q.
  split.
  { rewrite S1, S5, S2, S6. cbn [append]. now rewrite append_assoc. }
  split; [now rewrite (lit_eqb_s_like _ _ E0)|].
  split; [now rewrite (lit_eqb_quote _ _ E0)|].
  split; [|exact Q].
  cbn [all_in]. rewrite all_in_app. cbn [all_in].
  rewrite (lit_eqb_plain _ _ E1), (lit_eqb_plain _ _ E2), (lit_eqb_plain _ _ E3),
    (lit_eqb_plain _ _ E4), (lit_eqb_plain _ _ E5).
  rewrite (all_in_impl _ _ w1 isspace_plain W1), (all_in_impl _ _ w2 isspace_plain W2).
  reflexivity.
Qed.

(** The tail of a declaration: a quote and a run without quotes. *)
Lemma stage_close_shape (m m' : marks) (s t : string) :
  exec true stage_close m s = Some (m', t) ->
  m' = m /\
  exists q W, s = String q (W ++ t) /\ is_quote q = true /\ quotes W = 0.
Proof.
  unfold stage_close. intros H.
  apply exec_cls_inv in H. destruct H as [q [s0 [-> [Q H]]]].
  rewrite exec_star_skip in H
    by (cbn [refuses]; intros d; now apply isspace_not_lit).
  destruct (skip_split Py.isspace s0) as [w [S1 W1]].
  apply exec_lit_inv in H. destruct H as [c [s1 [S2 [E H]]]].
  cbn [exec] in H. inversion H; subst m' t. split; [reflexivity|].
  exists q, (w ++ String c ""). split.
  { rewrite S1, S2, append_assoc. reflexivity. }
  split; [exact Q|].
  rewrite quotes_app, (plain_not_quote w (all_in_impl _ _ w isspace_plain W1)).
  cbn [quotes]. now rewrite (lit_eqb_quote _ _ E).
Qed.

(** Literals read as many characters as they are, with as many quotes. *)
Lemma exec_lits_shape (lit : string) (r : regex) (m : marks) (s : string)
    (x : marks * string) :
  exec true (lits lit ++ r)%list m s = Some x ->
  exists N t, s = N ++ t /\ quotes N = quotes lit /\ exec true r m t = Some x.
Proof.
  revert s. induction lit as [|c lit IH]; intros s H.
  - exists "", s. now repeat split.
  - cbn [lits app exec] in H. destruct s as [|d s]; [discriminate|].
    destruct (lit_eqb true c d) eqn:E; [|discriminate].
    destruct (IH s H) as [N [t [S1 [Q1 H1]]]].
    exists (String d N), t. cbn [append quotes].
    rewrite (lit_eqb_quote _ _ E), Q1, S1. now repeat split.
Qed.

(** A declaration of [stage_name]: [P] up to the first quote, then [B] with
    the name between quotes. *)
Lemma stage_decl_shape (stage_name : string) (m m' : marks) (s r : string) :
  exec true (stage_decl_pattern stage_name) m s = Some (m', r) ->
  exists c0 A q B,
    s = String c0 (A ++ String q (B ++ r)) /\
    s_like c0 = true /\ is_quote c0 = false /\ all_in plain A = true /\
    is_quote q = true /\ quotes B = S (quotes stage_name).
Proof.
  unfold stage_decl_pattern. intros H.
  rewrite (exec_app_straight true _ _ straight_stage_open) in H.
  destruct (exec true stage_open m s) as [[m1 t]|] eqn:O; [|discriminate].
  destruct (stage_open_shape m m1 s t O) as [-> [c0 [A [q [S0 [L0 [Q0 [PA Q]]]]]]]].
  cbn [app exec] in H.
  destruct (exec_lits_shape _ _ _ _ _ H) as [N [u [S1 [QN H1]]]].
  cbn [exec] in H1.
  destruct (stage_close_shape _ _ _ _ H1) as [_ [q2 [W [S2 [Q2 QW]]]]].
  exists c0, A, q, (N ++ String q2 W). split.
  { rewrite S0, S1, S2, append_assoc. reflexivity. }
  repeat split; auto.
  rewrite quotes_app. cbn [quotes]. rewrite Q2, QN, QW. lia.
Qed.

(** ** Declarations further right end further right *)

Lemma append_eq_cases (a b r0 r1 : string) :
  a ++ r0 = b ++ r1 ->
  (exists y, r0 = y ++ r1 /\ b = a ++ y) \/ (exists y, r1 = y ++ r0 /\ a = b ++ y).
Proof.
  revert b. induction a as [|c a IH]; intros b H.
  - left. exists b. now split.
  - destruct b as [|d b].
    + right. exists (String c a). now split.
    + cbn [append] in H. inversion H; subst d.
      destruct (IH b H2) as [[y [E1 E2]] | [y [E1 E2]]].
      * left. exists y. split; [exact E1 | cbn [append]; now rewrite E2].
      * right. exists y. split; [exact E1 | cbn [append]; now rewrite E2].
Qed.

(** The text before the first quote is determined. *)
Lemma first_quote_unique (X X' Y Y' : string) (q q' : ascii) :
  X ++ String q Y = X' ++ String q' Y' ->
  quotes X = 0 -> quotes X' = 0 -> is_quote q = true -> is_quote q' = true ->
  X = X'.
Proof.
  revert X'. induction X as [|c X IH]; intros X' H Q Q' Hq Hq'.
  - destruct X' as [|c' X']; [reflexivity|].
    cbn [append] in H. inversion H; subst c'.
    cbn [quotes] in Q'. rewrite Hq in Q'. discriminate.
  - destruct X' as [|c' X'].
    + cbn [append] in H. inversion H; subst c.
      cbn [quotes] in Q. rewrite Hq' in Q. discriminate.
    + cbn [append] in H. inversion H; subst c'.
      cbn [quotes] in Q, Q'. f_equal. apply (IH X'); auto; lia.
Qed.

Lemma all_in_middle (p : ascii -> bool) (a b : string) (c : ascii) :
  all_in p (a ++ String c b) = true -> p c = true.
Proof.
  rewrite all_in_app. cbn [all_in]. rewrite !andb_true_iff. tauto.
Qed.

Lemma shape_split (c : ascii) (A : string) (q : ascii) (B r : string) :
  String c (A ++ String q (B ++ r)) = String c (A ++ String q B) ++ r.
Proof. cbn [append]. now rewrite append_assoc. Qed.

(** Of two declarations of a name without quotes, the one that starts
    further right also stops at or after the place where the other stops. *)
Lemma stage_decl_monotone (stage_name : string) (m0 m0' m1 m1' : marks)
    (c : ascii) (pre s1 r0 r1 : string) :
  quotes stage_name = 0 ->
  exec true (stage_decl_pattern stage_name) m0 (String c pre ++ s1) = Some (m0', r0) ->
  exec true (stage_decl_pattern stage_name) m1 s1 = Some (m1', r1) ->
  suffix_of r1 r0.
Proof.
  intros QN H0 H1.
  destruct (stage_decl_shape _ _ _ _ _ H0) as [c0 [A0 [q0 [B0 [S0 [L0 [Q0 [P0 [Hq0 QB0]]]]]]]]].
  destruct (stage_decl_shape _ _ _ _ _ H1) as [c1 [A1 [q1 [B1 [S1 [L1 [Q1 [P1 [Hq1 QB1]]]]]]]]].
  rewrite QN in QB0, QB1.
  assert (E : String c0 (A0 ++ String q0 B0) ++ r0
              = (String c pre ++ String c1 (A1 ++ String q1 B1)) ++ r1).
  { rewrite <- shape_split, <- S0, S1, shape_split. now rewrite append_assoc. }
  destruct (append_eq_cases _ _ _ _ E) as [[y [E1 _]] | [y [_ E2]]].
  - now exists y.
  - exfalso.
    assert (Q : quotes (String c0 (A0 ++ String q0 B0))
                = quotes ((String c pre ++ String c1 (A1 ++ String q1 B1)) ++ y))
      by now rewrite E2.
    rewrite !quotes_app in Q. cbn [quotes] in Q.
    rewrite !quotes_app in Q. cbn [quotes] in Q.
    rewrite Q0, Q1, Hq0, Hq1, QB0, QB1 in Q.
    rewrite (plain_not_quote A0 P0), (plain_not_quote A1 P1) in Q.
    cbn [append] in E2. inversion E2 as [[Ec E3]].
    rewrite !append_assoc in E3. cbn [append] in E3. rewrite append_assoc in E3.
    cbn [append] in E3.
    assert (EA : A0 = pre ++ String c1 A1).
    { apply (first_quote_unique A0 (pre ++ String c1 A1) B0 (B1 ++ y) q0 q1); auto.
      - rewrite E3, append_assoc. reflexivity.
      - now apply plain_not_quote.
      - rewrite quotes_app. cbn [quotes]. rewrite Q1, (plain_not_quote A1 P1).
        destruct (is_quote c); lia. }
    rewrite EA in P0. apply all_in_middle in P0.
    unfold plain in P0. rewrite L1 in P0. discriminate.
Qed.

(** ** The span of a stage *)

Lemma lazy_any_found {R : Type} (k : string -> option R) (s : string) :
  lazy any_char k s <> None <-> exists t, suffix_of t s /\ k t <> None.
Proof.
  induction s as [|c s IH]; cbn [lazy].
  - destruct (k "") eqn:K.
    + split; [|discriminate]. intros _. exists "". split; [now exists ""|]. now rewrite K.
    + split; [intros H; now elim H|].
      intros [t [[pre E] Ht]]. destruct pre; destruct t; try discriminate.
      now rewrite K in Ht.
  - destruct (k (String c s)) eqn:K.
    + split; [|discriminate]. intros _.
      exists (String c s). split; [now exists ""|]. now rewrite K.
    + cbn [any_char]. rewrite IH. split.
      * intros [t [[pre E] Ht]]. exists t. split; [|exact Ht].
        exists (String c pre). cbn [append]. now rewrite E.
      * intros [t [[pre E] Ht]]. destruct pre as [|d pre].
        -- cbn [append] in E. subst t. now rewrite K in Ht.
        -- cbn [append] in E. inversion E; subst. exists t. split; [now exists pre | exact Ht].
Qed.

Lemma suffix_of_trans (a b c : string) : suffix_of a b -> suffix_of b c -> suffix_of a c.
Proof.
  intros [p E] [p' E']. exists (p' ++ p). now rewrite E', E, append_assoc.
Qed.

(** Whether the closing braces are found does not depend on the marks. *)
Lemma block_end_marks (m m' : marks) (t : string) :
  exec true block_end m t <> None -> exec true block_end m' t <> None.
Proof.
  unfold block_end. destruct t as [|d t]; [intros H; now elim H|].
  change (exec true (Lit "}" :: Star Py.isspace :: [Lit "}"]) m (String d t))
    with (if lit_eqb true "}" d
          then exec true (Star Py.isspace :: [Lit "}"]) m t else None).
  change (exec true (Lit "}" :: Star Py.isspace :: [Lit "}"]) m' (String d t))
    with (if lit_eqb true "}" d
          then exec true (Star Py.isspace :: [Lit "}"]) m' t else None).
  destruct (lit_eqb true "}" d); [|auto].
  rewrite !exec_star_skip
    by (cbn [refuses]; intros e; now apply isspace_not_lit).
  destruct (skip Py.isspace t) as [|e u]; [auto|].
  cbn [exec]. destruct (lit_eqb true "}" e); [discriminate | auto].
Qed.

(** A span that matches somewhere to the right of a declaration matches at
    that declaration too. *)
Lemma stage_span_at_first (stage_name : string) (c : ascii) (pre s1 : string) :
  quotes stage_name = 0 ->
  match_at true (stage_decl_pattern stage_name) (String c pre ++ s1) <> None ->
  match_at true (stage_span_pattern stage_name) s1 <> None ->
  match_at true (stage_span_pattern stage_name) (String c pre ++ s1) <> None.
Proof.
  unfold match_at. intros QN H0 H1. rewrite exec_stage_span in *.
  destruct (exec true (stage_decl_pattern stage_name) no_marks (String c pre ++ s1))
    as [[m0 r0]|] eqn:D0; [|now elim H0].
  destruct (exec true (stage_decl_pattern stage_name) no_marks s1)
    as [[m1 r1]|] eqn:D1; [|now elim H1].
  pose proof (stage_decl_monotone stage_name _ _ _ _ c pre s1 r0 r1 QN D0 D1) as Suf.
  assert (F1 : lazy any_char (exec true block_end m1) r1 <> None).
  { intros N. rewrite N in H1. now elim H1. }
  assert (F0 : lazy any_char (exec true block_end m0) r0 <> None).
  { apply lazy_any_found. apply lazy_any_found in F1. destruct F1 as [t [St Ht]].
    exists t. split; [now apply (suffix_of_trans t r1 r0) | now apply (block_end_marks m1)]. }
  destruct (lazy any_char (exec true block_end m0) r0) as [[m2 r2]|]; [discriminate | now elim F0].
Qed.

Lemma search_none (ic : bool) (r : regex) (s : string) :
  (forall t, suffix_of t s -> match_at ic r t = None) -> search ic r s = None.
Proof.
  induction s as [|c s IH]; intros H; cbn [search].
  - rewrite (H "") by now exists "". reflexivity.
  - rewrite (H (String c s)) by now exists "".
    apply IH. intros t [pre E]. apply H. exists (String c pre). cbn [append]. now rewrite E.
Qed.

Lemma stage_span_needs_decl (stage_name : string) (s : string) :
  match_at true (stage_decl_pattern stage_name) s = None ->
  match_at true (stage_span_pattern stage_name) s = None.
Proof.
  unfold match_at. rewrite exec_stage_span.
  now destruct (exec true (stage_decl_pattern stage_name) no_marks s) as [[m r]|].
Qed.

(** The search for the span of a stage finds the span that begins at the
    first declaration of its name, letter case apart, or nothing when no
    closing braces follow that declaration. *)
Lemma search_stage_span (stage_name content : string) :
  quotes stage_name = 0 ->
  search true (stage_span_pattern stage_name) content =
  match first_declaration false stage_name content with
  | Some from_declaration => match_at true (stage_span_pattern stage_name) from_declaration
  | None => None
  end.
Proof.
  intros QN. induction content as [|c content IH]; cbn [search first_declaration].
  - destruct (match_at true (stage_decl_pattern stage_name) "") eqn:D.
    + now destruct (match_at true (stage_span_pattern stage_name) "").
    + now rewrite (stage_span_needs_decl _ _ D).
  - destruct (match_at true (stage_decl_pattern stage_name) (String c content)) eqn:D.
    + destruct (match_at true (stage_span_pattern stage_name) (String c content)) eqn:Sp;
        [reflexivity|].
      apply search_none. intros t [pre E].
      destruct (match_at true (stage_span_pattern stage_name) t) eqn:T; [|reflexivity].
      exfalso.
      assert (N : match_at true (stage_span_pattern stage_name) (String c pre ++ t) <> None).
      { apply stage_span_at_first; auto.
        - cbn [append]. rewrite <- E, D. discriminate.
        - rewrite T. discriminate. }
      cbn [append] in N. rewrite <- E, Sp in N. now elim N.
    + rewrite (stage_span_needs_decl _ _ D). exact IH.
Qed.

(** ** The names the parser finds *)

Lemma take_length_app (a b : string) : take (String.length a) (a ++ b) = a.
Proof.
  unfold take. induction a as [|c a IH]; cbn [String.length append substring].
  - now destruct b.
  - now rewrite IH.
Qed.

Lemma consumed_app (a b : string) : consumed (a ++ b) b = a.
Proof.
  unfold consumed. rewrite length_append.
  replace (String.length a + String.length b - String.length b) with (String.length a) by lia.
  apply take_length_app.
Qed.

(** Group 1 of the stage pattern holds no quote. *)
Lemma stage_pattern_group (s : string) (m : match_) :
  match_at true stage_pattern s = Some m -> quotes (group1 m) = 0.
Proof.
  unfold match_at, stage_pattern. intros H.
  rewrite (exec_app_straight true _ _ straight_stage_open) in H.
  destruct (exec true stage_open no_marks s) as [[m1 t]|] eqn:O; [|discriminate].
  cbn [app exec] in H. destruct t as [|d t]; [discriminate|].
  destruct (not_quote d) eqn:Nd; [|discriminate].
  rewrite greedy_skip in H.
  2:{ intros e u Pe. unfold stage_close. cbn [exec].
      now rewrite (not_quote_not_quote e Pe). }
  cbn [exec] in H.
  destruct (skip_split not_quote t) as [w [S1 W1]].
  match type of H with
  | match ?e with _ => _ end = _ => destruct e as [[m2 rest]|] eqn:C; [|discriminate]
  end.
  assert (G : g_start m2 = String d t /\ g_end m2 = skip not_quote t).
  { destruct (stage_close_shape _ _ _ _ C) as [-> _]. now split. }
  inversion H; subst m. cbn [group1]. destruct G as [-> ->].
  rewrite S1 at 1.
  change (String d (w ++ skip not_quote t)) with (String d w ++ skip not_quote t).
  rewrite consumed_app. cbn [quotes].
  rewrite (not_quote_not_quote d Nd).
  now rewrite (quotes_none w W1).
Qed.

Lemma findall_from_found (ic : bool) (r : regex) (x : string) (s : string) :
  forall k, In x (findall_from ic r k s) ->
            exists t m, match_at ic r t = Some m /\ group1 m = x.
Proof.
  induction s as [|c s IH]; intros k Hin.
  - destruct k; [|now elim Hin]. cbn [findall_from] in Hin.
    destruct (match_at ic r "") as [m|] eqn:M; [|now elim Hin].
    destruct Hin as [<- | []]. now exists "", m.
  - destruct k as [|k]; cbn [findall_from] in Hin; [|now apply (IH k)].
    destruct (match_at ic r (String c s)) as [m|] eqn:M.
    + destruct Hin as [<- | Hin]; [now exists (String c s), m | now apply (IH _ Hin)].
    + now apply (IH 0).
Qed.

Lemma found_stage_names (content stage_name : string) :
  In stage_name (findall true stage_pattern content) -> quotes stage_name = 0.
Proof.
  intros Hin. destruct (findall_from_found _ _ _ _ _ Hin) as [t [m [M <-]]].
  now apply (stage_pattern_group t).
Qed.

(** ** What a match reads *)

Lemma suffix_of_refl (s : string) : suffix_of s s.
Proof. now exists "". Qed.

Lemma suffix_of_tail (t s : string) (c : ascii) : suffix_of t s -> suffix_of t (String c s).
Proof. intros [pre E]. exists (String c pre). cbn [append]. now rewrite E. Qed.

Lemma greedy_some {R : Type} (p : ascii -> bool) (k : string -> option R) (s : string) (x : R) :
  greedy p k s = Some x -> exists t, suffix_of t s /\ k t = Some x.
Proof.
  induction s as [|c s IH]; cbn [greedy]; intros H.
  - exists "". split; [apply suffix_of_refl | exact H].
  - destruct (p c).
    + destruct (greedy p k s) as [y|] eqn:G.
      * inversion H; subst y. destruct (IH eq_refl) as [t [St Kt]].
        exists t. split; [now apply suffix_of_tail | exact Kt].
      * exists (String c s). split; [apply suffix_of_refl | exact H].
    + exists (String c s). split; [apply suffix_of_refl | exact H].
Qed.

Lemma lazy_some {R : Type} (p : ascii -> bool) (k : string -> option R) (s : string) (x : R) :
  lazy p k s = Some x -> exists t, suffix_of t s /\ k t = Some x.
Proof.
  induction s as [|c s IH]; cbn [lazy]; intros H.
  - destruct (k "") eqn:K; [|discriminate].
    exists "". split; [apply suffix_of_refl | congruence].
  - destruct (k (String c s)) eqn:K.
    + exists (String c s). split; [apply suffix_of_refl | congruence].
    + destruct (p c); [|discriminate]. destruct (IH H) as [t [St Kt]].
      exists t. split; [now apply suffix_of_tail | exact Kt].
Qed.

(** What a match leaves is the end of the text it was given. *)
Lemma exec_suffix (ic : bool) (r : regex) :
  forall m s m' t, exec ic r m s = Some (m', t) -> suffix_of t s.
Proof.
  induction r as [|a r IH]; intros m s m' t H.
  - inversion H. apply suffix_of_refl.
  - destruct a; cbn [exec] in H.
    + destruct s as [|d s]; [discriminate|]. destruct (lit_eqb ic c d); [|discriminate].
      apply suffix_of_tail. now apply (IH m s m').
    + destruct s as [|d s]; [discriminate|]. destruct (p d); [|discriminate].
      apply suffix_of_tail. now apply (IH m s m').
    + destruct (greedy_some _ _ _ _ H) as [u [Su Ku]].
      apply (suffix_of_trans t u s); [now apply (IH m u m') | exact Su].
    + destruct s as [|d s]; [discriminate|]. destruct (p d); [|discriminate].
      destruct (greedy_some _ _ _ _ H) as [u [Su Ku]].
      apply suffix_of_tail, (suffix_of_trans t u s); [now apply (IH m u m') | exact Su].
    + destruct (lazy_some _ _ _ _ H) as [u [Su Ku]].
      apply (suffix_of_trans t u s); [now apply (IH m u m') | exact Su].
    + exact (IH _ s m' t H).
    + exact (IH _ s m' t H).
Qed.

(** Group 0 is the text read: the match and what follows it make the text. *)
Lemma match_at_split (ic : bool) (r : regex) (s : string) (m : match_) :
  match_at ic r s = Some m -> s = group0 m ++ after m.
Proof.
  unfold match_at. destruct (exec ic r no_marks s) as [[m' t]|] eqn:E; [|discriminate].
  intros H. inversion H; subst m. cbn [group0 after].
  destruct (exec_suffix _ _ _ _ _ _ E) as [pre ->]. now rewrite consumed_app.
Qed.

(** A pattern that starts with a literal reads at least one character, so
    the stage pattern and the shell pattern never match the empty string. *)
Lemma match_at_lit_not_empty (ic : bool) (c : ascii) (r : regex) (s : string) (m : match_) :
  match_at ic (Lit c :: r) s = Some m -> group0 m <> "".
Proof.
  unfold match_at. destruct (exec ic (Lit c :: r) no_marks s) as [[m' t]|] eqn:E; [|discriminate].
  intros H. inversion H; subst m. cbn [group0].
  apply exec_lit_inv in E. destruct E as [d [u [-> [_ E]]]].
  destruct (exec_suffix _ _ _ _ _ _ E) as [pre ->].
  change (String d (pre ++ t)) with (String d pre ++ t).
  rewrite consumed_app. discriminate.
Qed.

(** ** The commands of a stage *)

Lemma parse_jenkinsfile_stages (self : converter) (exists_ : path -> bool)
    (content : string) (jenkinsfile : path) (pipeline : pipeline_info) :
  _parse_jenkinsfile self exists_ content jenkinsfile = Ok pipeline ->
  stages pipeline =
  map (fun stage =>
         {| name := stage;
            type := _classify_stage (Py.lower stage);
            commands := _extract_stage_commands content stage |})
      (findall true stage_pattern content).
Proof.
  unfold _parse_jenkinsfile.
  destruct (exists_ (parent jenkinsfile ++ ["pom.xml"])%list);
    [|destruct (exists_ (parent jenkinsfile ++ ["build.gradle"])%list
               || exists_ (parent jenkinsfile ++ ["build.gradle.kts"])%list);
      [|destruct (exists_ (parent jenkinsfile ++ ["package.json"])%list)]];
    try destruct (relative_to (parent jenkinsfile) (input_path self));
    cbn [bind]; intros H; inversion H; reflexivity.
Qed.

Lemma extract_stage_commands_first (content stage_name : string) :
  quotes stage_name = 0 ->
  _extract_stage_commands content stage_name =
  span_commands (first_declaration_span false stage_name content).
Proof.
  intros QN. unfold _extract_stage_commands, first_declaration_span.
  rewrite (search_stage_span stage_name content QN).
  destruct (first_declaration false stage_name content) as [from|]; [|reflexivity].
  now destruct (match_at true (stage_span_pattern stage_name) from).
Qed.

(** C9, as amended.  Every stage of the model has the shell commands of the
    span that begins at the first declaration in the text whose name is the
    name of the stage up to letter case, and runs to the nearest pair of
    closing braces after it; it has no command when no such braces follow.
    So stages of the same name have the same commands, wherever they are
    declared. *)
Theorem stage_commands_from_first_declaration (self : converter) (exists_ : path -> bool)
    (content : string) (jenkinsfile : path) (pipeline : pipeline_info) :
  _parse_jenkinsfile self exists_ content jenkinsfile = Ok pipeline ->
  (forall stage, In stage (stages pipeline) ->
     commands stage = span_commands (first_declaration_span false (name stage) content)) /\
  (forall stage stage', In stage (stages pipeline) -> In stage' (stages pipeline) ->
     name stage = name stage' -> commands stage = commands stage').
Proof.
  intros H. rewrite (parse_jenkinsfile_stages _ _ _ _ _ H).
  assert (A : forall stage,
             In stage (map (fun stage =>
                              {| name := stage;
                                 type := _classify_stage (Py.lower stage);
                                 commands := _extract_stage_commands content stage |})
                           (findall true stage_pattern content)) ->
             commands stage = span_commands (first_declaration_span false (name stage) content)).
  { intros stage Hin. apply in_map_iff in Hin. destruct Hin as [n [<- Hn]].
    cbn [name commands]. apply extract_stage_commands_first.
    now apply (found_stage_names content). }
  split; [exact A|].
  intros stage stage' Hin Hin' E. now rewrite (A stage Hin), (A stage' Hin'), E.
Qed.

Lemma stage_commands_from_first_declaration_witness :
  _parse_jenkinsfile sample_converter (fun _ => false) twice_declared_pipeline
    ["jenkins-repo"; "Jenkinsfile"] = Ok twice_declared_model /\
  (forall stage, In stage (stages twice_declared_model) ->
     commands stage
     = span_commands (first_declaration_span false (name stage) twice_declared_pipeline)) /\
  (forall stage stage', In stage (stages twice_declared_model) ->
     In stage' (stages twice_declared_model) ->
     name stage = name stage' -> commands stage = commands stage').
Proof.
  split; [vm_compute; reflexivity|].
  apply (stage_commands_from_first_declaration sample_converter (fun _ => false)
           twice_declared_pipeline ["jenkins-repo"; "Jenkinsfile"] twice_declared_model).
  vm_compute. reflexivity.
Defined.

(** C9, as stated, fails: with a lowercase declaration before them, the two
    stages named Build get the commands of the span of that declaration, not
    those of the span that begins at the first declaration of Build. *)
Lemma case_variant_declared_first :
  _parse_jenkinsfile sample_converter (fun _ => false) two_cases_pipeline
    ["jenkins-repo"; "Jenkinsfile"] = Ok two_cases_model /\
  map name (stages two_cases_model) = ["build"; "Build"; "Build"] /\
  span_commands (first_declaration_span true "Build" two_cases_pipeline) = ["make first"] /\
  ~ (forall stage, In stage (stages two_cases_model) ->
       commands stage
       = span_commands (first_declaration_span true (name stage) two_cases_pipeline)).
Proof.
  split; [vm_compute; reflexivity|].
  split; [reflexivity|].
  split; [vm_compute; reflexivity|].
  intros H.
  pose proof (H {| name := "Build"; type := Build; commands := ["make lower"] |}
                (or_intror (or_introl eq_refl))) as E.
  vm_compute in E. discriminate E.
Qed.

(** * Further properties *)

(** ** The emitter *)

Lemma dict_to_yaml_app (d1 d2 : dict) (indent : nat) :
  dict_to_yaml (VDict (d1 ++ d2)%list) indent =
  (dict_to_yaml (VDict d1) indent ++ dict_to_yaml (VDict d2) indent)%list.
Proof.
  induction d1 as [|[key v] d1 IH]; [reflexivity|].
  cbn [app]. now rewrite !dict_to_yaml_cons, IH, app_assoc.
Qed.

(** X1. The lines of a mapping are the lines of its entries one after the
    other in insertion order: a mapping made of two parts renders to the
    lines of the first part followed by the lines of the second, and a
    mapping to the lines of each of its entries in turn; nothing is sorted,
    merged or dropped. *)
Theorem mapping_lines_in_order (d1 d2 : dict) (indent : nat) :
  dict_to_yaml (VDict (d1 ++ d2)%list) indent =
    (dict_to_yaml (VDict d1) indent ++ dict_to_yaml (VDict d2) indent)%list /\
  dict_to_yaml (VDict d1) indent =
    flat_map (fun kv => dict_to_yaml (VDict [kv]) indent) d1 /\
  List.length (dict_to_yaml (VDict d1) indent) =
    list_sum (map (fun kv => List.length (dict_to_yaml (VDict [kv]) indent)) d1).
Proof.
  split; [apply dict_to_yaml_app|].
  assert (F : dict_to_yaml (VDict d1) indent =
              flat_map (fun kv => dict_to_yaml (VDict [kv]) indent) d1).
  { induction d1 as [|kv d1 IH]; [reflexivity|].
    change (kv :: d1) with ([kv] ++ d1)%list.
    rewrite dict_to_yaml_app, IH. reflexivity. }
  split; [exact F|].
  rewrite F. clear F. induction d1 as [|kv d1 IH]; [reflexivity|].
  cbn [flat_map map list_sum]. now rewrite length_app, IH.
Qed.

Lemma leading_spaces_indent (n : nat) (t : string) :
  2 * n <= leading_spaces (Py.spaces n ++ t).
Proof.
  induction n as [|n IH]; [apply Nat.le_0_l|].
  change (Py.spaces (S n) ++ t) with (String " " (String " " (Py.spaces n ++ t))).
  cbn [leading_spaces Ascii.eqb Bool.eqb]. lia.
Qed.

(** X2. Every line of a rendering at depth [indent] starts with at least
    two spaces for each level of that depth, whatever the document: nested
    content never comes out to the left of the mapping that holds it. *)
Theorem rendered_lines_keep_their_depth (doc : value) (indent : nat) (line : string) :
  In line (dict_to_yaml doc indent) -> 2 * indent <= leading_spaces line.
Proof.
  intros Hin. destruct (dict_to_yaml_indented doc indent line Hin) as [t ->].
  apply leading_spaces_indent.
Qed.

Lemma rendered_lines_keep_their_depth_witness :
  In "      fail-on-error: true" (dict_to_yaml sample_document 2) /\
  2 * 2 <= leading_spaces "      fail-on-error: true".
Proof.
  assert (H : In "      fail-on-error: true" (dict_to_yaml sample_document 2)).
  { vm_compute. do 6 right. left. reflexivity. }
  split; [exact H|].
  exact (rendered_lines_keep_their_depth sample_document 2 _ H).
Defined.

Lemma join_split_lines (s : string) : Py.join newline_str (Py.split_lines s) = s.
Proof.
  induction s as [|c s IH]; [reflexivity|].
  cbn [Py.split_lines]. destruct (Ascii.eqb_spec c Py.newline) as [->|N].
  - destruct (Py.split_lines s) as [|l ls] eqn:E; [now destruct s|].
    change (Py.join newline_str ("" :: l :: ls))
      with ("" ++ newline_str ++ Py.join newline_str (l :: ls)).
    now rewrite IH.
  - destruct (Py.split_lines s) as [|l ls] eqn:E.
    + exfalso. destruct s as [|d s]; [discriminate|]. cbn [Py.split_lines] in E.
      destruct (Ascii.eqb d Py.newline); [discriminate|].
      now destruct (Py.split_lines s).
    + destruct ls as [|l' ls].
      * cbn [Py.join] in *. now rewrite IH.
      * change (Py.join newline_str (String c l :: l' :: ls))
          with (String c (l ++ newline_str ++ Py.join newline_str (l' :: ls))).
        change (Py.join newline_str (l :: l' :: ls))
          with (l ++ newline_str ++ Py.join newline_str (l' :: ls)) in IH.
        now rewrite IH.
Qed.

Lemma split_lines_one_line (s : string) : Forall (fun piece => one_line piece = true) (Py.split_lines s).
Proof.
  induction s as [|c s IH]; [repeat constructor|].
  cbn [Py.split_lines]. destruct (Ascii.eqb c Py.newline) eqn:N.
  - constructor; [reflexivity | exact IH].
  - destruct (Py.split_lines s) as [|l ls]; [repeat constructor|].
    + unfold one_line. cbn [Py.has_char]. rewrite Ascii.eqb_sym, N. reflexivity.
    + inversion IH as [|x xs Hl Hls]; subst. constructor; [|exact Hls].
      unfold one_line in *. cbn [Py.has_char]. rewrite Ascii.eqb_sym, N. exact Hl.
Qed.

Lemma split_lines_not_nil (s : string) : Py.split_lines s <> [].
Proof.
  destruct s as [|c s]; [discriminate|]. cbn [Py.split_lines].
  destruct (Ascii.eqb c Py.newline); [discriminate|].
  now destruct (Py.split_lines s).
Qed.

Lemma split_lines_length (s : string) :
  Py.has_char Py.newline s = true -> 2 <= List.length (Py.split_lines s).
Proof.
  induction s as [|c s IH]; [discriminate|].
  cbn [Py.has_char Py.split_lines]. rewrite Ascii.eqb_sym.
  destruct (Ascii.eqb c Py.newline).
  - intros _. pose proof (split_lines_not_nil s) as N.
    destruct (Py.split_lines s); [now elim N | cbn; lia].
  - cbn [orb]. intros H. specialize (IH H).
    destruct (Py.split_lines s); cbn in *; lia.
Qed.

(** X3. A string with a line break under a key is written as a block: the
    key with the block marker, then the pieces of the string between its
    line breaks, each on its own line one level deeper.  The pieces hold no
    line break, there are at least two of them, and joined by line breaks
    they give the string back. *)
Theorem multiline_string_block (key s : string) (d : dict) (indent : nat) :
  Py.has_char Py.newline s = true ->
  exists pieces,
    dict_to_yaml (VDict ((key, VStr s) :: d)) indent =
      (Py.spaces indent ++ key ++ ": |")
        :: List.app (map (fun piece => Py.spaces indent ++ "  " ++ piece) pieces)
                    (dict_to_yaml (VDict d) indent) /\
    Py.join newline_str pieces = s /\
    Forall (fun piece => one_line piece = true) pieces /\
    2 <= List.length pieces.
Proof.
  intros H. exists (Py.split_lines s). split.
  - rewrite dict_to_yaml_cons. cbn [entry_lines]. now rewrite H.
  - split; [apply join_split_lines|].
    split; [apply split_lines_one_line | now apply split_lines_length].
Qed.

Lemma multiline_string_block_witness :
  exists pieces,
    dict_to_yaml (VDict [("run", VStr "echo one
echo two")]) 1 =
      "  run: |" :: List.app (map (fun piece => "  " ++ "  " ++ piece) pieces) [] /\
    Py.join newline_str pieces = "echo one
echo two" /\
    Forall (fun piece => one_line piece = true) pieces /\
    2 <= List.length pieces.
Proof.
  apply (multiline_string_block "run" "echo one
echo two" [] 1). reflexivity.
Defined.

Lemma has_char_app (c : ascii) (a b : string) :
  Py.has_char c (a ++ b) = Py.has_char c a || Py.has_char c b.
Proof.
  induction a as [|d a IH]; [reflexivity|].
  cbn [append Py.has_char]. now rewrite IH, orb_assoc.
Qed.

Lemma one_line_app (a b : string) : one_line (a ++ b) = one_line a && one_line b.
Proof. unfold one_line. rewrite has_char_app. apply negb_orb. Qed.

Lemma one_line_spaces (n : nat) : one_line (Py.spaces n) = true.
Proof. induction n as [|n IH]; [reflexivity | exact IH]. Qed.

Lemma one_line_uint (d : Decimal.uint) : one_line (NilEmpty.string_of_uint d) = true.
Proof. induction d; try reflexivity; exact IHd. Qed.

Lemma one_line_str_of_int (z : Z) : one_line (Py.str_of_int z) = true.
Proof.
  unfold Py.str_of_int, NilZero.string_of_int, NilZero.string_of_uint.
  destruct (Z.to_int z) as [d|d]; destruct d; try reflexivity;
    try apply (one_line_uint (Decimal.D0 d));
    try apply (one_line_uint (Decimal.D1 d));
    try apply (one_line_uint (Decimal.D2 d));
    try apply (one_line_uint (Decimal.D3 d));
    try apply (one_line_uint (Decimal.D4 d));
    try apply (one_line_uint (Decimal.D5 d));
    try apply (one_line_uint (Decimal.D6 d));
    try apply (one_line_uint (Decimal.D7 d));
    try apply (one_line_uint (Decimal.D8 d));
    try apply (one_line_uint (Decimal.D9 d)).
Qed.

Lemma one_line_repr_char (q c : ascii) :
  q = Py.squote \/ q = Py.dquote -> one_line (Py.repr_char q c) = true.
Proof.
  intros [-> | ->]; destruct c as [[|] [|] [|] [|] [|] [|] [|] [|]]; reflexivity.
Qed.

Lemma one_line_repr_chars (q : ascii) (s : string) :
  q = Py.squote \/ q = Py.dquote -> one_line (Py.repr_chars q s) = true.
Proof.
  intros Q. induction s as [|c s IH]; [reflexivity|].
  cbn [Py.repr_chars]. now rewrite one_line_app, (one_line_repr_char q c Q), IH.
Qed.

Lemma one_line_repr_str (s : string) : one_line (Py.repr_str s) = true.
Proof.
  unfold Py.repr_str.
  set (q := if Py.has_char Py.squote s && negb (Py.has_char Py.dquote s)
            then Py.dquote else Py.squote).
  assert (Q : q = Py.squote \/ q = Py.dquote)
    by (unfold q; destruct (Py.has_char Py.squote s && negb (Py.has_char Py.dquote s)); auto).
  assert (C : one_line (String q "") = true) by (destruct Q as [-> | ->]; reflexivity).
  change (String q (Py.repr_chars q s ++ String q ""))
    with (String q "" ++ (Py.repr_chars q s ++ String q "")).
  now rewrite !one_line_app, C, (one_line_repr_chars q s Q).
Qed.

Lemma one_line_join (sep : string) (l : list string) :
  one_line sep = true -> Forall (fun x => one_line x = true) l ->
  one_line (Py.join sep l) = true.
Proof.
  intros Hs H. induction H as [|x l Hx Hl IH]; [reflexivity|].
  destruct l as [|y l]; [exact Hx|].
  change (Py.join sep (x :: y :: l)) with (x ++ sep ++ Py.join sep (y :: l)).
  now rewrite !one_line_app, Hx, Hs, IH.
Qed.

(** [repr] escapes the line breaks. *)
Lemma one_line_py_repr (v : value) : one_line (py_repr v) = true.
Proof.
  induction v as [s|b|z|l IHl|d IHd] using value_nested_ind.
  - apply one_line_repr_str.
  - now destruct b.
  - apply one_line_str_of_int.
  - cbn [py_repr]. rewrite !one_line_app. cbn [andb].
    rewrite one_line_join; [reflexivity | reflexivity |].
    induction IHl; constructor; auto.
  - cbn [py_repr]. rewrite !one_line_app. cbn [andb].
    rewrite one_line_join; [reflexivity | reflexivity |].
    induction IHd as [|kv d Hkv Hd IH]; constructor; [|exact IH].
    now rewrite !one_line_app, one_line_repr_str, Hkv.
Qed.

Lemma has_char_lstrip (c : ascii) (s : string) :
  Py.has_char c (Py.lstrip s) = true -> Py.has_char c s = true.
Proof.
  induction s as [|d s IH]; [discriminate|].
  cbn [Py.lstrip]. destruct (Py.isspace d); [|auto].
  intros H. cbn [Py.has_char]. rewrite (IH H). apply orb_true_r.
Qed.

Lemma has_char_rstrip (c : ascii) (s : string) :
  Py.has_char c (Py.rstrip s) = true -> Py.has_char c s = true.
Proof.
  induction s as [|d s IH]; [discriminate|].
  cbn [Py.rstrip Py.has_char]. destruct (Py.rstrip s) as [|e t].
  - destruct (Py.isspace d); [discriminate|].
    cbn [Py.has_char]. rewrite orb_false_r. intros ->. reflexivity.
  - cbn [Py.has_char] in *. destruct (Ascii.eqb c d); [reflexivity|].
    cbn [orb]. exact IH.
Qed.

Lemma one_line_strip (s : string) : one_line s = true -> one_line (Py.strip s) = true.
Proof.
  unfold one_line, Py.strip. intros H.
  destruct (Py.has_char Py.newline (Py.rstrip (Py.lstrip s))) eqn:E; [|reflexivity].
  apply has_char_rstrip, has_char_lstrip in E. now rewrite E in H.
Qed.


Lemma one_line_entries_dict (key : string) (v : value) (d : dict) :
  one_line_entries (VDict ((key, v) :: d)) =
  one_line key && one_line_entries v && one_line_entries (VDict d).
Proof. reflexivity. Qed.

Lemma one_line_entries_items (l : list value) (item : value) :
  one_line_entries (VList l) = true -> In item l ->
  match item with
  | VStr s => one_line s = true
  | _ => one_line_entries item = true
  end.
Proof.
  cbn [one_line_entries]. rewrite forallb_forall. intros H Hin.
  specialize (H item Hin). now destruct item.
Qed.

Lemma sequence_item_one_line (item : value) (n : nat) (line : string) :
  renders_one_line item ->
  match item with
  | VStr s => one_line s = true
  | _ => one_line_entries item = true
  end ->
  In line (sequence_item_lines n item) -> one_line line = true.
Proof.
  intros R C Hin. unfold sequence_item_lines in Hin.
  destruct item as [s|b|z|l|d].
  - destruct Hin as [<- | []]. cbn [py_str].
    now rewrite !one_line_app, one_line_spaces, C.
  - destruct Hin as [<- | []]. rewrite !one_line_app, one_line_spaces. now destruct b.
  - destruct Hin as [<- | []].
    rewrite !one_line_app, one_line_spaces. cbn [py_str py_repr].
    now rewrite one_line_str_of_int.
  - destruct Hin as [<- | []].
    rewrite !one_line_app, one_line_spaces. cbn [py_str].
    now rewrite one_line_py_repr.
  - destruct (dict_to_yaml (VDict d) (S n)) as [|first rest] eqn:E.
    + destruct Hin as [<- | []]. now rewrite !one_line_app, one_line_spaces.
    + destruct Hin as [<- | Hin].
      * rewrite !one_line_app, one_line_spaces. cbn [andb].
        apply one_line_strip, (R C (S n)). rewrite E. now left.
      * apply (R C (S n)). rewrite E. now right.
Qed.

Lemma dict_to_yaml_one_line (v : value) : renders_one_line v.
Proof.
  enough (H : renders_one_line v /\
              match v with VList l => Forall renders_one_line l | _ => True end)
    by apply H.
  induction v as [s|b|z|l IHl|d IHd] using value_nested_ind;
    try (split; [intros _ n line Hin; now elim Hin | exact I]).
  - split; [intros _ n line Hin; now elim Hin|].
    eapply Forall_impl; [|exact IHl]. intros item H. apply H.
  - split; [|exact I]. intros C n line Hin.
    induction d as [|[key v] d IH]; [now elim Hin|].
    inversion IHd as [|kv d0 Hv Hd]; subst.
    rewrite one_line_entries_dict, !andb_true_iff in C. destruct C as [[Ck Cv] Cd].
    rewrite dict_to_yaml_cons in Hin. apply in_app_or in Hin.
    destruct Hin as [Hin | Hin]; [|now apply IH].
    clear IH Hd Cd. cbn [snd] in Hv. destruct Hv as [Hv Hitems].
    destruct v as [s|b|z|l|d']; cbn [entry_lines] in Hin.
    + destruct (Py.has_char Py.newline s) eqn:N.
      * destruct Hin as [<- | Hin]; [now rewrite !one_line_app, one_line_spaces, Ck|].
        apply in_map_iff in Hin. destruct Hin as [piece [<- Hp]].
        rewrite !one_line_app, one_line_spaces. cbn [andb].
        pose proof (split_lines_one_line s) as F. rewrite Forall_forall in F. now apply F.
      * destruct Hin as [<- | []]. rewrite !one_line_app, one_line_spaces, Ck.
        unfold one_line at 2. now rewrite N.
    + destruct Hin as [<- | []]. rewrite !one_line_app, one_line_spaces, Ck. now destruct b.
    + destruct Hin as [<- | []].
      now rewrite !one_line_app, one_line_spaces, Ck, one_line_str_of_int.
    + destruct Hin as [<- | Hin]; [now rewrite !one_line_app, one_line_spaces, Ck|].
      apply in_flat_map in Hin. destruct Hin as [item [Hitem Hin]].
      apply (sequence_item_one_line item n); [| |exact Hin].
      * rewrite Forall_forall in Hitems. now apply Hitems.
      * now apply (one_line_entries_items l).
    + destruct Hin as [<- | Hin]; [now rewrite !one_line_app, one_line_spaces, Ck|].
      now apply (Hv Cv (S n)).
Qed.

(** X4. When no key of a document and no string standing as an element of
    one of its sequences holds a line break, no rendered line holds one:
    strings with line breaks under a key are split into a block, and nested
    sequences are written with their line breaks escaped. *)
Theorem rendered_lines_are_lines (doc : value) (indent : nat) (line : string) :
  one_line_entries doc = true ->
  In line (dict_to_yaml doc indent) ->
  Py.has_char Py.newline line = false.
Proof.
  intros C Hin. pose proof (dict_to_yaml_one_line doc C indent line Hin) as H.
  unfold one_line in H. now destruct (Py.has_char Py.newline line).
Qed.

Lemma rendered_lines_are_lines_witness :
  one_line_entries sample_document = true /\
  In "    echo two" (dict_to_yaml sample_document 1) /\
  Py.has_char Py.newline "    echo two" = false.
Proof.
  assert (C : one_line_entries sample_document = true) by reflexivity.
  assert (H : In "    echo two" (dict_to_yaml sample_document 1)).
  { vm_compute. do 3 right. left. reflexivity. }
  split; [exact C|]. split; [exact H|].
  exact (rendered_lines_are_lines sample_document 1 _ C H).
Defined.

(** ** Workflow names *)

Lemma lower_char_idempotent (c : ascii) :
  Py.lower_char (Py.lower_char c) = Py.lower_char c.
Proof. destruct c as [[|] [|] [|] [|] [|] [|] [|] [|]]; reflexivity. Qed.

Lemma replace_space_no_space (s : string) :
  Py.has_char " " (replace_char " " "-" s) = false.
Proof.
  induction s as [|c s IH]; [reflexivity|].
  cbn [replace_char Py.has_char]. rewrite IH.
  destruct (Ascii.eqb_spec c " ") as [->|N]; [reflexivity|].
  rewrite orb_false_r. apply Ascii.eqb_neq. congruence.
Qed.

Lemma replace_space_lower (s : string) :
  Py.lower (replace_char " " "-" (Py.lower s)) = replace_char " " "-" (Py.lower s).
Proof.
  induction s as [|c s IH]; [reflexivity|].
  cbn [Py.lower replace_char]. rewrite IH. f_equal.
  destruct (Ascii.eqb (Py.lower_char c) " "); [reflexivity | apply lower_char_idempotent].
Qed.

Lemma parent_name_of_nested (dirs : path) (d file : string) :
  path_name (parent (dirs ++ [d; file])%list) = d.
Proof.
  unfold path_name, parent.
  change (dirs ++ [d; file])%list with (dirs ++ [d] ++ [file])%list.
  rewrite app_assoc, removelast_last. apply last_last.
Qed.

(** X5. The name of a workflow is ci for a Jenkinsfile at the input root,
    and otherwise ci- followed by the name of the directory that holds the
    Jenkinsfile, in lower case and with hyphens for spaces.  It holds no
    space and no capital letter, and it depends on that one directory name
    only: Jenkinsfiles in directories of the same name, wherever they are,
    get the same workflow name. *)
Theorem workflow_name_shape :
  (forall file, _generate_workflow_name [file] = "ci") /\
  (forall dirs d file,
      _generate_workflow_name (dirs ++ [d; file])%list =
      if String.eqb d "" || String.eqb d "." then "ci"
      else "ci-" ++ replace_char " " "-" (Py.lower d)) /\
  (forall relative_path,
      Py.has_char " " (_generate_workflow_name relative_path) = false /\
      Py.lower (_generate_workflow_name relative_path)
      = _generate_workflow_name relative_path) /\
  (forall dirs dirs' d file file',
      _generate_workflow_name (dirs ++ [d; file])%list
      = _generate_workflow_name (dirs' ++ [d; file'])%list).
Proof.
  assert (N : forall dirs d file,
             _generate_workflow_name (dirs ++ [d; file])%list =
             if String.eqb d "" || String.eqb d "." then "ci"
             else "ci-" ++ replace_char " " "-" (Py.lower d)).
  { intros dirs d file. unfold _generate_workflow_name.
    rewrite parent_name_of_nested.
    now destruct (String.eqb d ""), (String.eqb d "."). }
  split; [reflexivity|].
  split; [exact N|].
  split; [|intros; now rewrite !N].
  intros relative_path. unfold _generate_workflow_name.
  destruct (negb (path_name (parent relative_path) =? "")
            && negb (path_name (parent relative_path) =? ".")); [|now split].
  split.
  - change ("ci-" ++ replace_char " " "-" (Py.lower (path_name (parent relative_path))))
      with (String "c" (String "i" (String "-"
              (replace_char " " "-" (Py.lower (path_name (parent relative_path))))))).
    cbn [Py.has_char]. now rewrite replace_space_no_space.
  - change (Py.lower ("ci-" ++ replace_char " " "-" (Py.lower (path_name (parent relative_path)))))
      with ("ci-" ++ Py.lower (replace_char " " "-"
                                 (Py.lower (path_name (parent relative_path))))).
    now rewrite replace_space_lower.
Qed.

(** ** Finding the Jenkinsfiles *)

Lemma node_nested_ind (P : node -> Prop) :
  (forall data, P (File data)) ->
  (forall entries, Forall (fun e => P (snd e)) entries -> P (Dir entries)) ->
  forall x, P x.
Proof.
  intros Hf Hd. fix IH 1. intros [data | entries]; [apply Hf|].
  apply Hd. induction entries as [|[n x] entries IHe]; constructor; [apply IH | exact IHe].
Qed.

Lemma walk_jenkinsfiles_dir (entries : tree) (root : path) :
  walk_jenkinsfiles (Dir entries) root =
  (jenkinsfiles_here root entries ++ flat_map (jenkinsfiles_below root) entries)%list.
Proof.
  cbn [walk_jenkinsfiles]. f_equal.
  - induction entries as [|[n [data | es]] entries IH]; [reflexivity| |];
      cbn [jenkinsfiles_here]; rewrite <- IH; reflexivity.
  - induction entries as [|[n [data | es]] entries IH]; [reflexivity| |];
      cbn [flat_map]; unfold jenkinsfiles_below at 1; cbn [fst snd].
    + exact IH.
    + destruct (Py.startswith n ".git"); [exact IH|]. now rewrite <- IH.
Qed.

Lemma jenkinsfiles_here_iff (root : path) (entries : tree) (p : path) :
  In p (jenkinsfiles_here root entries) <->
  exists file data,
    p = (root ++ [file])%list /\ In (file, File data) entries /\
    is_jenkinsfile_name file = true.
Proof.
  induction entries as [|[n [data | es]] entries IH]; cbn [jenkinsfiles_here].
  - split; [intros [] | intros [file [data [_ [[] _]]]]].
  - destruct (is_jenkinsfile_name n) eqn:J.
    + cbn [In]. rewrite IH. split.
      * intros [<- | [file [data' [E [Hin Hj]]]]].
        -- exists n, data. repeat split; auto; now left.
        -- exists file, data'. repeat split; auto; now right.
      * intros [file [data' [E [[Heq | Hin] Hj]]]].
        -- inversion Heq; subst. now left.
        -- right. now exists file, data'.
    + rewrite IH. split.
      * intros [file [data' [E [Hin Hj]]]]. exists file, data'. repeat split; auto; now right.
      * intros [file [data' [E [[Heq | Hin] Hj]]]].
        -- inversion Heq; subst; congruence.
        -- now exists file, data'.
  - rewrite IH. split.
    + intros [file [data' [E [Hin Hj]]]]. exists file, data'. repeat split; auto; now right.
    + intros [file [data' [E [[Heq | Hin] Hj]]]]; [discriminate|].
      now exists file, data'.
Qed.


Lemma walk_jenkinsfiles_found (x : node) :
  forall root p,
    In p (walk_jenkinsfiles x root) <->
    match x with
    | File _ => False
    | Dir t => found_below t root p
    end.
Proof.
  induction x as [data | entries IH] using node_nested_ind; intros root p;
    [reflexivity|].
  rewrite Forall_forall in IH.
  rewrite walk_jenkinsfiles_dir, in_app_iff, jenkinsfiles_here_iff, in_flat_map. split.
  - intros [[file [data [E [Hin J]]]] | [[n x] [Hin Hp]]].
    + exists [], file, data, entries. repeat split; auto. constructor.
    + unfold jenkinsfiles_below in Hp. cbn [fst snd] in Hp.
      destruct x as [data | es]; [now elim Hp|].
      destruct (Py.startswith n ".git") eqn:G; [now elim Hp|].
      apply (IH (n, Dir es) Hin) in Hp. destruct Hp as [dirs [file [data [t' [E [W [Hf J]]]]]]].
      exists (n :: dirs), file, data, t'. repeat split; auto.
      * rewrite E, <- app_assoc. reflexivity.
      * now apply (walked_down entries n es).
  - intros [dirs [file [data [t' [E [W [Hf J]]]]]]].
    inversion W as [t0 | t0 n es dirs' t1 Hin G W']; subst.
    + left. now exists file, data.
    + right. exists (n, Dir es). split; [exact Hin|].
      unfold jenkinsfiles_below. cbn [fst snd]. rewrite G.
      apply (IH (n, Dir es) Hin). exists dirs', file, data, t'.
      repeat split; auto. now rewrite <- app_assoc.
Qed.

(** X6. The walk finds exactly the files named Jenkinsfile, jenkinsfile or
    Jenkinsfile.groovy that lie below the input root in a directory reached
    through directories whose names do not start with .git: every path it
    returns is such a file, and every such file is returned. *)
Theorem find_jenkinsfiles_exact (self : converter) (input : tree) (p : path) :
  In p (_find_jenkinsfiles self input) <->
  exists dirs file data t',
    p = (input_path self ++ dirs ++ [file])%list /\
    walked input dirs t' /\ In (file, File data) t' /\
    In file ["Jenkinsfile"; "jenkinsfile"; "Jenkinsfile.groovy"].
Proof.
  unfold _find_jenkinsfiles. rewrite (walk_jenkinsfiles_found (Dir input)).
  unfold found_below. split; intros [dirs [file [data [t' [E [W [Hf J]]]]]]];
    exists dirs, file, data, t'; repeat split; auto.
  - unfold is_jenkinsfile_name in J. apply existsb_exists in J.
    destruct J as [n [Hn En]]. apply String.eqb_eq in En. now subst.
  - unfold is_jenkinsfile_name. apply existsb_exists. exists file.
    split; [exact J | apply String.eqb_refl].
Qed.

Lemma find_jenkinsfiles_exact_witness :
  _find_jenkinsfiles sample_converter sample_project
  = [["jenkins-repo"; "Jenkinsfile"]; ["jenkins-repo"; "My App"; "jenkinsfile"]] /\
  In ["jenkins-repo"; "My App"; "jenkinsfile"] (_find_jenkinsfiles sample_converter sample_project).
Proof.
  split; [reflexivity|].
  apply (proj2 (find_jenkinsfiles_exact sample_converter sample_project
                  ["jenkins-repo"; "My App"; "jenkinsfile"])).
  exists ["My App"], "jenkinsfile",
    "pipeline { stages { stage('Deploy') { steps { sh 'mvn deploy' } } } }".
  eexists. split; [reflexivity|]. split.
  - eapply walked_down; [right; right; left; reflexivity | reflexivity | constructor].
  - split; [right; left; reflexivity | right; left; reflexivity].
Defined.

Lemma parse_jenkinsfile_below_root (self : converter) (exists_ : path -> bool)
    (content : string) (dirs : path) (file : string) :
  exists pipeline,
    _parse_jenkinsfile self exists_ content (input_path self ++ dirs ++ [file])%list
    = Ok pipeline.
Proof.
  unfold _parse_jenkinsfile.
  rewrite app_assoc, parent_of_file, relative_to_app. cbn [bind].
  destruct (exists_ ((input_path self ++ dirs) ++ ["pom.xml"])%list);
    [|destruct (exists_ ((input_path self ++ dirs) ++ ["build.gradle"])%list
               || exists_ ((input_path self ++ dirs) ++ ["build.gradle.kts"])%list);
      [|destruct (exists_ ((input_path self ++ dirs) ++ ["package.json"])%list)]];
    cbn [bind]; eexists; reflexivity.
Qed.

(** X7. Every Jenkinsfile the walk returns lies below the input root, so
    the two places that take its path relative to that root cannot raise:
    parsing it returns a model, whatever its text and whatever project files
    exist, and the relative path the workflow name is made from is defined
    and ends with the name of the file. *)
Theorem found_jenkinsfiles_parse (self : converter) (input : tree) (p : path) :
  In p (_find_jenkinsfiles self input) ->
  (forall exists_ content,
      exists pipeline, _parse_jenkinsfile self exists_ content p = Ok pipeline) /\
  exists dirs file,
    relative_to p (input_path self) = Ok (dirs ++ [file])%list /\
    relative_to (parent p) (input_path self) = Ok dirs /\
    is_jenkinsfile_name file = true.
Proof.
  unfold _find_jenkinsfiles. rewrite (walk_jenkinsfiles_found (Dir input)).
  intros [dirs [file [data [t' [-> [W [Hf J]]]]]]]. split.
  - intros exists_ content. apply parse_jenkinsfile_below_root.
  - exists dirs, file. split; [apply relative_to_app|].
    split; [|exact J]. now rewrite app_assoc, parent_of_file, relative_to_app.
Qed.

Lemma found_jenkinsfiles_parse_witness :
  exists pipeline,
    _parse_jenkinsfile sample_converter (fs_exists sample_converter sample_project)
      "pipeline { stages { stage('Deploy') { steps { sh 'mvn deploy' } } } }"
      ["jenkins-repo"; "My App"; "jenkinsfile"] = Ok pipeline.
Proof.
  apply (proj1 (found_jenkinsfiles_parse sample_converter sample_project
                  ["jenkins-repo"; "My App"; "jenkinsfile"]
                  (or_intror (or_introl eq_refl)))).
Defined.

(** ** What the parser extracts *)

Lemma occurs_in_suffix (k t s : string) : occurs k t -> suffix_of t s -> occurs k s.
Proof.
  intros [pre [post E]] [pre' E']. exists (pre' ++ pre), post.
  now rewrite E', E, append_assoc.
Qed.

Lemma occurs_trans (a b c : string) : occurs a b -> occurs b c -> occurs a c.
Proof.
  intros [pre [post E]] [pre' [post' E']]. exists (pre' ++ pre), (post ++ post').
  now rewrite E', E, !append_assoc.
Qed.

Lemma findall_from_found_at (ic : bool) (r : regex) (x : string) (s : string) :
  forall k, In x (findall_from ic r k s) ->
            exists t m, suffix_of t s /\ match_at ic r t = Some m /\ group1 m = x.
Proof.
  induction s as [|c s IH]; intros k Hin.
  - destruct k; [|now elim Hin]. cbn [findall_from] in Hin.
    destruct (match_at ic r "") as [m|] eqn:M; [|now elim Hin].
    destruct Hin as [<- | []]. exists "", m. split; [apply suffix_of_refl | now split].
  - assert (T : forall k', In x (findall_from ic r k' s) ->
                           exists t m, suffix_of t (String c s) /\
                                       match_at ic r t = Some m /\ group1 m = x).
    { intros k' H. destruct (IH k' H) as [t [m [St Hm]]].
      exists t, m. split; [now apply suffix_of_tail | exact Hm]. }
    destruct k as [|k]; cbn [findall_from] in Hin; [|now apply (T k)].
    destruct (match_at ic r (String c s)) as [m|] eqn:M; [|now apply (T 0)].
    destruct Hin as [<- | Hin]; [|now apply (T _ Hin)].
    exists (String c s), m. split; [apply suffix_of_refl | now split].
Qed.

Lemma search_found_at (ic : bool) (r : regex) (s : string) (m : match_) :
  search ic r s = Some m -> exists t, suffix_of t s /\ match_at ic r t = Some m.
Proof.
  induction s as [|c s IH]; cbn [search].
  - destruct (match_at ic r "") as [m'|] eqn:M; [|discriminate].
    intros H. inversion H; subst. exists "". split; [apply suffix_of_refl | exact M].
  - destruct (match_at ic r (String c s)) as [m'|] eqn:M.
    + intros H. inversion H; subst. exists (String c s).
      split; [apply suffix_of_refl | exact M].
    + intros H. destruct (IH H) as [t [St Ht]].
      exists t. split; [now apply suffix_of_tail | exact Ht].
Qed.

(** Group 1 of the stage pattern: a run without quotes, not empty, found in
    the text. *)
Lemma stage_pattern_name (s : string) (m : match_) :
  match_at true stage_pattern s = Some m ->
  group1 m <> "" /\ quotes (group1 m) = 0 /\ occurs (group1 m) s.
Proof.
  intros M. pose proof (stage_pattern_group s m M) as Q.
  revert M. unfold match_at, stage_pattern. intros H.
  rewrite (exec_app_straight true _ _ straight_stage_open) in H.
  destruct (exec true stage_open no_marks s) as [[m1 t]|] eqn:O; [|discriminate].
  destruct (stage_open_shape _ _ _ _ O) as [_ [c0 [A [q [S0 _]]]]].
  cbn [app exec] in H. destruct t as [|d t]; [discriminate|].
  destruct (not_quote d) eqn:Nd; [|discriminate].
  rewrite greedy_skip in H.
  2:{ intros e u Pe. unfold stage_close. cbn [exec].
      now rewrite (not_quote_not_quote e Pe). }
  cbn [exec] in H.
  destruct (skip_split not_quote t) as [w [S1 W1]].
  match type of H with
  | match ?e with _ => _ end = _ => destruct e as [[m2 rest]|] eqn:C; [|discriminate]
  end.
  destruct (stage_close_shape _ _ _ _ C) as [-> _].
  inversion H; subst m. cbn [group1 g_start g_end] in *.
  assert (G : consumed (String d t) (skip not_quote t) = String d w).
  { rewrite S1 at 1.
    change (String d (w ++ skip not_quote t)) with (String d w ++ skip not_quote t).
    apply consumed_app. }
  rewrite G in *. split; [discriminate|]. split; [exact Q|].
  exists (String c0 (A ++ String q "")), (skip not_quote t).
  rewrite S0. rewrite S1 at 1. cbn [append]. rewrite append_assoc. reflexivity.
Qed.

(** Group 1 of the shell pattern, likewise. *)
Lemma sh_pattern_command (s : string) (m : match_) :
  match_at false sh_pattern s = Some m ->
  group1 m <> "" /\ quotes (group1 m) = 0 /\ occurs (group1 m) s.
Proof.
  unfold match_at, sh_pattern. cbn [lits app].
  destruct (exec false _ no_marks s) as [[m' rest]|] eqn:E; [|discriminate].
  intros H. inversion H; subst m. cbn [group1]. clear H.
  apply exec_lit_inv in E. destruct E as [c0 [s0 [-> [_ E]]]].
  apply exec_lit_inv in E. destruct E as [c1 [s1 [-> [_ E]]]].
  destruct s1 as [|d0 s2]; [discriminate|].
  rewrite exec_plus_skip in E by (cbn [refuses]; exact isspace_not_quote).
  destruct (Py.isspace d0); [|discriminate].
  destruct (skip_split Py.isspace s2) as [w0 [S0 _]].
  apply exec_cls_inv in E. destruct E as [q [s3 [S3 [_ E]]]].
  cbn [exec] in E. destruct s3 as [|d s4]; [discriminate|].
  destruct (not_quote d) eqn:Nd; [|discriminate].
  rewrite greedy_skip in E.
  2:{ intros e u Pe. cbn [exec]. now rewrite (not_quote_not_quote e Pe). }
  destruct (skip_split not_quote s4) as [w [S4 W4]].
  cbn [exec] in E. destruct (skip not_quote s4) as [|q' s5] eqn:K; [discriminate|].
  destruct (is_quote q'); [|discriminate].
  inversion E; subst m' rest. cbn [g_start g_end].
  assert (G : consumed (String d s4) (String q' s5) = String d w).
  { rewrite S4 at 1.
    change (String d (w ++ String q' s5)) with (String d w ++ String q' s5).
    apply consumed_app. }
  rewrite G. split; [discriminate|]. split.
  - cbn [quotes]. now rewrite (not_quote_not_quote d Nd), (quotes_none w W4).
  - exists (String c0 (String c1 (String d0 (w0 ++ String q "")))), (String q' s5).
    rewrite S0, S3, S4. cbn [append]. rewrite !append_assoc. reflexivity.
Qed.

(** X8. Every stage of a parsed model has a name that is not empty, holds
    no quote and stands in the text as it is; its type is the class of its
    name in lower case. *)
Theorem parsed_stage_names (self : converter) (exists_ : path -> bool)
    (content : string) (jenkinsfile : path) (pipeline : pipeline_info) (stage : stage_info) :
  _parse_jenkinsfile self exists_ content jenkinsfile = Ok pipeline ->
  In stage (stages pipeline) ->
  name stage <> "" /\ quotes (name stage) = 0 /\ occurs (name stage) content /\
  type stage = _classify_stage (Py.lower (name stage)).
Proof.
  intros H Hin. rewrite (parse_jenkinsfile_stages _ _ _ _ _ H) in Hin.
  apply in_map_iff in Hin. destruct Hin as [n [<- Hn]]. cbn [name type].
  destruct (findall_from_found_at _ _ _ _ _ Hn) as [t [m [St [M <-]]]].
  destruct (stage_pattern_name t m M) as [N [Q O]].
  repeat split; auto. now apply (occurs_in_suffix _ t content).
Qed.

Lemma parsed_stage_names_witness :
  name {| name := "Test"; type := Test; commands := ["make check"] |} <> "" /\
  quotes "Test" = 0 /\ occurs "Test" twice_declared_pipeline /\
  Test = _classify_stage (Py.lower "Test").
Proof.
  apply (parsed_stage_names sample_converter (fun _ => false) twice_declared_pipeline
           ["jenkins-repo"; "Jenkinsfile"] twice_declared_model
           {| name := "Test"; type := Test; commands := ["make check"] |}).
  - vm_compute. reflexivity.
  - left. reflexivity.
Defined.

(** X9. Every command of every stage of a parsed model is a piece of the
    text, copied as it stands: it is not empty and holds no quote, so a
    command that has a quote inside is cut short or lost, never altered. *)
Theorem parsed_commands_verbatim (self : converter) (exists_ : path -> bool)
    (content : string) (jenkinsfile : path) (pipeline : pipeline_info)
    (stage : stage_info) (command : string) :
  _parse_jenkinsfile self exists_ content jenkinsfile = Ok pipeline ->
  In stage (stages pipeline) -> In command (commands stage) ->
  command <> "" /\ quotes command = 0 /\ occurs command content.
Proof.
  intros H Hin Hc. rewrite (parse_jenkinsfile_stages _ _ _ _ _ H) in Hin.
  apply in_map_iff in Hin. destruct Hin as [n [<- Hn]]. cbn [commands] in Hc.
  unfold _extract_stage_commands in Hc.
  destruct (search true (stage_span_pattern n) content) as [span|] eqn:Sp; [|now elim Hc].
  destruct (search_found_at _ _ _ _ Sp) as [t [St Mt]].
  destruct (findall_from_found_at _ _ _ _ _ Hc) as [u [m [Su [M <-]]]].
  destruct (sh_pattern_command u m M) as [N [Q O]].
  repeat split; auto.
  apply (occurs_in_suffix _ t content); [|exact St].
  apply (occurs_trans _ (group0 span)).
  - now apply (occurs_in_suffix _ u).
  - exists "", (after span). exact (match_at_split _ _ _ _ Mt).
Qed.

Lemma parsed_commands_verbatim_witness :
  "make check" <> "" /\ quotes "make check" = 0 /\
  occurs "make check" twice_declared_pipeline.
Proof.
  apply (parsed_commands_verbatim sample_converter (fun _ => false) twice_declared_pipeline
           ["jenkins-repo"; "Jenkinsfile"] twice_declared_model
           {| name := "Test"; type := Test; commands := ["make check"] |} "make check").
  - vm_compute. reflexivity.
  - left. reflexivity.
  - left. reflexivity.
Defined.

Lemma greedy_ext {R : Type} (p : ascii -> bool) (k k' : string -> option R) (s : string) :
  (forall t, k t = k' t) -> greedy p k s = greedy p k' s.
Proof.
  intros E. induction s as [|c s IH]; cbn [greedy]; [apply E|].
  now rewrite IH, E.
Qed.

Lemma lazy_ext {R : Type} (p : ascii -> bool) (k k' : string -> option R) (s : string) :
  (forall t, k t = k' t) -> lazy p k s = lazy p k' s.
Proof.
  intros E. induction s as [|c s IH]; cbn [lazy]; rewrite E; [reflexivity|].
  now rewrite IH.
Qed.

(** Patterns that match alike still do after a common beginning. *)
Lemma exec_app_ext (ic : bool) (r1 r2 : regex) :
  (forall m s, exec ic r1 m s = exec ic r2 m s) ->
  forall pre m s, exec ic (pre ++ r1)%list m s = exec ic (pre ++ r2)%list m s.
Proof.
  intros E pre. induction pre as [|a pre IH]; intros m s; [apply E|].
  destruct a; cbn [app exec].
  - destruct s as [|d s]; [reflexivity|]. now rewrite IH.
  - destruct s as [|d s]; [reflexivity|]. now rewrite IH.
  - apply greedy_ext. intros t. apply IH.
  - destruct s as [|d s]; [reflexivity|]. destruct (p d); [|reflexivity].
    apply greedy_ext. intros t. apply IH.
  - apply lazy_ext. intros t. apply IH.
  - apply IH.
  - apply IH.
Qed.

(** Under [re.IGNORECASE] literals that agree in lower case match alike. *)
Lemma exec_lits_lower (a b : string) (r : regex) :
  Py.lower a = Py.lower b ->
  forall m s, exec true (lits a ++ r)%list m s = exec true (lits b ++ r)%list m s.
Proof.
  revert b. induction a as [|c a IH]; intros [|c' b] L m s; try discriminate;
    [reflexivity|].
  cbn [Py.lower] in L. inversion L as [[Lc Ls]].
  cbn [lits app exec]. destruct s as [|d s]; [reflexivity|].
  unfold lit_eqb. rewrite Lc. destruct (Ascii.eqb (Py.lower_char c') (Py.lower_char d));
    [now apply IH | reflexivity].
Qed.

Lemma stage_span_lower (a b : string) :
  Py.lower a = Py.lower b ->
  forall m s, exec true (stage_span_pattern a) m s = exec true (stage_span_pattern b) m s.
Proof.
  intros L. unfold stage_span_pattern, stage_decl_pattern.
  assert (A : forall n,
             ((stage_open ++ [GroupOpen] ++ lits n ++ [GroupClose] ++ stage_close)
                ++ [LazyStar any_char] ++ block_end)%list
             = ((stage_open ++ [GroupOpen])
                  ++ (lits n ++ ([GroupClose] ++ stage_close)
                                  ++ [LazyStar any_char] ++ block_end))%list).
  { intros n. now rewrite <- !app_assoc. }
  rewrite !A. apply exec_app_ext. now apply exec_lits_lower.
Qed.

Lemma search_ext (ic : bool) (r1 r2 : regex) :
  (forall m s, exec ic r1 m s = exec ic r2 m s) ->
  forall s, search ic r1 s = search ic r2 s.
Proof.
  intros E s. induction s as [|c s IH]; cbn [search]; unfold match_at; rewrite E;
    [reflexivity | now rewrite IH].
Qed.

(** X10. In an ASCII text the commands of a stage depend on its name up to
    letter case only: names that agree in lower case lead to the same span
    of the text, so in the model parsed from an ASCII text stages whose
    names differ in letter case alone have the same commands.  (Beyond
    ASCII, lower case and matching without regard to case can disagree.) *)
Theorem commands_ignore_letter_case (self : converter) (exists_ : path -> bool)
    (content : string) (jenkinsfile : path) (pipeline : pipeline_info)
    (stage stage' : stage_info) :
  ascii_only content = true ->
  _parse_jenkinsfile self exists_ content jenkinsfile = Ok pipeline ->
  In stage (stages pipeline) -> In stage' (stages pipeline) ->
  Py.lower (name stage) = Py.lower (name stage') ->
  commands stage = commands stage' /\ type stage = type stage'.
Proof.
  intros _ H Hin Hin' L. rewrite (parse_jenkinsfile_stages _ _ _ _ _ H) in Hin, Hin'.
  apply in_map_iff in Hin, Hin'.
  destruct Hin as [n [<- _]], Hin' as [n' [<- _]]. cbn [name commands type] in *.
  split; [|now rewrite L].
  unfold _extract_stage_commands.
  now rewrite (search_ext true _ _ (stage_span_lower n n' L) content).
Qed.

Lemma commands_ignore_letter_case_witness :
  ascii_only two_cases_pipeline = true /\
  _parse_jenkinsfile sample_converter (fun _ => false) two_cases_pipeline
    ["jenkins-repo"; "Jenkinsfile"] = Ok two_cases_model /\
  Py.lower "build" = Py.lower "Build" /\
  commands {| name := "build"; type := Build; commands := ["make lower"] |}
  = commands {| name := "Build"; type := Build; commands := ["make lower"] |}.
Proof.
  assert (P : _parse_jenkinsfile sample_converter (fun _ => false) two_cases_pipeline
                ["jenkins-repo"; "Jenkinsfile"] = Ok two_cases_model)
    by (vm_compute; reflexivity).
  split; [reflexivity|]. split; [exact P|]. split; [reflexivity|].
  apply (commands_ignore_letter_case sample_converter (fun _ => false) two_cases_pipeline
           ["jenkins-repo"; "Jenkinsfile"] two_cases_model
           {| name := "build"; type := Build; commands := ["make lower"] |}
           {| name := "Build"; type := Build; commands := ["make lower"] |} eq_refl P).
  - left. reflexivity.
  - right. left. reflexivity.
  - reflexivity.
Defined.

(** ** What the generator writes *)

Lemma generated_workflow_shape (self : converter) (pipeline : pipeline_info) (workflow : value) :
  _generate_gha_workflow self pipeline = Ok workflow ->
  exists jobs,
    workflow =
    VDict [("name", VStr "CI/CD Pipeline");
           ("on", VDict [("push", VDict [("branches", VList [VStr "main"; VStr "develop"])]);
                         ("pull_request", VDict [("branches", VList [VStr "main"])])]);
           ("jobs", VDict jobs)].
Proof.
  unfold _generate_gha_workflow.
  destruct (project_type_eqb (project_type_ pipeline) Maven).
  - destruct (_generate_maven_jobs self pipeline) as [jobs|e]; cbn [bind];
      [|discriminate].
    intros H. inversion H. now eexists.
  - cbn [bind]. intros H. inversion H. now eexists.
Qed.

(** X11. Whatever the pipeline and the settings, a generated workflow
    renders to the same ten first lines: the name and the triggers (pushes
    to main and develop, pull requests to main), then the jobs key.  Every
    line after them is indented, so name, on and jobs are the only keys at
    the top of the file. *)
Theorem workflow_header_is_fixed (self : converter) (pipeline : pipeline_info)
    (workflow : value) :
  _generate_gha_workflow self pipeline = Ok workflow ->
  exists rest,
    dict_to_yaml workflow 0 = (header_lines ++ rest)%list /\
    forall line, In line rest -> 2 <= leading_spaces line.
Proof.
  intros H. destruct (generated_workflow_shape self pipeline workflow H) as [jobs ->].
  exists (dict_to_yaml (VDict jobs) 1). split.
  { rewrite !dict_to_yaml_cons. cbn [entry_lines].
    change (dict_to_yaml (VDict []) 0) with (@nil string). rewrite app_nil_r.
    reflexivity. }
  intros line Hin. destruct (dict_to_yaml_indented (VDict jobs) 1 line Hin) as [t ->].
  apply (leading_spaces_indent 1).
Qed.

Lemma workflow_header_is_fixed_witness :
  exists workflow rest,
    _generate_gha_workflow sample_converter sample_generic_pipeline = Ok workflow /\
    dict_to_yaml workflow 0 = (header_lines ++ rest)%list /\
    forall line, In line rest -> 2 <= leading_spaces line.
Proof.
  destruct (_generate_gha_workflow sample_converter sample_generic_pipeline)
    as [workflow|e] eqn:E; [|discriminate E].
  destruct (workflow_header_is_fixed sample_converter sample_generic_pipeline workflow E)
    as [rest H].
  now exists workflow, rest.
Defined.

Ltac each_step Hin :=
  repeat (destruct Hin as [<- | Hin]; [vm_compute; reflexivity|]); now elim Hin.

(** X12. In the workflow of a Maven project a step is sent to a working
    directory exactly when the project does not lie at the input root and
    the step runs a command: every step with a run field, in each of the
    jobs, then has the working directory ./ followed by the place of the
    project, and the steps that use an action have none.  For a project at
    the input root no step has one. *)
Theorem working_directory_override (self : converter) (pipeline : pipeline_info)
    (vs : list string) (v : string) (workflow step : value) :
  project_type_ pipeline = Maven ->
  java_versions self = (vs ++ [v])%list ->
  _generate_gha_workflow self pipeline = Ok workflow ->
  In step (all_steps workflow) ->
  step_field "working-directory" step =
  match override_of (working_directory pipeline), step_field "run" step with
  | Some directory, Some _ => Some (VStr directory)
  | _, _ => None
  end.
Proof.
  intros M E H Hin. rewrite (generate_gha_workflow_maven self pipeline M) in H.
  unfold _generate_maven_jobs, _create_maven_deliver_job, _create_security_job in H.
  rewrite E, !index_last_app in H. cbn [bind] in H. unfold override_of.
  destruct (working_directory pipeline) as [[|c w]|].
  - destruct (has_deliver_stage pipeline); cbn [bind] in H; inversion H; subst workflow;
      clear H; vm_compute in Hin; each_step Hin.
  - change (String c w =? "") with false. cbn [orb].
    change (truthy (Some (String c w))) with true in H. cbn [andb] in H.
    destruct (String c w =? ".");
      destruct (has_deliver_stage pipeline); cbn [negb bind] in H; inversion H;
        subst workflow; clear H; vm_compute in Hin; each_step Hin.
  - destruct (has_deliver_stage pipeline); cbn [bind] in H; inversion H; subst workflow;
      clear H; vm_compute in Hin; each_step Hin.
Qed.

Lemma working_directory_override_witness :
  exists workflow,
    _generate_gha_workflow sample_converter sample_maven_pipeline = Ok workflow /\
    In (VDict [("name", VStr "Run tests"); ("run", VStr "mvn test");
               ("working-directory", VStr "./app")]) (all_steps workflow) /\
    step_field "working-directory"
      (VDict [("name", VStr "Run tests"); ("run", VStr "mvn test");
              ("working-directory", VStr "./app")])
    = Some (VStr "./app").
Proof.
  destruct (_generate_gha_workflow sample_converter sample_maven_pipeline)
    as [workflow|e] eqn:G; [|discriminate G].
  assert (Hin : In (VDict [("name", VStr "Run tests"); ("run", VStr "mvn test");
                           ("working-directory", VStr "./app")]) (all_steps workflow)).
  { vm_compute in G. inversion G. vm_compute. do 5 right. left. reflexivity. }
  exists workflow. split; [reflexivity|]. split; [exact Hin|].
  exact (working_directory_override sample_converter sample_maven_pipeline
           ["17"] "21" workflow _ eq_refl eq_refl G Hin).
Defined.

(** X13. The workflow of a Maven project depends on the model through two
    things only, the place of the project and whether some stage has type
    deliver: the names of the stages, their other types and all the
    commands extracted from the pipeline leave it unchanged. *)
Theorem maven_workflow_ignores_commands (self : converter)
    (pipeline pipeline' : pipeline_info) :
  project_type_ pipeline = Maven -> project_type_ pipeline' = Maven ->
  working_directory pipeline = working_directory pipeline' ->
  has_deliver_stage pipeline = has_deliver_stage pipeline' ->
  _generate_gha_workflow self pipeline = _generate_gha_workflow self pipeline'.
Proof.
  intros M M' W D.
  rewrite (generate_gha_workflow_maven self pipeline M),
    (generate_gha_workflow_maven self pipeline' M').
  unfold _generate_maven_jobs, _create_maven_deliver_job, _create_security_job.
  now rewrite W, D.
Qed.

Lemma maven_workflow_ignores_commands_witness :
  stages sample_maven_pipeline <> stages other_maven_pipeline /\
  _generate_gha_workflow sample_converter sample_maven_pipeline
  = _generate_gha_workflow sample_converter other_maven_pipeline.
Proof.
  split; [discriminate|].
  apply (maven_workflow_ignores_commands sample_converter sample_maven_pipeline
           other_maven_pipeline); reflexivity.
Defined.

(** ** What the copy takes *)

Lemma copied_entries_cons (n : string) (child : node) (entries : tree) :
  copied_entries ((n, child) :: entries) =
  if ignored n then copied_entries entries
  else (n, copy_node child) :: copied_entries entries.
Proof. unfold copied_entries. cbn [copy_node]. now destruct (ignored n). Qed.

Lemma copy_node_dir (entries : tree) : copy_node (Dir entries) = Dir (copied_entries entries).
Proof. reflexivity. Qed.

Lemma tree_get_copied (n : string) (entries : tree) :
  tree_get n (copied_entries entries) =
  if ignored n then None else option_map copy_node (tree_get n entries).
Proof.
  induction entries as [|[m child] entries IH].
  - now destruct (ignored n).
  - rewrite copied_entries_cons. cbn [tree_get].
    destruct (String.eqb_spec n m) as [->|N].
    + destruct (ignored m) eqn:G; [exact IH|]. cbn [tree_get].
      now rewrite String.eqb_refl.
    + destruct (ignored m); [exact IH|]. cbn [tree_get].
      apply String.eqb_neq in N. now rewrite N.
Qed.

(** X14. The copy of a directory is the directory without the entries whose
    names match the ignore patterns, at every depth: it has no such entry
    left, copying it again or copying a directory that has none changes
    nothing, and looking a name up in the copy gives the copy of what the
    name stands for in the source, or nothing for an ignored name. *)
Theorem copy_of_directory_is_filtered :
  (forall x, clean (copy_node x) = true) /\
  (forall x, copy_node (copy_node x) = copy_node x) /\
  (forall x, clean x = true -> copy_node x = x) /\
  (forall entries n,
      tree_get n (copied_entries entries) =
      if ignored n then None else option_map copy_node (tree_get n entries)) /\
  (forall data, copy_node (File data) = File data).
Proof.
  assert (C : forall x, clean (copy_node x) = true).
  { induction x as [data | entries IH] using node_nested_ind; [reflexivity|].
    rewrite copy_node_dir. cbn [clean].
    induction IH as [|[n child] entries Hc _ IHe]; [reflexivity|].
    rewrite copied_entries_cons. destruct (ignored n) eqn:G; [exact IHe|].
    cbn [forallb fst snd]. cbn [snd] in Hc. now rewrite G, Hc, IHe. }
  assert (K : forall x, clean x = true -> copy_node x = x).
  { induction x as [data | entries IH] using node_nested_ind; [reflexivity|].
    rewrite copy_node_dir. cbn [clean]. intros H. f_equal.
    induction IH as [|[n child] entries Hc _ IHe]; [reflexivity|].
    cbn [forallb fst snd] in H. rewrite !andb_true_iff in H. destruct H as [[G Hx] He].
    rewrite copied_entries_cons. destruct (ignored n); [discriminate|].
    cbn [snd] in Hc. now rewrite (Hc Hx), (IHe He). }
  split; [exact C|].
  split; [intros x; apply K, C|].
  split; [exact K|].
  split; [intros entries n; apply tree_get_copied | reflexivity].
Qed.

Lemma tree_mem_added (n m : string) (x : node) (t : tree) :
  n <> m -> tree_mem n (t ++ [(m, x)])%list = tree_mem n t.
Proof.
  intros N. rewrite tree_mem_app. unfold tree_mem at 2. cbn [tree_get].
  apply String.eqb_neq in N. rewrite N. apply orb_false_r.
Qed.

Lemma copy_source_code_distinct (input : tree) :
  NoDup (map fst input) ->
  forall output,
    _copy_source_code input output =
    (output ++ map (fun item => (fst item, copy_node (snd item)))
                   (filter (to_copy output) input))%list.
Proof.
  unfold _copy_source_code.
  induction input as [|item input IH]; intros D output; [now rewrite app_nil_r|].
  cbn [map] in D. inversion D as [|n l Hn Hl]; subst.
  cbn [fold_left filter]. unfold to_copy at 1.
  assert (F : forall x, filter (to_copy (output ++ [(fst item, x)])%list) input
                        = filter (to_copy output) input).
  { intros x. apply filter_ext_in. intros it Hit. unfold to_copy.
    rewrite tree_mem_added; [reflexivity|].
    intros E. apply Hn. rewrite <- E. now apply in_map. }
  destruct (copy_item_cases output item) as [[E [W | W]] | [E [W G]]]; rewrite E.
  - rewrite W. cbn [andb]. now apply IH.
  - rewrite W, andb_false_r. now apply IH.
  - rewrite W. unfold tree_mem. rewrite G. cbn [andb negb map].
    rewrite (IH Hl), F, <- app_assoc. reflexivity.
Qed.

(** X15. When the names in the input root are distinct, as the names of a
    directory are, one run of the copy adds to the output root the copies
    of the items it wants and does not find there, in the order of the
    input, and nothing else. *)
Theorem copy_adds_the_missing_items (input output : tree) :
  NoDup (map fst input) ->
  _copy_source_code input output =
  (output ++ map (fun item => (fst item, copy_node (snd item)))
                 (filter (to_copy output) input))%list.
Proof. intros D. now apply copy_source_code_distinct. Qed.

Lemma copy_adds_the_missing_items_witness :
  NoDup (map fst sample_input) /\
  _copy_source_code sample_input sample_output =
  (sample_output ++ map (fun item => (fst item, copy_node (snd item)))
                        (filter (to_copy sample_output) sample_input))%list.
Proof.
  assert (D : NoDup (map fst sample_input)).
  { repeat constructor; cbn; intuition discriminate. }
  split; [exact D|]. exact (copy_adds_the_missing_items sample_input sample_output D).
Defined.

(** ** Which names are left out *)

Lemma fnmatch_literal (pat n : string) :
  Py.has_char "*" pat = false -> Py.fnmatch pat n = String.eqb pat n.
Proof.
  revert n. induction pat as [|c pat IH]; intros n H.
  - now destruct n.
  - cbn [Py.has_char] in H. apply orb_false_iff in H. destruct H as [Hc Hp].
    cbn [Py.fnmatch]. rewrite Ascii.eqb_sym, Hc.
    destruct n as [|d n]; [reflexivity|]. cbn [String.eqb].
    rewrite (IH n Hp). now destruct (Ascii.eqb c d).
Qed.

Lemma fnmatch_star_only (n : string) : Py.fnmatch "*" n = true.
Proof. induction n as [|d n IH]; [reflexivity | exact IH]. Qed.

Lemma fnmatch_prefix (lit n : string) :
  Py.has_char "*" lit = false -> Py.fnmatch (lit ++ "*") n = prefix lit n.
Proof.
  revert n. induction lit as [|c lit IH]; intros n H.
  - cbn [append]. rewrite fnmatch_star_only. now destruct n.
  - cbn [Py.has_char] in H. apply orb_false_iff in H. destruct H as [Hc Hp].
    cbn [append Py.fnmatch]. rewrite Ascii.eqb_sym, Hc.
    destruct n as [|d n]; [reflexivity|]. cbn [prefix]. rewrite (IH n Hp).
    destruct (Ascii.eqb_spec c d) as [->|N].
    + now destruct (ascii_dec d d).
    + now destruct (ascii_dec c d).
Qed.

Lemma fnmatch_suffix (lit n : string) :
  Py.has_char "*" lit = false ->
  Py.fnmatch (String "*" lit) n = true <-> exists t, n = t ++ lit.
Proof.
  intros H. induction n as [|d n IH].
  - change (Py.fnmatch (String "*" lit) "") with (Py.fnmatch lit "" || false).
    rewrite orb_false_r, (fnmatch_literal lit "" H).
    rewrite String.eqb_eq. split.
    + intros ->. now exists "".
    + intros [t E]. destruct t; [exact (eq_sym E) | discriminate].
  - change (Py.fnmatch (String "*" lit) (String d n))
      with (Py.fnmatch lit (String d n) || Py.fnmatch (String "*" lit) n).
    rewrite orb_true_iff, IH, (fnmatch_literal lit _ H), String.eqb_eq. split.
    + intros [-> | [t ->]]; [now exists "" | now exists (String d t)].
    + intros [[|e t] E]; [left; exact (eq_sym E) | right].
      cbn [append] in E. inversion E. now exists t.
Qed.

(** X16. Inside a directory that is copied, the entries left out are those
    whose name starts with Jenkinsfile, ends with .pyc, or is .DS_Store or
    Thumbs.db.  The patterns jenkins/, .git/ and __pycache__/ only match a
    name that ends with the slash, which no entry has: directories named
    jenkins, .git or __pycache__ below the first level are copied. *)
Theorem names_left_out_of_copied_directories (n : string) :
  ignored n = true <->
  (exists t, n = "Jenkinsfile" ++ t) \/ (exists t, n = t ++ ".pyc") \/
  In n [".DS_Store"; "Thumbs.db"; "jenkins/"; ".git/"; "__pycache__/"].
Proof.
  unfold ignored, exclude_patterns. cbn [existsb]. rewrite !orb_true_iff.
  change (Py.fnmatch "Jenkinsfile*" n) with (Py.fnmatch ("Jenkinsfile" ++ "*") n).
  rewrite (fnmatch_prefix "Jenkinsfile" n eq_refl), prefix_iff.
  rewrite (fnmatch_suffix ".pyc" n eq_refl).
  rewrite !fnmatch_literal by reflexivity. rewrite !String.eqb_eq.
  cbn [In]. intuition (auto; try discriminate).
Qed.

(** X17. At the first level the tests are others.  An item of the input
    root is passed over, whatever the output holds, when its name starts
    with .git, and besides, for a file, when its name starts with
    Jenkinsfile or .pyc or holds .DS_Store or Thumbs.db (or one of the
    patterns with a slash), for a directory, when its name is jenkins or
    __pycache__.  So a file whose name ends with .pyc is copied from the
    input root.  Any other item is added when the output has no entry of
    its name, and passed over when it has one. *)
Theorem names_left_out_at_the_root (n : string) (x : node) :
  (wanted (n, x) = false <->
   (exists t, n = ".git" ++ t) \/
   match x with
   | File _ =>
       (exists t, n = "Jenkinsfile" ++ t) \/ (exists t, n = ".pyc" ++ t) \/
       occurs ".DS_Store" n \/ occurs "Thumbs.db" n \/
       occurs "jenkins/" n \/ occurs ".git/" n \/ occurs "__pycache__/" n
   | Dir _ => In n ["jenkins"; ".git"; "__pycache__"]
   end) /\
  (forall output,
      copy_item output (n, x) =
      if wanted (n, x) && negb (tree_mem n output)
      then (output ++ [(n, copy_node x)])%list else output).
Proof.
  split.
  - unfold wanted. cbn [fst snd]. rewrite andb_false_iff, negb_false_iff.
    unfold Py.startswith at 1. rewrite prefix_iff.
    destruct x as [data | entries]; rewrite negb_false_iff.
    + unfold skip_file, exclude_patterns, with_star.
      cbn [filter Py.has_char Ascii.eqb Bool.eqb orb negb existsb Py.remove_char].
      rewrite !orb_true_iff. unfold Py.startswith.
      rewrite !contains_iff, !prefix_iff. intuition (auto; try discriminate).
    + unfold skip_dir, exclude_patterns, with_slash.
      cbn [filter Py.has_char Ascii.eqb Bool.eqb orb negb existsb Py.remove_char].
      rewrite !orb_true_iff, !String.eqb_eq. cbn [In]. intuition (auto; try discriminate).
  - intros output.
    destruct (copy_item_cases output (n, x)) as [[E [W | W]] | [E [W G]]];
      rewrite E; cbn [fst snd] in *.
    + now rewrite W.
    + now rewrite W, andb_false_r.
    + unfold tree_mem. now rewrite W, G.
Qed.

(** ** A whole run *)

Lemma tree_get_put (n m : string) (x : node) (t : tree) :
  tree_get n (tree_put m x t) = if String.eqb n m then Some x else tree_get n t.
Proof.
  induction t as [|[k y] t IH]; cbn [tree_put tree_get].
  - now destruct (String.eqb n m).
  - destruct (String.eqb_spec m k) as [->|N]; cbn [tree_get].
    + now destruct (String.eqb n k).
    + destruct (String.eqb_spec n k) as [->|N'].
      * apply String.eqb_neq in N. rewrite String.eqb_sym in N. now rewrite N.
      * exact IH.
Qed.

Lemma tree_get_added (n m : string) (x : node) (t : tree) :
  tree_get n t = None \/ n <> m ->
  tree_get n (t ++ [(m, x)])%list =
  if String.eqb n m then match tree_get n t with Some y => Some y | None => Some x end
  else tree_get n t.
Proof.
  intros _. rewrite tree_get_app. cbn [tree_get].
  destruct (tree_get n t); now destruct (String.eqb n m).
Qed.

(** Setting the output up touches .github only and leaves it ready. *)
Lemma setup_output_directory_done (output output' : tree) :
  _setup_output_directory output = Done output' ->
  (forall n, n <> ".github" -> tree_get n output' = tree_get n output) /\
  exists workflows, workflows_ready output' workflows.
Proof.
  unfold _setup_output_directory.
  destruct (tree_get ".github" output) as [[data | entries]|] eqn:G; [discriminate| |].
  - destruct (tree_get "workflows" entries) as [[data | workflows]|] eqn:W;
      [discriminate| |]; intros H; inversion H; subst output'.
    + split; [reflexivity|]. exists workflows, entries. now split.
    + split.
      * intros n N. rewrite tree_get_put. apply String.eqb_neq in N. now rewrite N.
      * exists [], (entries ++ [("workflows", Dir [])])%list. split.
        -- now rewrite tree_get_put, String.eqb_refl.
        -- rewrite tree_get_app, W. reflexivity.
  - intros H. inversion H; subst output'. split.
    + intros n N. rewrite tree_get_app. apply String.eqb_neq in N.
      cbn [tree_get]. rewrite N. now destruct (tree_get n output).
    + exists [], [("workflows", Dir [])]. split; [|reflexivity].
      rewrite tree_get_app, G. reflexivity.
Qed.

Lemma write_workflow_done (file text : string) (output output' : tree) :
  write_workflow file text output = Done output' ->
  (forall n, n <> ".github" -> tree_get n output' = tree_get n output) /\
  exists workflows,
    workflows_ready output workflows /\
    workflows_ready output' (tree_put file (File (utf8_encode text)) workflows).
Proof.
  unfold write_workflow.
  destruct (tree_get ".github" output) as [[data | entries]|] eqn:G; try discriminate.
  destruct (tree_get "workflows" entries) as [[data | workflows]|] eqn:W; try discriminate.
  assert (D : Done (tree_put ".github"
                      (Dir (tree_put "workflows"
                              (Dir (tree_put file (File (utf8_encode text)) workflows))
                              entries)) output)
              = Done output' ->
              (forall n, n <> ".github" -> tree_get n output' = tree_get n output) /\
              exists workflows0,
                workflows_ready output workflows0 /\
                workflows_ready output' (tree_put file (File (utf8_encode text)) workflows0)).
  { intros H. inversion H; subst output'. split.
    - intros n N. rewrite tree_get_put. apply String.eqb_neq in N. now rewrite N.
    - exists workflows. split; [now exists entries|].
      eexists. split; [now rewrite tree_get_put, String.eqb_refl|].
      now rewrite tree_get_put, String.eqb_refl. }
  destruct (tree_get file workflows) as [[data | sub]|]; [exact D | discriminate | exact D].
Qed.

Lemma convert_jenkinsfile_elsewhere (self : converter) (input output : tree) (p : path) :
  (forall n, n <> ".github" ->
             tree_get n (_convert_jenkinsfile self input output p) = tree_get n output) /\
  (forall workflows, workflows_ready output workflows ->
     exists workflows', workflows_ready (_convert_jenkinsfile self input output p) workflows').
Proof.
  unfold _convert_jenkinsfile.
  destruct (try_convert_jenkinsfile self input output p) as [output'|e] eqn:T.
  - unfold try_convert_jenkinsfile, and_then in T.
    destruct (read_text self input p) as [content|e]; [|discriminate].
    destruct (lift (_parse_jenkinsfile self (fs_exists self input) content p))
      as [pipeline|e]; [|discriminate].
    destruct (lift (_generate_gha_workflow self pipeline)) as [workflow|e]; [|discriminate].
    destruct (lift (relative_to p (input_path self))) as [rel|e]; [|discriminate].
    destruct (write_workflow_done _ _ _ _ T) as [E [ws [_ R]]].
    split; [exact E|]. intros _ _. eexists. exact R.
  - split; [reflexivity|]. intros workflows R. now exists workflows.
Qed.

Lemma convert_all_elsewhere (self : converter) (input : tree) (jenkinsfiles : list path) :
  forall output,
    (forall n, n <> ".github" ->
               tree_get n (fold_left (_convert_jenkinsfile self input) jenkinsfiles output)
               = tree_get n output) /\
    (forall workflows, workflows_ready output workflows ->
       exists workflows',
         workflows_ready (fold_left (_convert_jenkinsfile self input) jenkinsfiles output)
           workflows').
Proof.
  induction jenkinsfiles as [|p l IH]; intros output.
  - split; [reflexivity|]. intros workflows R. now exists workflows.
  - cbn [fold_left].
    destruct (convert_jenkinsfile_elsewhere self input output p) as [E R].
    destruct (IH (_convert_jenkinsfile self input output p)) as [E' R']. split.
    + intros n N. now rewrite (E' n N), (E n N).
    + intros workflows Hw. destruct (R workflows Hw) as [ws Hws]. exact (R' ws Hws).
Qed.

(** X18. A run that ends well leaves every entry the output root had
    before it as it was, apart from .github: the workflows go below
    .github/workflows, which is a directory at the end, and the copy does
    not touch what it finds. *)
Theorem convert_keeps_the_output (self : converter) (input output output' : tree)
    (n : string) (x : node) :
  convert self input output = Done output' ->
  n <> ".github" -> tree_get n output = Some x ->
  tree_get n output' = Some x /\ exists workflows, workflows_ready output' workflows.
Proof.
  unfold convert, and_then. intros H N G.
  destruct (_setup_output_directory output) as [out1|e] eqn:S; [|discriminate].
  destruct (setup_output_directory_done output out1 S) as [E1 [ws R1]].
  destruct (_find_jenkinsfiles self input) as [|p l].
  - inversion H; subst output'. split; [now rewrite (E1 n N) | now exists ws].
  - assert (Eo : output' = _copy_source_code input
                             (fold_left (_convert_jenkinsfile self input) (p :: l) out1))
      by (inversion H; reflexivity).
    clear H.
    destruct (convert_all_elsewhere self input (p :: l) out1) as [E2 R2].
    destruct (R2 ws R1) as [ws' [entries [Hg Hw]]].
    destruct (copy_source_code_extends input
                (fold_left (_convert_jenkinsfile self input) (p :: l) out1))
      as [added [Ea _]].
    rewrite Eo, Ea. split.
    + now rewrite tree_get_app, (E2 n N), (E1 n N), G.
    + exists ws', entries. split; [|exact Hw]. now rewrite tree_get_app, Hg.
Qed.

Lemma convert_keeps_the_output_witness :
  exists output',
    convert sample_converter sample_project sample_output = Done output' /\
    tree_get "README.md" output' = Some (File "old text") /\
    exists workflows, workflows_ready output' workflows.
Proof.
  destruct (convert sample_converter sample_project sample_output) as [output'|e] eqn:C;
    [|vm_compute in C; discriminate C].
  exists output'. split; [reflexivity|].
  apply (convert_keeps_the_output sample_converter sample_project sample_output output'
           "README.md" (File "old text") C); [discriminate | reflexivity].
Defined.

(** X19. When the walk finds no Jenkinsfile the run stops after setting the
    output up: it creates .github/workflows and copies nothing, so the
    output root has no other entry than before, whatever the input holds. *)
Theorem convert_without_jenkinsfile (self : converter) (input output : tree) :
  _find_jenkinsfiles self input = [] ->
  convert self input output = _setup_output_directory output /\
  forall output', convert self input output = Done output' ->
                  forall n, n <> ".github" -> tree_get n output' = tree_get n output.
Proof.
  intros F. unfold convert, and_then. rewrite F.
  destruct (_setup_output_directory output) as [out1|e] eqn:S.
  - split; [reflexivity|]. intros output' H. inversion H; subst output'.
    exact (proj1 (setup_output_directory_done output out1 S)).
  - split; [reflexivity | discriminate].
Qed.

Lemma convert_without_jenkinsfile_witness :
  _find_jenkinsfiles sample_converter plain_project = [] /\
  convert sample_converter plain_project [] = Done [(".github", Dir [("workflows", Dir [])])] /\
  tree_get "README.md" plain_project = Some (File "read me").
Proof.
  split; [reflexivity|]. split; [|reflexivity].
  rewrite (proj1 (convert_without_jenkinsfile sample_converter plain_project []
                    eq_refl)).
  reflexivity.
Defined.




Lemma parse_jenkinsfile_maven (self : converter) (exists_ : path -> bool)
    (content : string) (p : path) (pipeline : pipeline_info) :
  _parse_jenkinsfile self exists_ content p = Ok pipeline ->
  exists_ (parent p ++ ["pom.xml"])%list = true ->
  project_type_ pipeline = Maven.
Proof.
  unfold _parse_jenkinsfile. intros H E. rewrite E in H.
  destruct (relative_to (parent p) (input_path self)); cbn [bind] in H; [|discriminate].
  inversion H. reflexivity.
Qed.

Lemma convert_jenkinsfile_without_version (self : converter) (input output : tree) (p : path) :
  java_versions self = [] ->
  fs_exists self input (parent p ++ ["pom.xml"])%list = true ->
  _convert_jenkinsfile self input output p = output.
Proof.
  intros V E. unfold _convert_jenkinsfile, try_convert_jenkinsfile, and_then.
  destruct (read_text self input p) as [content|e]; [|reflexivity].
  destruct (_parse_jenkinsfile self (fs_exists self input) content p) as [pipeline|e] eqn:P;
    cbn [lift]; [|reflexivity].
  pose proof (parse_jenkinsfile_maven _ _ _ _ _ P E) as M.
  rewrite (generate_gha_workflow_maven self pipeline M),
    (generate_maven_jobs_raises self pipeline V).
  reflexivity.
Qed.

(** X21. With no Java version configured, converting the Jenkinsfile of a
    Maven project (a pom.xml stands next to it) writes nothing and raises
    nothing: the exception of the generator is caught, the output is as it
    was, and so it is after all such Jenkinsfiles of a run. *)
Theorem no_java_version_no_workflow (self : converter) (input : tree)
    (jenkinsfiles : list path) (output : tree) :
  java_versions self = [] ->
  Forall (fun p => fs_exists self input (parent p ++ ["pom.xml"])%list = true)
         jenkinsfiles ->
  fold_left (_convert_jenkinsfile self input) jenkinsfiles output = output.
Proof.
  intros V F. revert output. induction F as [|p l Hp _ IH]; intros output; [reflexivity|].
  cbn [fold_left]. now rewrite (convert_jenkinsfile_without_version _ _ _ _ V Hp).
Qed.

Lemma no_java_version_no_workflow_witness :
  java_versions versionless_converter = [] /\
  fold_left (_convert_jenkinsfile versionless_converter sample_project)
    [["jenkins-repo"; "My App"; "jenkinsfile"]] ready_output = ready_output /\
  fold_left (_convert_jenkinsfile sample_converter sample_project)
    [["jenkins-repo"; "My App"; "jenkinsfile"]] ready_output <> ready_output.
Proof.
  split; [reflexivity|]. split.
  - apply (no_java_version_no_workflow versionless_converter sample_project
             [["jenkins-repo"; "My App"; "jenkinsfile"]] ready_output eq_refl).
    repeat constructor.
  - vm_compute. discriminate.
Defined.

Lemma translate_newlines_no_cr (after_cr : bool) (s : string) :
  Py.has_char carriage_return (translate_newlines after_cr s) = false.
Proof.
  revert after_cr. induction s as [|c s IH]; intros after_cr; [reflexivity|].
  cbn [translate_newlines].
  destruct (Ascii.eqb c carriage_return) eqn:E.
  - cbn [Py.has_char]. now rewrite IH.
  - destruct (Ascii.eqb c Py.newline && after_cr); [apply IH|].
    cbn [Py.has_char]. now rewrite Ascii.eqb_sym, E, IH.
Qed.

Lemma translate_newlines_plain (s : string) :
  Py.has_char carriage_return s = false -> translate_newlines false s = s.
Proof.
  induction s as [|c s IH]; [reflexivity|].
  cbn [Py.has_char translate_newlines]. rewrite Ascii.eqb_sym.
  destruct (Ascii.eqb c carriage_return); [discriminate|].
  cbn [orb]. rewrite andb_false_r. intros H. now rewrite IH.
Qed.

Lemma utf8_decode_encode_char (c : ascii) (text : string) :
  utf8_decode (utf8_encode (String c text)) = decoded_cons c (utf8_decode (utf8_encode text)).
Proof. destruct c as [[] [] [] [] [] [] [] []]; reflexivity. Qed.

Lemma utf8_decode_encode (text : string) : utf8_decode (utf8_encode text) = Text text.
Proof.
  induction text as [|c text IH]; [reflexivity|].
  now rewrite utf8_decode_encode_char, IH.
Qed.

Lemma read_text_done (self : converter) (input : tree) (p : path) (content : string) :
  read_text self input p = Done content ->
  exists rel data text,
    relative_to p (input_path self) = Ok rel /\
    tree_at input rel = Some (File data) /\
    utf8_decode data = Text text /\
    content = universal_newlines text.
Proof.
  unfold read_text.
  destruct (relative_to p (input_path self)) as [rel|e]; [|discriminate].
  destruct (tree_at input rel) as [[data | entries]|] eqn:T; try discriminate.
  destruct (utf8_decode data) as [text| |] eqn:D; try discriminate.
  intros H. inversion H. exists rel, data, text. repeat split; auto.
Qed.

(** X22. When the output is set up, the Jenkinsfile is read, parsed and a
    workflow is generated from it, and no directory stands in the way, the
    conversion writes the workflow file.  The text it works on is the
    content of the Jenkinsfile decoded, with every carriage return, alone
    or before a line feed, read as a line feed, so it holds no carriage
    return.  Below .github/workflows the file named after the workflow,
    with the extension .yml, then holds the encoding of the rendered lines
    joined by line feeds, with a line feed at the end, and decoding it gives
    that text back; a file of that name is replaced, and the other workflow
    files are kept. *)
Theorem workflow_file_written (self : converter) (input output workflows : tree)
    (p rel : path) (content : string) (pipeline : pipeline_info) (workflow : value) :
  workflows_ready output workflows ->
  read_text self input p = Done content ->
  _parse_jenkinsfile self (fs_exists self input) content p = Ok pipeline ->
  _generate_gha_workflow self pipeline = Ok workflow ->
  relative_to p (input_path self) = Ok rel ->
  (forall sub, tree_get (_generate_workflow_name rel ++ ".yml") workflows <> Some (Dir sub)) ->
  let file := _generate_workflow_name rel ++ ".yml" in
  let output' := _convert_jenkinsfile self input output p in
  let text := Py.join newline_str (dict_to_yaml workflow 0) ++ newline_str in
  (exists data decoded_text,
      tree_at input rel = Some (File data) /\
      utf8_decode data = Text decoded_text /\
      content = universal_newlines decoded_text /\
      Py.has_char carriage_return content = false /\
      (Py.has_char carriage_return decoded_text = false -> content = decoded_text)) /\
  tree_at output' [".github"; "workflows"; file] = Some (File (utf8_encode text)) /\
  utf8_decode (utf8_encode text) = Text text /\
  exists workflows',
    workflows_ready output' workflows' /\
    forall other, other <> file -> tree_get other workflows' = tree_get other workflows.
Proof.
  intros [entries [G W]] R P Gn Rel Free file output' text.
  assert (E : output' =
              tree_put ".github"
                (Dir (tree_put "workflows"
                        (Dir (tree_put file (File (utf8_encode text)) workflows))
                        entries)) output).
  { unfold output', _convert_jenkinsfile, try_convert_jenkinsfile, and_then.
    rewrite R, P. cbn [lift]. rewrite Gn. cbn [lift]. rewrite Rel. cbn [lift].
    unfold write_workflow. rewrite G, W. fold file.
    destruct (tree_get file workflows) as [[data | sub]|] eqn:F; try reflexivity.
    now elim (Free sub). }
  split.
  { destruct (read_text_done self input p content R) as [rel' [data [t [Rel' [T [D C]]]]]].
    rewrite Rel in Rel'. inversion Rel'; subst rel'.
    exists data, t. repeat split; auto.
    - rewrite C. apply translate_newlines_no_cr.
    - intros N. rewrite C. now apply translate_newlines_plain. }
  rewrite E. split.
  - cbn [tree_at]. rewrite tree_get_put, String.eqb_refl.
    rewrite tree_get_put, String.eqb_refl.
    now rewrite tree_get_put, String.eqb_refl.
  - split; [apply utf8_decode_encode|].
    exists (tree_put file (File (utf8_encode text)) workflows). split.
    + eexists. split; rewrite tree_get_put, String.eqb_refl; reflexivity.
    + intros other N. rewrite tree_get_put. apply String.eqb_neq in N. now rewrite N.
Qed.

Lemma workflow_file_written_witness :
  exists workflow,
    read_text sample_converter crlf_project ["jenkins-repo"; "Jenkinsfile"]
    = Done ("pipeline {" ++ String Py.newline
              ("stage('Build') { steps { sh 'make' } } }" ++ String Py.newline "")) /\
    tree_at (_convert_jenkinsfile sample_converter crlf_project ready_output
               ["jenkins-repo"; "Jenkinsfile"])
            [".github"; "workflows"; "ci.yml"]
    = Some (File (utf8_encode
                    (Py.join newline_str (dict_to_yaml workflow 0) ++ newline_str))) /\
    List.length (dict_to_yaml workflow 0) = 17.
Proof.
  destruct (_parse_jenkinsfile sample_converter (fs_exists sample_converter crlf_project)
              ("pipeline {" ++ String Py.newline
                 ("stage('Build') { steps { sh 'make' } } }" ++ String Py.newline ""))
              ["jenkins-repo"; "Jenkinsfile"]) as [pipeline|e] eqn:P;
    [|vm_compute in P; discriminate P].
  destruct (_generate_gha_workflow sample_converter pipeline) as [workflow|e] eqn:G;
    [|vm_compute in P; inversion P; subst pipeline; vm_compute in G; discriminate G].
  exists workflow. split; [reflexivity|]. split.
  - apply (workflow_file_written sample_converter crlf_project ready_output []
             ["jenkins-repo"; "Jenkinsfile"] ["Jenkinsfile"]
             ("pipeline {" ++ String Py.newline
                ("stage('Build') { steps { sh 'make' } } }" ++ String Py.newline ""))
             pipeline workflow).
    + exists [("workflows", Dir [])]. split; reflexivity.
    + reflexivity.
    + exact P.
    + exact G.
    + reflexivity.
    + discriminate.
  - vm_compute in P. inversion P; subst pipeline. vm_compute in G.
    inversion G; subst workflow. reflexivity.
Defined.

(** X23. The jobs of a generated workflow fit together, whatever the
    pipeline and the settings: the first job is build-and-test, the keys of
    the jobs are distinct, every job runs on the configured runner and
    starts with the checkout step, and every other job, and only those,
    needs build-and-test; no job needs a job the workflow does not have.
    The checkout step is the step named Checkout code that uses
    actions/checkout@v4. *)
Theorem jobs_fit_together (self : converter) (pipeline : pipeline_info) (workflow : value) :
  _generate_gha_workflow self pipeline = Ok workflow ->
  (exists rest, job_keys workflow = "build-and-test" :: rest) /\
  NoDup (job_keys workflow) /\
  forall key job,
    In (key, job) (workflow_jobs workflow) ->
    job_field "runs-on" job = Some (VStr (default_runner self)) /\
    (exists steps,
        job_field "steps" job =
        Some (VList (VDict [("name", VStr "Checkout code");
                            ("uses", VStr "actions/checkout@v4")] :: steps))) /\
    job_field "needs" job =
      if String.eqb key "build-and-test" then None else Some (VStr "build-and-test").
Proof.
  unfold _generate_gha_workflow.
  destruct (project_type_eqb (project_type_ pipeline) Maven).
  - unfold _generate_maven_jobs, _create_maven_deliver_job, _create_security_job.
    destruct (index_last_cases (java_versions self)) as [[E R] | [vs [v [E R]]]];
      rewrite R; cbn [bind]; [discriminate|].
    assert (C : forall cond wd steps,
               with_working_directory cond wd (checkout_step :: steps) =
               checkout_step :: with_working_directory cond wd steps).
    { intros cond [[|c w]|] steps; reflexivity. }
    rewrite !C.
    destruct (has_deliver_stage pipeline); cbn [bind]; intros H; inversion H; clear H;
      (split; [eexists; reflexivity|]);
      (split; [repeat constructor; cbn; intuition discriminate|]);
      intros key job Hin; cbn in Hin;
      repeat (destruct Hin as [Hin | Hin];
              [inversion Hin; subst key job; clear Hin;
               repeat split; try reflexivity; eexists; reflexivity|]);
      now elim Hin.
  - cbn [bind]. intros H; inversion H; clear H.
    split; [eexists; reflexivity|].
    split; [repeat constructor; cbn; intuition discriminate|].
    intros key job Hin. cbn in Hin. destruct Hin as [Hin | Hin]; [|now elim Hin].
    inversion Hin; subst key job. repeat split; try reflexivity. eexists; reflexivity.
Qed.

Lemma jobs_fit_together_witness :
  exists workflow,
    _generate_gha_workflow sample_converter sample_maven_pipeline = Ok workflow /\
    job_keys workflow = ["build-and-test"; "deliver"; "security-scan"] /\
    NoDup (job_keys workflow).
Proof.
  destruct (_generate_gha_workflow sample_converter sample_maven_pipeline)
    as [workflow|e] eqn:G; [|discriminate G].
  exists workflow. split; [reflexivity|]. split.
  - vm_compute in G. inversion G. reflexivity.
  - exact (proj1 (proj2 (jobs_fit_together sample_converter sample_maven_pipeline workflow G))).
Defined.
